(** * Settlement-file reconciliation pipeline (tasks.py)

    A shallow embedding of the pipeline of [tasks.py]: the column-name
    normalizer, the bank schema tables, the type coercers, the chunk
    processor and the transaction materializer with its atomic batch
    commit, followed by the properties of the specification that can be
    stated over it.

    Conventions of the embedding.
    - A Python [str] is a [string]; each [ascii] stands for the code point
      of the same number (0..255).
    - A Python [dict] is a [gmap]; a pandas [DataFrame] is a list of
      labelled, typed columns together with its number of rows and the
      first label of its index.
    - A float is an IEEE 754 binary64 value ([spec_float]); [NaN] is
      [S754_nan].
    - The logger, the database and the Django cache are threaded as an
      explicit [world]; a Python exception is the [Raised] outcome.
    - What pandas parses (numerals, dates) and what the persistent store
      does with a batch are the members of the classes [Pandas] and
      [Store]: the pipeline is verified for every instance of them. *)

From Stdlib Require Import Ascii String ZArith Lia Sorted.
From Corelib Require Import SpecFloat.
From stdpp Require Import base list strings gmap.

Local Open Scope string_scope.
Local Open Scope list_scope.

(** ** Text *)

Module Text.

Definition LF : ascii := "010"%char.

(** [str.isspace] on the code points below 256: TAB, LF, VT, FF, CR, the
    four information separators, SPACE, NEL and NBSP. *)
Definition isspace (c : ascii) : bool :=
  let n := nat_of_ascii c in
  ((9 <=? n)%nat && (n <=? 13)%nat) || ((28 <=? n)%nat && (n <=? 32)%nat)
  || (n =? 133)%nat || (n =? 160)%nat.

Definition is_open (c : ascii) : bool := Ascii.eqb c "["%char.
Definition is_close (c : ascii) : bool := Ascii.eqb c "]"%char.
Definition is_newline (c : ascii) : bool := Ascii.eqb c LF.

(** The end of a match of [.*?\]] read from [r]: the text after the
    first closing bracket, when no line feed stands before it (the dot of
    the pattern matches every character but the line feed). *)
Fixpoint find_close (r : list ascii) : option (list ascii) :=
  match r with
  | [] => None
  | d :: r' =>
      if is_close d then Some r'
      else if is_newline d then None
      else find_close r'
  end.

(** [column_cleaning_regex.sub('', s)] for the pattern [\[.*?\]]: the
    text is read from the left; at an opening bracket that starts a match
    the match is dropped and reading resumes behind it, every other
    character is kept. *)
Fixpoint regex_sub (s : list ascii) : list ascii :=
  match s with
  | [] => []
  | c :: rest =>
      if is_open c then
        match (fix scan (r : list ascii) : option (list ascii) :=
                 match r with
                 | [] => None
                 | d :: r' =>
                     if is_close d then Some (regex_sub r')
                     else if is_newline d then None
                     else scan r'
                 end) rest with
        | Some out => out
        | None => c :: regex_sub rest
        end
      else c :: regex_sub rest
  end.

(** [s.split()]: the maximal runs of non-blank characters, in order;
    [cur] is the run being read. *)
Fixpoint split_from (cur : list ascii) (s : list ascii) : list (list ascii) :=
  match s with
  | [] => match cur with [] => [] | _ => [cur] end
  | c :: r =>
      if isspace c then
        match cur with
        | [] => split_from [] r
        | _ => cur :: split_from [] r
        end
      else split_from (cur ++ [c]) r
  end.

Definition split (s : list ascii) : list (list ascii) := split_from [] s.

Definition nonempty (part : list ascii) : bool :=
  match part with [] => false | _ => true end.

(** [''.join(parts)] *)
Definition join (parts : list (list ascii)) : list ascii := concat parts.

Fixpoint lstrip (s : list ascii) : list ascii :=
  match s with
  | [] => []
  | c :: r => if isspace c then lstrip r else s
  end.

(** [s.strip()] *)
Definition strip (s : list ascii) : list ascii :=
  rev (lstrip (rev (lstrip s))).

Definition dot_or_underscore (c : ascii) : bool :=
  Ascii.eqb c "."%char || Ascii.eqb c "_"%char.

(** The characters of [s.replace(',', '')]. *)
Definition remove_commas (s : list ascii) : list ascii :=
  List.filter (fun c => negb (Ascii.eqb c ","%char)) s.

(** [s.replace(',', '')] on a string. *)
Definition without_commas (s : string) : string :=
  string_of_list_ascii (remove_commas (list_ascii_of_string s)).

End Text.

(** [clean_column_name] *)
Definition clean_chars (column_name : list ascii) : list ascii :=
  let cleaned_name := Text.regex_sub column_name in
  let cleaned_name :=
    Text.join (List.filter Text.nonempty (Text.split cleaned_name)) in
  let cleaned_name :=
    Text.strip
      (List.filter (fun char => negb (Text.dot_or_underscore char)) cleaned_name) in
  cleaned_name.

Definition clean_column_name (column_name : string) : string :=
  string_of_list_ascii (clean_chars (list_ascii_of_string column_name)).

(** ** Python and pandas values *)

(** Nanoseconds since the epoch. *)
Definition Timestamp : Type := Z.

Definition NaN : spec_float := S754_nan.
Definition zero : spec_float := S754_zero false.

(** The objects a row or a transaction dictionary holds. [VSeries] is what
    [row.get] yields for a label that several columns carry; [VFrame] is
    the chunk's [DataFrame] object itself. *)
#[warnings="-register-all"]
Inductive value : Type :=
| VNone
| VStr (s : string)
| VInt (n : Z)
| VFloat (x : spec_float)
| VTimestamp (t : Timestamp)
| VNaT
| VSeries (vs : list value)
| VFrame.

(** The cells of a column of dtype [object]: the readers are called with
    [dtype=str], so a cell is a string or the missing value [NaN]; the chunk
    processor itself writes strings and [None]. *)
Inductive obj : Type :=
| OStr (s : string)
| ONaN
| ONone.

(** The columns by dtype. [FloatCol] holds a numeric column by its binary64
    values: the dtype [int64] that [pd.to_numeric] gives a column of whole
    numbers is not told apart from [float64]. *)
Inductive column_data : Type :=
| ObjectCol (cells : list obj)
| FloatCol (cells : list spec_float)
| DatetimeCol (cells : list (option Timestamp)).

(** A [DataFrame]: its labelled columns in order (labels may repeat), its
    number of rows and its index. The frames of this program come from
    [read_excel] and [read_csv] without [index_col]: their index is a
    [RangeIndex] of step one, given by the label of its first row, and a
    chunk of [read_csv(chunksize=...)] starts where the chunk before it
    ended. *)
Record DataFrame : Type := {
  frame_columns : list (string * column_data);
  nrows : nat;
  index_start : nat
}.

(** [df.index[i]]: the label of the row at position [i]. *)
Definition index_label (df : DataFrame) (i : nat) : nat := index_start df + i.

Definition labels (df : DataFrame) : list string := (frame_columns df).*1.

(** [label in df] and [label in df.columns] *)
Definition has_column (label : string) (df : DataFrame) : bool :=
  bool_decide (label ∈ labels df).

Definition value_of_obj (o : obj) : value :=
  match o with
  | OStr s => VStr s
  | ONaN => VFloat NaN
  | ONone => VNone
  end.

Definition value_of_datetime (t : option Timestamp) : value :=
  match t with
  | Some t => VTimestamp t
  | None => VNaT
  end.

(** The object [iterrows] puts in a row for position [i] of a column. *)
Definition cell_value (c : column_data) (i : nat) : value :=
  match c with
  | ObjectCol cells => default VNone (value_of_obj <$> cells !! i)
  | FloatCol cells => default VNone (VFloat <$> cells !! i)
  | DatetimeCol cells => default VNone (value_of_datetime <$> cells !! i)
  end.

(** A row of [iterrows]: the labels with the row's objects. *)
Definition row : Type := list (string * value).

Definition row_at (df : DataFrame) (i : nat) : row :=
  (fun lc : string * column_data => (lc.1, cell_value lc.2 i)) <$> frame_columns df.

(** [df.iterrows()]: the rows are read off the frame once, before the loop
    body runs. *)
Definition iterrows (df : DataFrame) : list row :=
  row_at df <$> seq 0 (nrows df).

(** [row.get(key)]: [None] for an absent label, the object for a label
    carried once, the sub-series for a repeated label. *)
Definition row_get (r : row) (key : string) : value :=
  match List.filter (fun lv : string * value => bool_decide (lv.1 = key)) r with
  | [] => VNone
  | [lv] => lv.2
  | lvs => VSeries (lvs.*2)
  end.

(** [df.columns = new_labels] *)
Definition set_labels (df : DataFrame) (new_labels : list string) : DataFrame :=
  {| frame_columns := zip new_labels (frame_columns df).*2; nrows := nrows df;
     index_start := index_start df |}.

(** [df.rename(columns=mapping, inplace=True)] *)
Definition rename (df : DataFrame) (mapping : gmap string string) : DataFrame :=
  {| frame_columns :=
       (fun lc : string * column_data => (default lc.1 (mapping !! lc.1), lc.2))
         <$> frame_columns df;
     nrows := nrows df;
     index_start := index_start df |}.

(** What [df[label]] finds. *)
Inductive selection : Type :=
| Missing
| One (c : column_data)
| Many.

Definition select (df : DataFrame) (label : string) : selection :=
  match List.filter (fun lc : string * column_data => bool_decide (lc.1 = label))
          (frame_columns df) with
  | [] => Missing
  | [lc] => One lc.2
  | _ => Many
  end.

(** [df[label] = c]: the columns carrying the label are replaced; a new
    label is appended. *)
Definition set_column (df : DataFrame) (label : string) (c : column_data) : DataFrame :=
  {| frame_columns :=
       if has_column label df then
         (fun lc : string * column_data =>
            if bool_decide (lc.1 = label) then (lc.1, c) else lc) <$> frame_columns df
       else frame_columns df ++ [(label, c)];
     nrows := nrows df;
     index_start := index_start df |}.

(** ** The libraries around the pipeline *)

Inductive exn : Type :=
| KeyError (key : string)
| AttributeError
| ValueError
| TypeError
| DatabaseError.

(** The readers behind [pd.to_numeric] and [pd.to_datetime]; [None] is an
    input they cannot read (with [errors='coerce'] it becomes [NaN],
    respectively [NaT]). [pd.to_numeric] reads each string by itself.
    [pd.to_datetime] reads a column of objects as a whole: it may settle on
    one format from the first strings and hold every cell to it, so the
    date of a cell depends on the cells around it. *)
Class Pandas : Type := {
  numeric_of_string : string -> option spec_float;
  datetime_of_objects : list obj -> list (option Timestamp);
  datetime_of_number : spec_float -> option Timestamp
}.

(** A transaction dictionary. *)
Abbreviation transaction_dict := (gmap string value).

(** The persistent store: [Transaction.bulk_create_transactions] (the model
    class is not part of the sources) takes the batch and a database state
    to the state it leaves behind and the exception it raised, if any. *)
Class Store : Type := {
  db : Type;
  bulk_create_transactions : list transaction_dict -> db -> db * option exn
}.

(** ** Configuration tables *)

Definition BANK_CODE_MAPPING : gmap string Z :=
  {[ "hdfc" := 101%Z; "icici" := 102%Z; "karur_vysya" := 40%Z ]}.

(** An entry of [BANK_MAPPINGS]: a dictionary with the keys ['columns'] and
    ['column_mapping'], which every entry of the table defines. *)
Record schema : Type := {
  schema_columns : list string;
  schema_column_mapping : gmap string string
}.

Definition karur_vysya_booking : schema :=
  {| schema_columns :=
       ["TXN DATE"; "IRCTC ORDER NO."; "BANK BOOKING REF.NO."; "BOOKING AMOUNT";
        "CREDITED ON"];
     schema_column_mapping :=
       {[ "IRCTCORDERNO" := "Order_Id";
          "BANKBOOKINGREFNO" := "Bank_Ref_id";
          "BOOKINGAMOUNT" := "Payable_Merchant";
          "TXNDATE" := "Transaction_Date";
          "CREDITEDON" := "Settlement_Date" ]} |}.

Definition karur_vysya_refund : schema :=
  {| schema_columns :=
       ["REFUND DATE"; "IRCTC ORDER NO."; "BANK BOOKING REF.NO.";
        "BANK REFUND REF.NO."; "REFUND AMOUNT"; "DEBITED ON"];
     schema_column_mapping :=
       {[ "IRCTCORDERNO" := "Order_Id";
          "REFUNDAMOUNT" := "Payable_Merchant";
          "DEBITEDON" := "Settlement_Date";
          "REFUNDDATE" := "Transaction_Date";
          "BANKBOOKINGREFNO" := "Bank_Ref_id";
          "BANKREFUNDREFNO" := "Refund_Order_Id" ]} |}.

Definition icici_both : schema :=
  {| schema_columns :=
       ["POST DATE"; "FT NO."; "SESSION ID [ASPD]"; "ARN NO"; "MID";
        "TRANSACTION DATE"; "NET AMT"; "CARD NUMBER"; "CARD TYPE"; "TID"];
     schema_column_mapping :=
       {[ "TRANSACTIONDATE" := "Transaction_Date";
          "SESSIONID" := "Order_Id";
          "FTNO" := "Transaction_Id";
          "ARNNO" := "Arn_No";
          "MID" := "MID";
          "POSTDATE" := "Settlement_Date";
          "NETAMT" := "Payable_Merchant";
          "CARDNUMBER" := "Card_No";
          "CARDTYPE" := "Card_type";
          "TID" := "Tid" ]} |}.

Definition BANK_MAPPINGS : gmap string (gmap string schema) :=
  {[ "karur_vysya" := {[ "booking" := karur_vysya_booking;
                         "refund" := karur_vysya_refund ]};
     "icici" := {[ "both" := icici_both ]} ]}.

(** The schema lookup at the head of [process_dataframe_chunk]. *)
Definition resolve (bank_name transaction_type : string) : option schema :=
  let bank_mapping := default ∅ (BANK_MAPPINGS !! bank_name) in
  match bank_mapping !! transaction_type with
  | Some columns_mapping => Some columns_mapping
  | None =>
      match bank_mapping !! "both" with
      | Some columns_mapping => Some columns_mapping
      | None => None
      end
  end.

Definition expected_columns (columns_mapping : schema) : list string :=
  clean_column_name <$> schema_columns columns_mapping.

(** ** Log, cache and results *)

Inductive level : Type := DEBUG | INFO | WARNING | ERROR.

Record BatchResult : Type := {
  total_successful : nat;
  total_failed : nat
}.

(** The messages of the pipeline, with the data they are formatted from. *)
Inductive message : Type :=
| ProcessingChunk (bank_name transaction_type merchant_name : string)
| NoValidMapping (bank_name transaction_type : string)
| MissingExpectedColumns (missing_cols : gset string) (bank_name transaction_type : string)
| StartedTransactions (bank_name transaction_type merchant_name : string)
| NoBankId (bank_name : string)
| UnexpectedTransactionType (transaction_type : string)
| CouldNotParseDates (column_name : string) (rows_affected : list nat)
| EncounteredNaT (field : string) (transaction_id : value)
| TransactionFailed (e : exn)
| BatchComplete (success_count fail_count : nat).

Inductive outcome (A : Type) : Type :=
| Returned (a : A)
| Raised (e : exn).
Arguments Returned {A} a.
Arguments Raised {A} e.

(** ** The pipeline *)

Section Pipeline.

Context `{Pandas} `{Store}.

(** What the pipeline acts on: the log, the database and the cache (an
    entry of the cache holds its value and its timeout in seconds). *)
Record world : Type := {
  log : list (level * message);
  database : db;
  cache : gmap string (BatchResult * nat)
}.

(** A computation: it ends by returning or by raising, and leaves a
    world behind in both cases. *)
Definition M (A : Type) : Type := world -> outcome A * world.

#[global] Instance M_ret : MRet M := fun A (a : A) w => (Returned a, w).

#[global] Instance M_bind : MBind M := fun A B (f : A -> M B) (m : M A) w =>
  match m w with
  | (Returned a, w') => f a w'
  | (Raised e, w') => (Raised e, w')
  end.

Definition raise {A : Type} (e : exn) : M A := fun w => (Raised e, w).

(** [logger.debug], [logger.info], [logger.warning], [logger.error] *)
Definition logger (l : level) (msg : message) : M unit := fun w =>
  (Returned tt,
   {| log := log w ++ [(l, msg)]; database := database w; cache := cache w |}).

(** [cache.set(key, value, timeout=timeout)] *)
Definition cache_set (key : string) (v : BatchResult) (timeout : nat) : M unit :=
  fun w =>
    (Returned tt,
     {| log := log w; database := database w;
        cache := <[key := (v, timeout)]> (cache w) |}).

(** [try: body / except Exception as e: handler(e)] *)
Definition try_except {A : Type} (body : M A) (handler : exn -> M A) : M A :=
  fun w =>
    match body w with
    | (Returned a, w') => (Returned a, w')
    | (Raised e, w') => handler e w'
    end.

(** [with transaction.atomic(): body]: when the body raises, the database
    is rolled back to its state at entry and the exception goes on. *)
Definition atomic {A : Type} (body : M A) : M A := fun w =>
  match body w with
  | (Returned a, w') => (Returned a, w')
  | (Raised e, w') =>
      (Raised e, {| log := log w'; database := database w; cache := cache w' |})
  end.

(** The call [Transaction.bulk_create_transactions(batch)]. *)
Definition bulk_create (batch : list transaction_dict) : M unit := fun w =>
  let '(d, e) := bulk_create_transactions batch (database w) in
  (match e with None => Returned tt | Some e => Raised e end,
   {| log := log w; database := d; cache := cache w |}).

(** *** Type coercers *)

(** One cell through [.str.replace(',', '')] and
    [pd.to_numeric(errors='coerce')]. *)
Definition to_amount (cell : obj) : spec_float :=
  match cell with
  | OStr s => default NaN (numeric_of_string (Text.without_commas s))
  | ONaN | ONone => NaN
  end.

(** [convert_payable_to_float]. Looking up an absent label raises
    [KeyError]; a repeated label selects a frame, which has no [.str]; the
    [.str] accessor refuses a column that is not of dtype [object]. *)
Definition convert_payable_to_float (df : DataFrame) (column_name : string)
  : M DataFrame :=
  match select df column_name with
  | Missing => raise (KeyError column_name)
  | Many => raise AttributeError
  | One (ObjectCol cells) =>
      mret (set_column df column_name (FloatCol (to_amount <$> cells)))
  | One (FloatCol _) | One (DatetimeCol _) => raise AttributeError
  end.

(** [pd.to_datetime(column, errors='coerce')] *)
Definition to_datetime (c : column_data) : list (option Timestamp) :=
  match c with
  | ObjectCol cells => datetime_of_objects cells
  | FloatCol cells => datetime_of_number <$> cells
  | DatetimeCol cells => cells
  end.

(** The positions of the cells for which [isna()] holds. *)
Definition isna_positions (cells : list (option Timestamp)) : list nat :=
  (List.filter (fun it : nat * option Timestamp => bool_decide (it.2 = None))
     (imap pair cells)).*1.

(** [df[df[column_name].isna()].index.tolist()] once the column holds
    [cells]: the index labels of the rows without a date. *)
Definition isna_index (df : DataFrame) (cells : list (option Timestamp)) : list nat :=
  index_label df <$> isna_positions cells.

(** [convert_column_to_datetime]. A repeated label selects a frame, which
    [pd.to_datetime] cannot assemble into dates. *)
Definition convert_column_to_datetime (df : DataFrame) (column_name : string)
  : M DataFrame :=
  match select df column_name with
  | Missing => raise (KeyError column_name)
  | Many => raise ValueError
  | One c =>
      let converted := to_datetime c in
      let df := set_column df column_name (DatetimeCol converted) in
      let unsuccessful_dates := isna_index df converted in
      _ ← match unsuccessful_dates with
          | [] => mret tt
          | _ => logger WARNING (CouldNotParseDates column_name unsuccessful_dates)
          end;
      mret df
  end.

Definition datetime_fields : list string :=
  ["Transaction_Date"; "Settlement_Date"; "Refund_Request_Date";
   "Credit_Debit_Date"; "File_upload_Date"].

(** The loop of [handle_nat_in_datetime_fields] over [fields]. *)
Fixpoint handle_nat_loop (fields : list string) (transaction_data : transaction_dict)
  : M transaction_dict :=
  match fields with
  | [] => mret transaction_data
  | field :: fields =>
      match transaction_data !! field with
      | None => raise (KeyError field)
      | Some VNaT =>
          _ ← logger WARNING
                (EncounteredNaT field
                   (default (VStr "Unknown") (transaction_data !! "Transaction_Id")));
          handle_nat_loop fields (<[field := VNone]> transaction_data)
      | Some _ => handle_nat_loop fields transaction_data
      end
  end.

Definition handle_nat_in_datetime_fields (transaction_data : transaction_dict)
  : M transaction_dict :=
  handle_nat_loop datetime_fields transaction_data.

(** *** Transaction materializer *)

Definition banks_with_mid_override : list string := ["hdfc"; "icici"; "indus"].

Definition valid_transaction_types : list string := ["booking"; "refund"; "both"].

(** [convert(df_chunk, label) if label in df_chunk else None]: the
    converters return the frame they changed, so the entry holds the
    frame object. *)
Definition dedicated (convert : DataFrame -> string -> M DataFrame)
    (df_chunk : DataFrame) (label : string) : M (value * DataFrame) :=
  if has_column label df_chunk then
    df_chunk ← convert df_chunk label;
    mret (VFrame, df_chunk)
  else mret (VNone, df_chunk).

(** The dictionary display of [process_transactions], its entries
    evaluated in the order of the source. *)
Definition transaction_data_of (row : row) (df_chunk : DataFrame)
    (bank_name transaction_type merchant_name : string) (bank_id : Z)
  : M (transaction_dict * DataFrame) :=
  let MID :=
    if bool_decide (bank_name ∈ banks_with_mid_override)
    then row_get row "MID" else VInt bank_id in
  '(Refund_Request_Date, df_chunk) ←
     dedicated convert_column_to_datetime df_chunk "Refund_Request_Date";
  '(Gross_Amount, df_chunk) ←
     dedicated convert_payable_to_float df_chunk "Gross_Amount";
  '(Aggregator_Com, df_chunk) ←
     dedicated convert_payable_to_float df_chunk "Aggregator_Com";
  '(Acquirer_Comm, df_chunk) ←
     dedicated convert_payable_to_float df_chunk "Acquirer_Comm";
  '(Payout_from_Nodal, df_chunk) ←
     dedicated convert_payable_to_float df_chunk "Payout_from_Nodal";
  '(Credit_Debit_Date, df_chunk) ←
     dedicated convert_column_to_datetime df_chunk "Credit_Debit_Date";
  '(File_upload_Date, df_chunk) ←
     dedicated convert_column_to_datetime df_chunk "File_upload_Date";
  '(Intl_Amount, df_chunk) ←
     dedicated convert_payable_to_float df_chunk "Intl_Amount";
  '(Domestic_Amount, df_chunk) ←
     dedicated convert_payable_to_float df_chunk "Domestic_Amount";
  mret
    (list_to_map
       [("Transaction_type", VStr transaction_type);
        ("Merchant_Name", VStr merchant_name);
        ("MID", MID);
        ("Transaction_Id", row_get row "Transaction_Id");
        ("Order_Id", row_get row "Order_Id");
        ("Transaction_Date", row_get row "Transaction_Date");
        ("Settlement_Date", row_get row "Settlement_Date");
        ("Refund_Request_Date", Refund_Request_Date);
        ("Gross_Amount", Gross_Amount);
        ("Aggregator_Com", Aggregator_Com);
        ("Acquirer_Comm", Acquirer_Comm);
        ("Payable_Merchant", row_get row "Payable_Merchant");
        ("Payout_from_Nodal", Payout_from_Nodal);
        ("BankName_Receive_Funds", row_get row "BankName_Receive_Funds");
        ("Nodal_Account_No", row_get row "Nodal_Account_No");
        ("Aggregator_Name", row_get row "Aggregator_Name");
        ("Acquirer_Name", row_get row "Acquirer_Name");
        ("Refund_Flag", row_get row "Refund_Flag");
        ("Payments_Type", row_get row "Payments_Type");
        ("MOP_Type", row_get row "MOP_Type");
        ("Credit_Debit_Date", Credit_Debit_Date);
        ("Bank_Name", VStr bank_name);
        ("Refund_Order_Id", row_get row "Refund_Order_Id");
        ("Acq_Id", row_get row "Acq_Id");
        ("Approve_code", row_get row "Approve_code");
        ("Arn_No", row_get row "Arn_No");
        ("Card_No", row_get row "Card_No");
        ("Tid", row_get row "Tid");
        ("Remarks", row_get row "Remarks");
        ("Bank_Ref_id", row_get row "Bank_Ref_id");
        ("File_upload_Date", File_upload_Date);
        ("User_name", row_get row "User_name");
        ("Recon_Status", row_get row "Recon_Status");
        ("Mpr_Summary_Trans", row_get row "Mpr_Summary_Trans");
        ("Merchant_code", row_get row "Merchant_code");
        ("Rec_Fmt", row_get row "Rec_Fmt");
        ("Card_type", row_get row "Card_type");
        ("Intl_Amount", Intl_Amount);
        ("Domestic_Amount", Domestic_Amount);
        ("UDF1", VNone);
        ("UDF2", VNone);
        ("UDF3", VNone);
        ("UDF4", VNone);
        ("UDF5", VNone);
        ("UDF6", VNone);
        ("GST_Number", row_get row "GST_Number");
        ("Credit_Debit_Amount", row_get row "CREDIT_DEBIT_AMOUNT")],
     df_chunk).

(** The variables the row loop updates. *)
Record loop_state : Type := {
  loop_frame : DataFrame;
  bulk_data_transactions : list transaction_dict;
  success_count : nat;
  fail_count : nat
}.

(** The body of [for index, row in df_chunk.iterrows()]. *)
Definition row_body (bank_name transaction_type merchant_name : string)
    (bank_id : Z) (row : row) (st : loop_state) : M loop_state :=
  if negb (bool_decide (transaction_type ∈ valid_transaction_types)) then
    _ ← logger ERROR (UnexpectedTransactionType transaction_type);
    mret {| loop_frame := loop_frame st;
            bulk_data_transactions := bulk_data_transactions st;
            success_count := success_count st;
            fail_count := fail_count st + 1 |}
  else
    '(transaction_data, df_chunk) ←
       transaction_data_of row (loop_frame st) bank_name transaction_type
         merchant_name bank_id;
    transaction_data ← handle_nat_in_datetime_fields transaction_data;
    mret {| loop_frame := df_chunk;
            bulk_data_transactions := bulk_data_transactions st ++ [transaction_data];
            success_count := success_count st + 1;
            fail_count := fail_count st |}.

Fixpoint row_loop (bank_name transaction_type merchant_name : string)
    (bank_id : Z) (rows : list row) (st : loop_state) : M loop_state :=
  match rows with
  | [] => mret st
  | row :: rows =>
      st ← row_body bank_name transaction_type merchant_name bank_id row st;
      row_loop bank_name transaction_type merchant_name bank_id rows st
  end.

(** The first half of [process_transactions], behind the bank-code
    guard: the row loop from its initial state. *)
Definition materialize (df_chunk : DataFrame)
    (bank_name transaction_type merchant_name : string) (bank_id : Z)
  : M loop_state :=
  row_loop bank_name transaction_type merchant_name bank_id (iterrows df_chunk)
    {| loop_frame := df_chunk; bulk_data_transactions := [];
       success_count := 0; fail_count := 0 |}.

(** The second half of [process_transactions]: the atomic commit of the
    batch, the final counts, their publication in the cache. *)
Definition commit_and_publish (st : loop_state) : M BatchResult :=
  let bulk := bulk_data_transactions st in
  fail_count' ←
    try_except
      (_ ← atomic (bulk_create bulk); mret (fail_count st))
      (fun e =>
         _ ← logger ERROR (TransactionFailed e);
         mret (fail_count st + length bulk));
  _ ← logger DEBUG (BatchComplete (success_count st) fail_count');
  let results :=
    {| total_successful := success_count st; total_failed := fail_count' |} in
  _ ← cache_set "latest_transaction_results" results 3600;
  mret results.

(** [process_transactions]; [None] is the bare [return] of the guard. *)
Definition process_transactions (df_chunk : DataFrame)
    (bank_name transaction_type merchant_name : string) : M (option BatchResult) :=
  _ ← logger INFO (StartedTransactions bank_name transaction_type merchant_name);
  match BANK_CODE_MAPPING !! bank_name with
  | None =>
      _ ← logger ERROR (NoBankId bank_name);
      mret None
  | Some bank_id =>
      st ← materialize df_chunk bank_name transaction_type merchant_name bank_id;
      results ← commit_and_publish st;
      mret (Some results)
  end.

(** *** Chunk processor *)

(** [.fillna(0)] on a cell of a float column. *)
Definition fillna_zero (x : spec_float) : spec_float :=
  match x with
  | S754_nan => zero
  | _ => x
  end.

(** [lambda x: 'CREDIT' if x > 0 else 'DEBIT' if x < 0 else None] *)
Definition credit_debit (x : spec_float) : obj :=
  if SFltb zero x then OStr "CREDIT"
  else if SFltb x zero then OStr "DEBIT"
  else ONone.

(** The two assignments of the [icici] branch. They follow a successful
    [convert_payable_to_float], which leaves one float column under the
    label; on any other column the comparison of the lambda with [0] has
    no meaning. *)
Definition derive_credit_debit (df_chunk : DataFrame) : M DataFrame :=
  match select df_chunk "Payable_Merchant" with
  | Missing => raise (KeyError "Payable_Merchant")
  | One (FloatCol cells) =>
      let filled := fillna_zero <$> cells in
      let df_chunk := set_column df_chunk "Payable_Merchant" (FloatCol filled) in
      mret (set_column df_chunk "CREDIT_DEBIT_AMOUNT"
              (ObjectCol (credit_debit <$> filled)))
  | One (ObjectCol _) | One (DatetimeCol _) | Many => raise TypeError
  end.

(** The accepted branch of [process_dataframe_chunk] up to the call of
    [process_transactions]: renaming, coercions, derived column. *)
Definition coerce_chunk (df_chunk : DataFrame) (bank_name : string)
    (column_mapping : gmap string string) : M DataFrame :=
  let df_chunk := rename df_chunk column_mapping in
  df_chunk ←
    (if has_column "Transaction_Date" df_chunk
     then convert_column_to_datetime df_chunk "Transaction_Date"
     else mret df_chunk);
  df_chunk ←
    (if has_column "Settlement_Date" df_chunk
     then convert_column_to_datetime df_chunk "Settlement_Date"
     else mret df_chunk);
  if has_column "Payable_Merchant" df_chunk then
    df_chunk ← convert_payable_to_float df_chunk "Payable_Merchant";
    if bool_decide (bank_name = "icici") then derive_credit_debit df_chunk
    else mret df_chunk
  else mret df_chunk.

(** [all(col in df_chunk.columns for col in expected_columns)] *)
Definition all_expected_present (expected : list string) (df_chunk : DataFrame)
  : bool :=
  forallb (fun col => has_column col df_chunk) expected.

Definition process_dataframe_chunk (df_chunk : DataFrame)
    (bank_name transaction_type merchant_name : string) : M unit :=
  _ ← logger INFO (ProcessingChunk bank_name transaction_type merchant_name);
  let cleaned_columns := clean_column_name <$> labels df_chunk in
  let df_chunk := set_labels df_chunk cleaned_columns in
  match resolve bank_name transaction_type with
  | None => logger ERROR (NoValidMapping bank_name transaction_type)
  | Some columns_mapping =>
      let column_mapping := schema_column_mapping columns_mapping in
      let expected := expected_columns columns_mapping in
      if all_expected_present expected df_chunk then
        df_chunk ← coerce_chunk df_chunk bank_name column_mapping;
        _ ← process_transactions df_chunk bank_name transaction_type merchant_name;
        mret tt
      else
        let missing_cols : gset string :=
          list_to_set expected ∖ list_to_set (labels df_chunk) in
        logger ERROR (MissingExpectedColumns missing_cols bank_name transaction_type)
  end.

End Pipeline.

Arguments world {_}.
Arguments M {_} A.

(** ** Reference instances

    Readers and stores on which the pipeline is run in the witnesses and
    the examples. The general properties are proved for every instance of
    [Pandas] and [Store]. The readers here are partial: they read decimal
    numerals of at most fifteen digits, with or without a fraction and an
    exponent and between blanks, the infinities, and ISO calendar dates,
    cell by cell; what else pandas reads (longer numerals, larger
    exponents, other date formats) they leave unread. The stores keep the
    committed records in a list. *)

Module Reference.

Definition digit (c : ascii) : option Z :=
  let n := nat_of_ascii c in
  if ((48 <=? n)%nat && (n <=? 57)%nat)%bool then Some (Z.of_nat (n - 48)) else None.

(** The digits at the head of [s]: their number, their value after
    [acc], and the rest of the text. *)
Fixpoint digits (acc : Z) (count : nat) (s : list ascii) : Z * nat * list ascii :=
  match s with
  | [] => (acc, count, [])
  | c :: r =>
      match digit c with
      | Some d => digits (10 * acc + d)%Z (S count) r
      | None => (acc, count, s)
      end
  end.

Definition float_of_Z (m : Z) : spec_float := binary_normalize 53 1024 m 0 false.

(** The blanks of the C locale: space, tab, line feed, vertical tab, form
    feed and carriage return. *)
Definition blank (c : ascii) : bool :=
  let n := nat_of_ascii c in
  ((n =? 32) || (9 <=? n) && (n <=? 13))%nat.

Fixpoint skip_blanks (s : list ascii) : list ascii :=
  match s with
  | c :: r => if blank c then skip_blanks r else s
  | [] => []
  end.

(** A sign at the head of [s]: whether it is a minus, and the rest. *)
Definition signed (s : list ascii) : bool * list ascii :=
  match s with
  | c :: r =>
      if Ascii.eqb c "-"%char then (true, r)
      else if Ascii.eqb c "+"%char then (false, r)
      else (false, s)
  | [] => (false, s)
  end.

(** An exponent at the head of [s]: the letter, a sign, digits. Without a
    digit the letter is not part of the numeral. *)
Definition exponent (s : list ascii) : Z * list ascii :=
  match s with
  | c :: r =>
      if (Ascii.eqb c "e"%char || Ascii.eqb c "E"%char)%bool then
        let '(negative, ds) := signed r in
        let '(n, count, rest) := digits 0 0 ds in
        if (count =? 0)%nat then (0%Z, s)
        else ((if negative then - n else n)%Z, rest)
      else (0%Z, s)
  | [] => (0%Z, s)
  end.

Definition lower_case (c : ascii) : ascii :=
  let n := nat_of_ascii c in
  if ((65 <=? n) && (n <=? 90))%nat then ascii_of_nat (n + 32) else c.

(** [inf] and [infinity] in any case, with or without a sign. *)
Definition infinity (s : list ascii) : option spec_float :=
  let '(negative, word) := signed s in
  let word := string_of_list_ascii (lower_case <$> word) in
  if (String.eqb word "inf" || String.eqb word "infinity")%bool
  then Some (S754_infinity negative) else None.

(** [blanks sign digits [. digits] [e sign digits] blanks], or an infinity.
    A numeral of at most fifteen digits and a power of ten between
    [1e-22] and [1e22] are binary64 numbers, so that their product or
    quotient is rounded once, to the nearest number. Longer numerals and
    larger powers, which pandas reads with roundings of its own, are left
    unread. *)
Definition decimal (s : string) : option spec_float :=
  let cs := list_ascii_of_string s in
  let '(negative, ds) := signed (skip_blanks cs) in
  let '(m, n_int, rest) := digits 0 0 ds in
  let '(m, n_frac, rest) :=
    match rest with
    | c :: r => if Ascii.eqb c "."%char then digits m 0 r else (m, 0, rest)
    | [] => (m, 0, rest)
    end in
  if (n_int + n_frac =? 0)%nat then infinity cs
  else
    let '(n, rest) := exponent rest in
    let e := (n - Z.of_nat n_frac)%Z in
    match skip_blanks rest with
    | [] =>
        if ((15 <? n_int + n_frac)%nat || (e <? -22)%Z || (22 <? e)%Z)%bool then None
        else
          let x := if (0 <? e)%Z
                   then SFmul 53 1024 (float_of_Z m) (float_of_Z (10 ^ e))
                   else SFdiv 53 1024 (float_of_Z m) (float_of_Z (10 ^ (- e))) in
          Some (if negative then SFopp x else x)
    | _ :: _ => None
    end.

Definition leap (y : Z) : bool :=
  ((y mod 4 =? 0) && negb (y mod 100 =? 0) || (y mod 400 =? 0))%Z.

Definition days_in_month (y m : Z) : Z :=
  if (m =? 2)%Z then (if leap y then 29 else 28)
  else if ((m =? 4) || (m =? 6) || (m =? 9) || (m =? 11))%Z then 30 else 31.

(** Days from 1970-01-01 to the civil date [y-m-d]. *)
Definition days_from_civil (y m d : Z) : Z :=
  let y := (if m <=? 2 then y - 1 else y)%Z in
  let era := (y / 400)%Z in
  let yoe := (y - era * 400)%Z in
  let mp := ((m + 9) mod 12)%Z in
  let doy := ((153 * mp + 2) / 5 + d - 1)%Z in
  let doe := (yoe * 365 + yoe / 4 - yoe / 100 + doy)%Z in
  (era * 146097 + doe - 719468)%Z.

(** [YYYY-MM-DD], midnight. *)
Definition iso_date (s : string) : option Timestamp :=
  let '(y, ny, rest) := digits 0 0 (list_ascii_of_string s) in
  match rest with
  | c1 :: rest =>
      let '(m, nm, rest) := digits 0 0 rest in
      match rest with
      | c2 :: rest =>
          let '(d, nd, rest) := digits 0 0 rest in
          if (Ascii.eqb c1 "-"%char && Ascii.eqb c2 "-"%char
              && (ny =? 4)%nat && (nm =? 2)%nat && (nd =? 2)%nat
              && (1 <=? m)%Z && (m <=? 12)%Z && (1 <=? d)%Z
              && (d <=? days_in_month y m)%Z
              && match rest with [] => true | _ => false end)%bool
          then Some (days_from_civil y m d * 86400000000000)%Z
          else None
      | [] => None
      end
  | [] => None
  end.

#[export] Instance pandas : Pandas := {
  numeric_of_string := decimal;
  datetime_of_objects :=
    fmap (fun o => match o with OStr s => iso_date s | _ => None end);
  datetime_of_number := fun _ => None
}.

(** A store that appends the batch to the committed records. *)
Definition list_store : Store := {|
  db := list transaction_dict;
  bulk_create_transactions := fun batch d => (d ++ batch, None)
|}.

(** A store that fails: it has written the batch when the error comes. *)
Definition failing_store : Store := {|
  db := list transaction_dict;
  bulk_create_transactions := fun batch d => (d ++ batch, Some DatabaseError)
|}.

Definition empty_world (S : Store) (d : @db S) : @world S :=
  {| log := []; database := d; cache := ∅ |}.

(** A booking chunk of two rows for [karur_vysya]; the second row has an
    unreadable date and an unreadable amount. *)
Definition karur_chunk : DataFrame :=
  {| frame_columns :=
       [("TXN DATE", ObjectCol [OStr "2024-01-15"; OStr "soon"]);
        ("IRCTC ORDER NO.", ObjectCol [OStr "100001"; OStr "100002"]);
        ("BANK BOOKING REF.NO.", ObjectCol [OStr "B1"; OStr "B2"]);
        ("BOOKING AMOUNT", ObjectCol [OStr "1,234.50"; OStr "abc"]);
        ("CREDITED ON", ObjectCol [OStr "2024-01-16"; ONaN])];
     nrows := 2;
     index_start := 0 |}.

(** A chunk of four rows for [icici]. *)
Definition icici_chunk : DataFrame :=
  {| frame_columns :=
       [("POST DATE", ObjectCol [OStr "2024-02-01"; OStr "2024-02-01";
                                 OStr "2024-02-02"; OStr "2024-02-02"]);
        ("FT NO.", ObjectCol [OStr "F1"; OStr "F2"; OStr "F3"; OStr "F4"]);
        ("SESSION ID [ASPD]", ObjectCol [OStr "S1"; OStr "S2"; OStr "S3"; OStr "S4"]);
        ("ARN NO", ObjectCol [OStr "A1"; OStr "A2"; OStr "A3"; OStr "A4"]);
        ("MID", ObjectCol [OStr "M77"; OStr "M77"; OStr "M78"; OStr "M78"]);
        ("TRANSACTION DATE", ObjectCol [OStr "2024-01-31"; OStr "2024-01-31";
                                        OStr "2024-02-01"; OStr "n/a"]);
        ("NET AMT", ObjectCol [OStr "50.00"; OStr "-50.00"; OStr "0.00"; OStr "abc"]);
        ("CARD NUMBER", ObjectCol [OStr "4111"; OStr "4112"; OStr "4113"; OStr "4114"]);
        ("CARD TYPE", ObjectCol [OStr "VISA"; OStr "VISA"; OStr "RUPAY"; OStr "RUPAY"]);
        ("TID", ObjectCol [OStr "T1"; OStr "T2"; OStr "T3"; OStr "T4"])];
     nrows := 4;
     index_start := 0 |}.

(** A frame as the chunk processor hands it to [process_transactions]:
    renamed and coerced, with a date and an amount that were unreadable
    in the second row. *)
Definition prepared_chunk : DataFrame :=
  {| frame_columns :=
       [("Transaction_Date", DatetimeCol [Some 1705276800000000000%Z; None]);
        ("Order_Id", ObjectCol [OStr "100001"; OStr "100002"]);
        ("MID", ObjectCol [OStr "M77"; OStr "M78"]);
        ("Payable_Merchant",
         FloatCol [S754_finite false 5429388417957888 (-42); S754_nan]);
        ("Settlement_Date", DatetimeCol [Some 1705363200000000000%Z; None])];
     nrows := 2;
     index_start := 0 |}.

End Reference.

(** ** File names *)

Module Path.

(** [str.lower] on the code points below 256: the letters A to Z, and the
    capital letters of the upper half (192 to 222 but the multiplication
    sign 215), move up by 32. *)
Definition lower_char (c : ascii) : ascii :=
  let n := nat_of_ascii c in
  if (((65 <=? n)%nat && (n <=? 90)%nat)
      || ((192 <=? n)%nat && (n <=? 222)%nat && negb (n =? 215)%nat))%bool
  then ascii_of_nat (n + 32) else c.

Definition lower (s : list ascii) : list ascii := lower_char <$> s.

(** The text before and the text after the last [sep] of [s], when there
    is one. *)
Fixpoint rsplit (sep : ascii) (s : list ascii) : option (list ascii * list ascii) :=
  match s with
  | [] => None
  | c :: r =>
      match rsplit sep r with
      | Some (before, after) => Some (c :: before, after)
      | None => if Ascii.eqb c sep then Some ([], r) else None
      end
  end.

(** [s.split(sep)[-1]] and [s[s.rfind(sep) + 1:]]: the text after the last
    [sep], the whole text when there is none. *)
Definition after_last (sep : ascii) (s : list ascii) : list ascii :=
  match rsplit sep s with
  | Some (_, after) => after
  | None => s
  end.

(** [os.path.basename] *)
Definition basename (p : list ascii) : list ascii := after_last "/"%char p.

Definition is_dot (c : ascii) : bool := Ascii.eqb c "."%char.
Definition is_slash (c : ascii) : bool := Ascii.eqb c "/"%char.

(** [os.path.splitext(p)[-1]]: the text from the last dot on, when that dot
    stands behind the last slash and some character between the two is not
    a dot; the empty text otherwise. *)
Definition splitext_ext (p : list ascii) : list ascii :=
  match rsplit "."%char p with
  | None => []
  | Some (before, after) =>
      if existsb is_slash after then []
      else if forallb is_dot (after_last "/"%char before) then []
      else "."%char :: after
  end.

End Path.

(** [file.name.lower().split('.')[-1]] in [upload_files] *)
Definition upload_extension (name : string) : string :=
  string_of_list_ascii
    (Path.after_last "."%char (Path.lower (list_ascii_of_string name))).

(** [os.path.basename(file_path)] in [process_uploaded_files] *)
Definition file_name_of (file_path : string) : string :=
  string_of_list_ascii (Path.basename (list_ascii_of_string file_path)).

(** [os.path.splitext(file_name)[-1].lower()] in [process_uploaded_files] *)
Definition file_extension_of (file_name : string) : string :=
  string_of_list_ascii
    (Path.lower (Path.splitext_ext (list_ascii_of_string file_name))).

(** ** The files, the readers and the task queue *)

(** What [pd.read_csv(..., chunksize=50000)] gives: an error at the call,
    or the chunks that the iteration yields and whether it ends regularly
    ([false]: the reader raises behind the last chunk). *)
Inductive csv_reading : Type :=
| CsvError
| CsvChunks (chunks : list DataFrame) (complete : bool).

(** The readers of pandas on the contents of a file: [read_excel] with its
    engine ([None]: the reader raises), and [read_csv]. *)
Class Readers : Type := {
  file_content : Type;
  read_excel : string -> file_content -> option DataFrame;
  read_csv : file_content -> csv_reading
}.

(** The stem of the [k]-th temporary file that
    [tempfile.NamedTemporaryFile] creates: its path without the suffix. *)
Class TempFiles : Type := {
  temp_stem : nat -> string
}.

(** The arguments of a dispatched [process_uploaded_files]. *)
Record task : Type := {
  task_file_paths : list string;
  task_bank_name : string;
  task_transaction_type : string;
  task_file_formats : list string;
  task_merchant_name : string
}.

(** The exceptions that the ingestion driver meets: those of the chunk
    processor, a missing format tag, a missing file, a failing reader. *)
Inductive job_exn : Type :=
| FromPipeline (e : exn)
| IndexError
| FileNotFoundError (file_path : string)
| ReadError.

(** The messages of [process_uploaded_files]. *)
Inductive job_message : Type :=
| StartingUploadedFiles (bank_name transaction_type : string)
    (file_formats : list string) (merchant_name : string)
| TotalFiles (total_files : nat)
| ProcessingFile (file_name transaction_type : string)
| UnsupportedExcelFormat (file_name file_extension : string)
| SuccessfullyReadCsv (file_name : string)
| UnsupportedFileFormat (file_format file_name : string)
| ErrorProcessingChunk (file_name : string) (e : job_exn)
| DeletedTemporaryFile (file_path : string)
| FileNotFoundForDeletion (file_path : string)
| FileProcessingCompleted (file_name : string)
| AllFilesProcessed
| ErrorInProcessingFiles (e : job_exn).

(** The messages of [views.py], which has a logger of its own. *)
Inductive views_message : Type :=
| FileIsEmpty (name : string)
| NoCachedResults
| RetrievedResults (results : BatchResult).

(** The bodies of the JSON responses of [upload_files]. *)
Inductive json_body : Type :=
| FileIsEmptyMessage (name : string)
| ProcessingStarted.

Inductive response : Type :=
| JsonResponse (body : json_body) (status : nat)
| Render (template : string) (context : option BatchResult).

Inductive joutcome (A : Type) : Type :=
| JReturned (a : A)
| JRaised (e : job_exn).
Arguments JReturned {A} a.
Arguments JRaised {A} e.

(** How the [try] block of a file ends when it does not raise: at its end,
    or by [continue]. *)
Inductive flow : Type := Normal | Continue.

(** ** The views and the ingestion driver *)

Section Site.

Context `{Pandas} `{Store} `{Readers} `{TempFiles}.

(** What the web process and the worker act on: the world of the
    pipeline, the files, the task queue, the log of [views.py], the lines
    that the driver writes to the log of [tasks.py] (each with the number of
    lines that the chunk processor had written before it), and the number
    of temporary files created so far. *)
Record system : Type := {
  sys_world : world;
  sys_files : gmap string file_content;
  sys_queue : list task;
  views_log : list (level * views_message);
  job_log : list (nat * level * job_message);
  temp_count : nat
}.

Definition J (A : Type) : Type := system -> joutcome A * system.

#[global] Instance J_ret : MRet J := fun A (a : A) s => (JReturned a, s).

#[global] Instance J_bind : MBind J := fun A B (f : A -> J B) (m : J A) s =>
  match m s with
  | (JReturned a, s') => f a s'
  | (JRaised e, s') => (JRaised e, s')
  end.

Definition jraise {A : Type} (e : job_exn) : J A := fun s => (JRaised e, s).

Definition with_world (s : system) (w : world) : system :=
  {| sys_world := w; sys_files := sys_files s; sys_queue := sys_queue s;
     views_log := views_log s; job_log := job_log s; temp_count := temp_count s |}.

Definition with_files (s : system) (files : gmap string file_content) : system :=
  {| sys_world := sys_world s; sys_files := files; sys_queue := sys_queue s;
     views_log := views_log s; job_log := job_log s; temp_count := temp_count s |}.

(** A computation of the pipeline, run by the worker. *)
Definition run_pipeline {A : Type} (m : M A) : J A := fun s =>
  match m (sys_world s) with
  | (Returned a, w) => (JReturned a, with_world s w)
  | (Raised e, w) => (JRaised (FromPipeline e), with_world s w)
  end.

(** The logger of [tasks.py], called by the driver. *)
Definition job_logger (l : level) (msg : job_message) : J unit := fun s =>
  (JReturned tt,
   {| sys_world := sys_world s; sys_files := sys_files s; sys_queue := sys_queue s;
      views_log := views_log s;
      job_log := job_log s ++ [(length (log (sys_world s)), l, msg)];
      temp_count := temp_count s |}).

(** The logger of [views.py]. *)
Definition views_logger (l : level) (msg : views_message) : J unit := fun s =>
  (JReturned tt,
   {| sys_world := sys_world s; sys_files := sys_files s; sys_queue := sys_queue s;
      views_log := views_log s ++ [(l, msg)];
      job_log := job_log s; temp_count := temp_count s |}).

(** [try: body / except Exception as e: handler(e)] *)
Definition job_try_except {A : Type} (body : J A) (handler : job_exn -> J A) : J A :=
  fun s =>
    match body s with
    | (JReturned a, s1) => (JReturned a, s1)
    | (JRaised e, s1) => handler e s1
    end.

(** [try: body / except Exception as e: handler(e) / finally: final] *)
Definition try_except_finally {A : Type} (body : J A) (handler : job_exn -> J A)
    (final : J unit) : J A := fun s =>
  let '(r, s1) := job_try_except body handler s in
  match final s1 with
  | (JReturned _, s2) => (r, s2)
  | (JRaised e, s2) => (JRaised e, s2)
  end.

(** *** [views.py] *)

(** [cache.get(key)] *)
Definition cache_get (key : string) : J (option BatchResult) := fun s =>
  (JReturned (fst <$> cache (sys_world s) !! key), s).

(** [transaction_results_view]: the response renders the context. *)
Definition transaction_results_view : J response :=
  results ← cache_get "latest_transaction_results";
  results ←
    match results with
    | None =>
        _ ← views_logger ERROR NoCachedResults;
        mret {| total_successful := 0; total_failed := 0 |}
    | Some results =>
        _ ← views_logger DEBUG (RetrievedResults results);
        mret results
    end;
  let context :=
    {| total_successful := total_successful results;
       total_failed := total_failed results |} in
  mret (Render "transaction_results.html" (Some context)).

(** An uploaded file: its name, its size and its content. *)
Record uploaded_file : Type := {
  upload_name : string;
  upload_size : nat;
  upload_content : file_content
}.

(** A request to [upload_files]: its method, whether the form built from
    it is valid (the form class is not part of the sources), the cleaned
    data of the form and the files. *)
Record request : Type := {
  method : string;
  form_is_valid : bool;
  cleaned_bank_name : string;
  cleaned_merchant_name : string;
  cleaned_transaction_type : string;
  request_files : list uploaded_file
}.

(** [tempfile.NamedTemporaryFile(delete=False, suffix=suffix)], the writes
    of the chunks of the upload and [close()]: the name of the file. *)
Definition write_temporary_file (suffix : string) (content : file_content)
  : J string := fun s =>
  let name := temp_stem (temp_count s) +:+ suffix in
  (JReturned name,
   {| sys_world := sys_world s; sys_files := <[name := content]> (sys_files s);
      sys_queue := sys_queue s; views_log := views_log s; job_log := job_log s;
      temp_count := temp_count s + 1 |}).

(** [process_uploaded_files.delay(...)] *)
Definition delay (t : task) : J unit := fun s =>
  (JReturned tt,
   {| sys_world := sys_world s; sys_files := sys_files s;
      sys_queue := sys_queue s ++ [t]; views_log := views_log s;
      job_log := job_log s; temp_count := temp_count s |}).

Definition excel_extensions : list string := ["xlsx"; "xls"; "ods"].

(** The loop of [upload_files] over the files; [inl] is the response of the
    early [return] for an empty file. *)
Fixpoint upload_loop (files : list uploaded_file)
    (temp_file_paths file_formats : list string)
  : J (response + list string * list string) :=
  match files with
  | [] => mret (inr (temp_file_paths, file_formats))
  | file :: files =>
      if (upload_size file =? 0)%nat then
        _ ← views_logger ERROR (FileIsEmpty (upload_name file));
        mret (inl (JsonResponse (FileIsEmptyMessage (upload_name file)) 400))
      else
        let file_extension := upload_extension (upload_name file) in
        temp_file_name ← write_temporary_file ("." +:+ file_extension)
                           (upload_content file);
        let file_formats :=
          file_formats ++
            [if bool_decide (file_extension ∈ excel_extensions)
             then "excel" else "csv"] in
        let temp_file_paths := temp_file_paths ++ [temp_file_name] in
        upload_loop files temp_file_paths file_formats
  end.

(** [upload_files] *)
Definition upload_files (req : request) : J response :=
  if bool_decide (method req = "POST") then
    if form_is_valid req then
      r ← upload_loop (request_files req) [] [];
      match r with
      | inl early => mret early
      | inr (temp_file_paths, file_formats) =>
          _ ← delay {| task_file_paths := temp_file_paths;
                       task_bank_name := cleaned_bank_name req;
                       task_transaction_type := cleaned_transaction_type req;
                       task_file_formats := file_formats;
                       task_merchant_name := cleaned_merchant_name req |};
          mret (JsonResponse ProcessingStarted 202)
      end
    else mret (Render "upload.html" None)
  else mret (Render "upload.html" None).

(** *** [process_uploaded_files] *)

(** Opening [file_path] for a reader. *)
Definition open_file (file_path : string) : J file_content := fun s =>
  match sys_files s !! file_path with
  | Some content => (JReturned content, s)
  | None => (JRaised (FileNotFoundError file_path), s)
  end.

(** The loop [for chunk_index, df_chunk in enumerate(df_chunks)]. *)
Fixpoint process_chunks (df_chunks : list DataFrame)
    (bank_name transaction_type merchant_name : string) : J unit :=
  match df_chunks with
  | [] => mret tt
  | df_chunk :: df_chunks =>
      _ ← run_pipeline
            (process_dataframe_chunk df_chunk bank_name transaction_type merchant_name);
      process_chunks df_chunks bank_name transaction_type merchant_name
  end.

Definition excel_file_extensions : list string := [".xlsx"; ".xls"; ".ods"].

(** The engine that the chain of tests on the extension picks. *)
Definition engine_of (file_extension : string) : string :=
  if bool_decide (file_extension = ".xlsx") then "openpyxl"
  else if bool_decide (file_extension = ".xls") then "xlrd"
  else "odf".

(** The [try] block of a file. *)
Definition try_file (file_path file_name file_extension : string)
    (file_formats : list string) (file_index : nat)
    (bank_name transaction_type merchant_name : string) : J flow :=
  file_format ←
    match file_formats !! file_index with
    | Some file_format => mret file_format
    | None => jraise IndexError
    end;
  if bool_decide (file_format = "excel") then
    if bool_decide (file_extension ∈ excel_file_extensions) then
      content ← open_file file_path;
      df ← match read_excel (engine_of file_extension) content with
           | Some df => mret df
           | None => jraise ReadError
           end;
      _ ← process_chunks [df] bank_name transaction_type merchant_name;
      mret Normal
    else
      _ ← job_logger ERROR (UnsupportedExcelFormat file_name file_extension);
      mret Continue
  else if bool_decide (file_format = "csv") then
    content ← open_file file_path;
    match read_csv content with
    | CsvError => jraise ReadError
    | CsvChunks df_chunks complete =>
        _ ← job_logger INFO (SuccessfullyReadCsv file_name);
        _ ← process_chunks df_chunks bank_name transaction_type merchant_name;
        if complete then mret Normal else jraise ReadError
    end
  else
    _ ← job_logger ERROR (UnsupportedFileFormat file_format file_name);
    mret Continue.

(** The [finally] block of a file. *)
Definition remove_file (file_path : string) : J unit := fun s =>
  match sys_files s !! file_path with
  | Some _ =>
      job_logger INFO (DeletedTemporaryFile file_path)
        (with_files s (delete file_path (sys_files s)))
  | None => job_logger WARNING (FileNotFoundForDeletion file_path) s
  end.

(** The body of [for file_index, file_path in enumerate(file_paths)]. *)
Definition process_file (file_index : nat) (file_path : string)
    (bank_name transaction_type : string) (file_formats : list string)
    (merchant_name : string) : J unit :=
  let file_name := file_name_of file_path in
  let file_extension := file_extension_of file_name in
  _ ← job_logger INFO (ProcessingFile file_name transaction_type);
  ended ←
    try_except_finally
      (try_file file_path file_name file_extension file_formats file_index
         bank_name transaction_type merchant_name)
      (fun e =>
         _ ← job_logger ERROR (ErrorProcessingChunk file_name e);
         mret Continue)
      (remove_file file_path);
  match ended with
  | Normal => job_logger INFO (FileProcessingCompleted file_name)
  | Continue => mret tt
  end.

Fixpoint process_files (file_index : nat) (file_paths : list string)
    (bank_name transaction_type : string) (file_formats : list string)
    (merchant_name : string) : J unit :=
  match file_paths with
  | [] => mret tt
  | file_path :: file_paths =>
      _ ← process_file file_index file_path bank_name transaction_type file_formats
            merchant_name;
      process_files (S file_index) file_paths bank_name transaction_type file_formats
        merchant_name
  end.

(** [process_uploaded_files]; the retries of the task runner are not part
    of the function. *)
Definition process_uploaded_files (file_paths : list string)
    (bank_name transaction_type : string) (file_formats : list string)
    (merchant_name : string) : J unit :=
  _ ← job_logger INFO
        (StartingUploadedFiles bank_name transaction_type file_formats merchant_name);
  job_try_except
    (_ ← job_logger INFO (TotalFiles (length file_paths));
     _ ← process_files 0 file_paths bank_name transaction_type file_formats
           merchant_name;
     job_logger INFO AllFilesProcessed)
    (fun e =>
       _ ← job_logger ERROR (ErrorInProcessingFiles e);
       jraise e).

End Site.

Arguments system {_ _}.
Arguments J {_ _} A.

(** ** Notions used to state the properties *)

(** No opening bracket of [s] has a closing bracket behind it. *)
Fixpoint no_pair (s : list ascii) : Prop :=
  match s with
  | [] => True
  | c :: r => (Text.is_open c = true -> "]"%char ∉ r) /\ no_pair r
  end.

(** What the filters of the normalizer keep of a text: every character
    but the blanks, the dots and the underscores. *)
Definition kept (s : list ascii) : list ascii :=
  List.filter (fun c => negb (Text.dot_or_underscore c))
    (List.filter (fun c => negb (Text.isspace c)) s).

(** The entry of [BANK_MAPPINGS] for a bank and a transaction type. *)
Definition registry_entry (bank_name transaction_type : string) : option schema :=
  BANK_MAPPINGS !! bank_name ≫= fun bank_mapping => bank_mapping !! transaction_type.

(** The header [SESSION ID [ASPD]] of the [icici] schema with its
    bracketed note wrapped over two lines, as a wrapped header cell of a
    workbook or a quoted field of a csv file gives it: a line feed stands
    between [AS] and [PD]. *)
Definition wrapped_header : string := "SESSION ID [AS" +:+ String Text.LF "PD]".

(** The chunk with its column labels cleaned, as [process_dataframe_chunk]
    relabels it before anything else. *)
Definition normalized (df_chunk : DataFrame) : DataFrame :=
  set_labels df_chunk (clean_column_name <$> labels df_chunk).

(** The chunk without the columns whose cleaned label is [h]. *)
Definition drop_header (h : string) (df_chunk : DataFrame) : DataFrame :=
  {| frame_columns :=
       List.filter
         (fun lc : string * column_data => negb (bool_decide (clean_column_name lc.1 = h)))
         (frame_columns df_chunk);
     nrows := nrows df_chunk;
     index_start := index_start df_chunk |}.

(** A world with more lines in its log and nothing else changed. *)
Definition logged `{Store} (w : world) (entries : list (level * message)) : world :=
  {| log := log w ++ entries; database := database w; cache := cache w |}.

(** A computation that touches neither the database nor the cache. *)
Definition log_only `{Store} {A : Type} (m : M A) : Prop :=
  forall w, database (m w).2 = database w /\ cache (m w).2 = cache w.

(** The first binding of [key] in a list of bindings. *)
Fixpoint assoc {A : Type} (key : string) (l : list (string * A)) : option A :=
  match l with
  | [] => None
  | (k, v) :: l => if String.eqb key k then Some v else assoc key l
  end.

(** What [handle_nat_in_datetime_fields] makes of the object of a date
    field. *)
Definition null_of_nat (v : value) : value :=
  match v with
  | VNaT => VNone
  | _ => v
  end.

(** The [MID] entry of the dictionary built for a row. *)
Definition mid_of (bank_name : string) (bank_id : Z) (r : row) : value :=
  if bool_decide (bank_name ∈ banks_with_mid_override)
  then row_get r "MID" else VInt bank_id.

(** What a dictionary of the batch holds, in terms of the row it was built
    from: its [MID], its credit/debit class, its two row dates after the
    date pass, and its three dedicated date entries. *)
Definition materialized_from (bank_name : string) (bank_id : Z) (r : row)
    (d : transaction_dict) : Prop :=
  d !! "MID" = Some (mid_of bank_name bank_id r)
  /\ d !! "Credit_Debit_Amount" = Some (row_get r "CREDIT_DEBIT_AMOUNT")
  /\ d !! "Transaction_Date" = Some (null_of_nat (row_get r "Transaction_Date"))
  /\ d !! "Settlement_Date" = Some (null_of_nat (row_get r "Settlement_Date"))
  /\ (d !! "Refund_Request_Date" = Some VNone \/ d !! "Refund_Request_Date" = Some VFrame)
  /\ (d !! "Credit_Debit_Date" = Some VNone \/ d !! "Credit_Debit_Date" = Some VFrame)
  /\ (d !! "File_upload_Date" = Some VNone \/ d !! "File_upload_Date" = Some VFrame).

(** The rows that reach the batch: all of them for a valid transaction
    type, none otherwise. *)
Definition materialized_rows (transaction_type : string) (rows : list row) : list row :=
  if bool_decide (transaction_type ∈ valid_transaction_types) then rows else [].

(** The labels that [process_transactions] converts by itself when the
    frame carries them. *)
Definition dedicated_columns : list string :=
  ["Refund_Request_Date"; "Gross_Amount"; "Aggregator_Com"; "Acquirer_Comm";
   "Payout_from_Nodal"; "Credit_Debit_Date"; "File_upload_Date"; "Intl_Amount";
   "Domestic_Amount"].

(** The columns that carry a label. *)
Definition columns_named (label : string) (cols : list (string * column_data))
  : list (string * column_data) :=
  List.filter (fun lc : string * column_data => bool_decide (lc.1 = label)) cols.

(** The label that [rename] gives to a column. *)
Definition renamed (mapping : gmap string string) (label : string) : string :=
  default label (mapping !! label).

(** The canonical field names that the rename mappings of the registry
    produce. *)
Definition canonical_targets : list string :=
  ["Order_Id"; "Bank_Ref_id"; "Payable_Merchant"; "Transaction_Date";
   "Settlement_Date"; "Refund_Order_Id"; "Transaction_Id"; "Arn_No"; "MID";
   "Card_No"; "Card_type"; "Tid"].

(** The labels that only the pipeline itself could put on a column: the
    derived credit/debit column and the dedicated columns. *)
Definition derived_columns : list string :=
  "CREDIT_DEBIT_AMOUNT" :: dedicated_columns.

(** Whether a date field of a dictionary holds the null-date sentinel. *)
Definition holds_nat (d : transaction_dict) (field : string) : bool :=
  match d !! field with
  | Some VNaT => true
  | _ => false
  end.




(** The dedicated columns that hold amounts. *)
Definition amount_columns : list string :=
  ["Gross_Amount"; "Aggregator_Com"; "Acquirer_Comm"; "Payout_from_Nodal";
   "Intl_Amount"; "Domestic_Amount"].


(** A frame as the readers deliver it: every column is of dtype
    [object]. *)
Definition all_object (df : DataFrame) : Prop :=
  Forall (fun lc : string * column_data =>
            match lc.2 with ObjectCol _ => True | _ => False end)
    (frame_columns df).

(** A system whose world is [w] and which is empty otherwise. *)
Definition system_of `{Store} `{Readers} (w : world) : system :=
  {| sys_world := w; sys_files := ∅; sys_queue := []; views_log := [];
     job_log := []; temp_count := 0 |}.

(** The format tag that [upload_files] gives to a file name. *)
Definition format_of_name (name : string) : string :=
  if bool_decide (upload_extension name ∈ excel_extensions) then "excel" else "csv".

(** The path of the temporary file that [upload_files] creates for an
    upload called [name] when [count] files were created before. *)
Definition temp_path `{TempFiles} (count : nat) (name : string) : string :=
  temp_stem count +:+ "." +:+ upload_extension name.

(** The paths of the temporary files for uploads created in a row. *)
Fixpoint temp_paths `{TempFiles} (count : nat) (names : list string) : list string :=
  match names with
  | [] => []
  | name :: names => temp_path count name :: temp_paths (S count) names
  end.

(** A computation that takes every system to one that [R] relates to
    it. *)
Definition preserves `{Store} `{Readers} {A : Type} (R : relation system) (m : J A)
  : Prop :=
  forall s, R s (m s).2.

(** What the worker leaves alone: the task queue, the log of [views.py],
    the count of temporary files, and the cache but for the key of the
    latest results. *)
Definition worker_step `{Store} `{Readers} (s s' : system) : Prop :=
  sys_queue s' = sys_queue s
  /\ views_log s' = views_log s
  /\ temp_count s' = temp_count s
  /\ forall key, key <> "latest_transaction_results" ->
                 cache (sys_world s') !! key = cache (sys_world s) !! key.

Definition same_files `{Store} `{Readers} (s s' : system) : Prop :=
  sys_files s' = sys_files s.

(** The files for which the [try] block of [process_uploaded_files] reads
    nothing: the list of formats has no tag at the index of the file, or a
    tag that is neither excel nor csv, or the tag excel with an extension
    that is none of the three. *)
Definition skipped (file_formats : list string) (file_index : nat)
    (file_path : string) : Prop :=
  match file_formats !! file_index with
  | None => True
  | Some file_format =>
      (file_format = "excel"
       /\ file_extension_of (file_name_of file_path) ∉ excel_file_extensions)
      \/ (file_format <> "excel" /\ file_format <> "csv")
  end.

(** The chunks of a file through the chunk processor, one after the
    other, as the pipeline sees the loop of the driver over them. *)
Fixpoint chunk_loop `{Pandas} `{Store} (df_chunks : list DataFrame)
    (bank_name transaction_type merchant_name : string) : M unit :=
  match df_chunks with
  | [] => mret tt
  | df_chunk :: df_chunks =>
      _ ← process_dataframe_chunk df_chunk bank_name transaction_type merchant_name;
      chunk_loop df_chunks bank_name transaction_type merchant_name
  end.

(** The chunks that the driver reads from a file under a format tag:
    those of the csv reader, or the one frame of a workbook whose name
    carries one of the three extensions. *)
Definition chunks_read `{Readers} (file_format file_path : string)
    (content : file_content) (df_chunks : list DataFrame) : Prop :=
  (file_format = "csv"
   /\ exists complete, read_csv content = CsvChunks df_chunks complete)
  \/ (file_format = "excel"
      /\ file_extension_of (file_name_of file_path) ∈ excel_file_extensions
      /\ exists df,
           read_excel (engine_of (file_extension_of (file_name_of file_path)))
             content = Some df
           /\ df_chunks = [df]).

(** ** Reference instances of the readers and of the temporary files *)

Module ReferenceSite.

(** A file holds the frames that its reader yields; a workbook holds
    one. *)
#[export] Instance readers : Readers := {
  file_content := list DataFrame;
  read_excel := fun _ content =>
    match content with
    | [df] => Some df
    | _ => None
    end;
  read_csv := fun content => CsvChunks content true
}.

Fixpoint tally (count : nat) : string :=
  match count with
  | 0 => ""
  | S count => String "i"%char (tally count)
  end.

#[export] Instance temp_files : TempFiles := {
  temp_stem := fun count => "/tmp/tmp" +:+ tally count
}.

Definition upload (name : string) (content : list DataFrame) : uploaded_file :=
  {| upload_name := name; upload_size := 1; upload_content := content |}.

Definition empty_upload (name : string) : uploaded_file :=
  {| upload_name := name; upload_size := 0; upload_content := [] |}.

Definition post (files : list uploaded_file) : request :=
  {| method := "POST"; form_is_valid := true;
     cleaned_bank_name := "karur_vysya"; cleaned_merchant_name := "IRCTC";
     cleaned_transaction_type := "booking"; request_files := files |}.

End ReferenceSite.

(** * Properties *)

(** ** The column normalizer *)

Section Normalizer.

Implicit Types (s r : list ascii) (c : ascii).

Example clean_bracketed : clean_column_name "SESSION ID [ASPD]" = "SESSIONID".
Proof. reflexivity. Qed.

Example clean_punctuation : clean_column_name " BANK_BOOKING [x] REF.NO.[y][z] " = "BANKBOOKINGREFNO".
Proof. reflexivity. Qed.

Example clean_nested : clean_column_name "[a[b]c]" = "c]".
Proof. reflexivity. Qed.

Lemma regex_sub_cons c rest :
  Text.regex_sub (c :: rest) =
    if Text.is_open c then
      match Text.find_close rest with
      | Some r' => Text.regex_sub r'
      | None => c :: Text.regex_sub rest
      end
    else c :: Text.regex_sub rest.
Proof.
  simpl. destruct (Text.is_open c); [|done].
  assert (Hscan : forall r,
    (fix scan (r : list ascii) : option (list ascii) :=
       match r with
       | [] => None
       | d :: r' =>
           if Text.is_close d then Some (Text.regex_sub r')
           else if Text.is_newline d then None else scan r'
       end) r = Text.regex_sub <$> Text.find_close r).
  { induction r as [|d r IH]; [done|]. simpl.
    destruct (Text.is_close d); [done|]. destruct (Text.is_newline d); done. }
  rewrite Hscan. by destruct (Text.find_close rest).
Qed.

Lemma is_close_true c : Text.is_close c = true <-> c = "]"%char.
Proof. unfold Text.is_close. apply Ascii.eqb_eq. Qed.

Lemma is_newline_true c : Text.is_newline c = true <-> c = Text.LF.
Proof. unfold Text.is_newline. apply Ascii.eqb_eq. Qed.

Lemma find_close_Some r r' :
  Text.find_close r = Some r' ->
  length r' < length r /\ (forall x, x ∈ r' -> x ∈ r).
Proof.
  revert r'. induction r as [|d r IH]; intros r' Hf; [done|].
  simpl in Hf. destruct (Text.is_close d).
  - injection Hf as <-. split; [simpl; lia|]. intros x Hx. by apply elem_of_cons; right.
  - destruct (Text.is_newline d); [done|].
    destruct (IH _ Hf) as [Hlen Hin]. split; [simpl; lia|].
    intros x Hx. apply elem_of_cons; right. by apply Hin.
Qed.

Lemma find_close_no_close r : "]"%char ∉ r -> Text.find_close r = None.
Proof.
  induction r as [|d r IH]; intros Hr; [done|]. simpl.
  destruct (Text.is_close d) eqn:Hd.
  - apply is_close_true in Hd. subst d. exfalso. apply Hr. by left.
  - destruct (Text.is_newline d); [done|]. apply IH. intros Hin. apply Hr. by right.
Qed.

Lemma find_close_None r :
  Text.LF ∉ r -> Text.find_close r = None -> "]"%char ∉ r.
Proof.
  induction r as [|d r IH]; intros Hlf Hf Hin; [by apply elem_of_nil in Hin|].
  simpl in Hf. destruct (Text.is_close d) eqn:Hd; [done|].
  destruct (Text.is_newline d) eqn:Hn.
  - apply is_newline_true in Hn. subst d. apply Hlf. by left.
  - apply elem_of_cons in Hin as [<-|Hin].
    + discriminate Hd.
    + apply IH; [|done..]. intros ?. apply Hlf. by right.
Qed.

(** Strong induction on the length of a text. *)
Lemma text_length_ind (P : list ascii -> Prop) :
  (forall s, (forall r, length r < length s -> P r) -> P s) -> forall s, P s.
Proof.
  intros step s. remember (length s) as n eqn:Hn.
  revert s Hn. induction (lt_wf n) as [n _ IH]. intros s ->.
  apply step. intros r Hr. by apply (IH (length r)).
Qed.

Lemma regex_sub_elem_of s x : x ∈ Text.regex_sub s -> x ∈ s.
Proof.
  induction s as [s IH] using text_length_ind.
  destruct s as [|c rest]; [done|]. rewrite regex_sub_cons.
  assert (Hkeep : x ∈ c :: Text.regex_sub rest -> x ∈ c :: rest).
  { intros [->|Hx]%elem_of_cons; [by left|]. right. apply IH; [simpl; lia|done]. }
  destruct (Text.is_open c); [|done].
  destruct (Text.find_close rest) as [r'|] eqn:Hf; [|done].
  destruct (find_close_Some _ _ Hf) as [Hlen Hin]. intros Hx.
  right. apply Hin, IH; [simpl; lia|done].
Qed.

Lemma regex_sub_no_pair s : Text.LF ∉ s -> no_pair (Text.regex_sub s).
Proof.
  induction s as [s IH] using text_length_ind. intros Hlf.
  destruct s as [|c rest]; [done|]. rewrite regex_sub_cons.
  assert (Hrest : Text.LF ∉ rest) by (intros ?; apply Hlf; by right).
  destruct (Text.is_open c) eqn:Hc.
  - destruct (Text.find_close rest) as [r'|] eqn:Hf.
    + destruct (find_close_Some _ _ Hf) as [Hlen Hin].
      apply IH; [simpl; lia|]. intros ?. apply Hrest. by apply Hin.
    + split; [|apply IH; [simpl; lia|done]].
      intros _ Hin. apply regex_sub_elem_of in Hin.
      by apply (find_close_None rest).
  - split; [congruence|]. apply IH; [simpl; lia|done].
Qed.

Lemma no_pair_filter (p : ascii -> bool) s : no_pair s -> no_pair (List.filter p s).
Proof.
  induction s as [|c r IH]; [done|]. intros [Hc Hr]. simpl.
  destruct (p c); [|by apply IH]. split; [|by apply IH].
  intros Ho Hin. apply (Hc Ho). apply list_elem_of_In in Hin.
  apply List.filter_In in Hin as [Hin _]. by apply list_elem_of_In.
Qed.

Lemma no_pair_regex_sub s : no_pair s -> Text.regex_sub s = s.
Proof.
  induction s as [|c r IH]; [done|]. intros [Hc Hr].
  rewrite regex_sub_cons, (IH Hr).
  destruct (Text.is_open c); [|done].
  by rewrite (find_close_no_close r (Hc eq_refl)).
Qed.

Lemma join_split_from cur s :
  Text.join (List.filter Text.nonempty (Text.split_from cur s)) =
    cur ++ List.filter (fun c => negb (Text.isspace c)) s.
Proof.
  revert cur. induction s as [|c r IH]; intros cur; simpl.
  - destruct cur; [done|]. unfold Text.join. simpl. by rewrite !app_nil_r.
  - destruct (Text.isspace c); simpl.
    + destruct cur as [|c0 cur]; [by rewrite IH|].
      simpl. unfold Text.join in *. simpl. by rewrite IH.
    + rewrite IH. by rewrite <- app_assoc.
Qed.

Lemma lstrip_no_space s :
  Forall (fun c => Text.isspace c = false) s -> Text.lstrip s = s.
Proof. destruct 1 as [|c r Hc _]; [done|]. simpl. by rewrite Hc. Qed.

Lemma strip_no_space s :
  Forall (fun c => Text.isspace c = false) s -> Text.strip s = s.
Proof.
  intros Hs. unfold Text.strip. rewrite (lstrip_no_space s Hs).
  rewrite lstrip_no_space; [apply rev_involutive|].
  by apply List.Forall_rev.
Qed.

Lemma filter_Forall_id (p : ascii -> bool) s :
  Forall (fun c => p c = true) s -> List.filter p s = s.
Proof. induction 1 as [|c r Hc _ IH]; [done|]. simpl. by rewrite Hc, IH. Qed.

Lemma Forall_filter_keeps (p : ascii -> bool) (Q : ascii -> Prop) s :
  Forall Q s -> Forall Q (List.filter p s).
Proof.
  induction 1 as [|c r Hc _ IH]; [done|]. simpl. destruct (p c); [|done].
  by constructor.
Qed.

Lemma Forall_filter_holds (p : ascii -> bool) s :
  Forall (fun c => p c = true) (List.filter p s).
Proof.
  induction s as [|c r IH]; [done|]. simpl. destruct (p c) eqn:Hc; [|done].
  by constructor.
Qed.

Lemma kept_no_space s : Forall (fun c => Text.isspace c = false) (kept s).
Proof.
  apply Forall_filter_keeps.
  eapply Forall_impl; [apply Forall_filter_holds|].
  intros c Hc. simpl in Hc. by destruct (Text.isspace c).
Qed.

Lemma kept_no_dot s : Forall (fun c => Text.dot_or_underscore c = false) (kept s).
Proof.
  eapply Forall_impl; [apply Forall_filter_holds|].
  intros c Hc. simpl in Hc. by destruct (Text.dot_or_underscore c).
Qed.

Lemma kept_kept s : kept (kept s) = kept s.
Proof.
  unfold kept at 1.
  rewrite (filter_Forall_id (fun c => negb (Text.isspace c)) (kept s)).
  - apply filter_Forall_id. eapply Forall_impl; [apply kept_no_dot|].
    intros c Hc. simpl in Hc. by rewrite Hc.
  - eapply Forall_impl; [apply kept_no_space|].
    intros c Hc. simpl in Hc. by rewrite Hc.
Qed.

Lemma clean_chars_kept s : clean_chars s = kept (Text.regex_sub s).
Proof.
  unfold clean_chars, Text.split. rewrite join_split_from. simpl.
  apply strip_no_space, kept_no_space.
Qed.

Lemma clean_chars_no_pair s : Text.LF ∉ s -> no_pair (clean_chars s).
Proof.
  intros Hs. rewrite clean_chars_kept. unfold kept.
  by apply no_pair_filter, no_pair_filter, regex_sub_no_pair.
Qed.

Lemma clean_column_name_chars h :
  list_ascii_of_string (clean_column_name h) = clean_chars (list_ascii_of_string h).
Proof. unfold clean_column_name. apply list_ascii_of_string_of_list_ascii. Qed.

(** No underscore is left in a cleaned column name. *)
Lemma clean_column_name_no_underscore h :
  "_"%char ∉ list_ascii_of_string (clean_column_name h).
Proof.
  rewrite clean_column_name_chars, clean_chars_kept. intros Hin.
  pose proof (kept_no_dot (Text.regex_sub (list_ascii_of_string h))) as Hk.
  rewrite Forall_forall in Hk. specialize (Hk _ Hin). discriminate Hk.
Qed.

(** C7. The claim fails on the code by a slip of the pattern: the dot of
    [\[.*?\]] matches no line feed, so a bracketed note that is wrapped
    over two lines is not removed. The whitespace pass then takes the line
    feed out and leaves the note with its brackets in the cleaned name,
    and a second pass removes it: on [wrapped_header] the normalizer
    yields [SESSIONID[ASPD]] and then [SESSIONID], where the same header
    on one line yields [SESSIONID] at once. *)
Theorem line_feed_in_brackets_survives :
  clean_column_name "SESSION ID [ASPD]" = "SESSIONID"
  /\ clean_column_name wrapped_header = "SESSIONID[ASPD]"
  /\ clean_column_name (clean_column_name wrapped_header) = "SESSIONID"
  /\ clean_column_name (clean_column_name wrapped_header)
     <> clean_column_name wrapped_header.
Proof. repeat split. vm_compute. discriminate. Qed.

End Normalizer.

(** ** The schema registry *)

Section Registry.

Lemma resolve_entry bank_name transaction_type :
  resolve bank_name transaction_type =
    match registry_entry bank_name transaction_type with
    | Some columns_mapping => Some columns_mapping
    | None => registry_entry bank_name "both"
    end.
Proof.
  unfold resolve, registry_entry.
  destruct (BANK_MAPPINGS !! bank_name) as [bank_mapping|]; simpl.
  - destruct (bank_mapping !! transaction_type); [done|].
    by destruct (bank_mapping !! "both").
  - by rewrite lookup_empty.
Qed.

(** The table has three entries. *)
Lemma registry_entry_Some bank_name transaction_type columns_mapping :
  registry_entry bank_name transaction_type = Some columns_mapping ->
  (bank_name = "karur_vysya" /\ transaction_type = "booking"
     /\ columns_mapping = karur_vysya_booking)
  \/ (bank_name = "karur_vysya" /\ transaction_type = "refund"
     /\ columns_mapping = karur_vysya_refund)
  \/ (bank_name = "icici" /\ transaction_type = "both"
     /\ columns_mapping = icici_both).
Proof.
  unfold registry_entry, BANK_MAPPINGS. intros Hentry.
  apply bind_Some in Hentry as (bank_mapping & Hbank & Hty).
  apply lookup_insert_Some in Hbank as [[<- <-]|[_ Hbank]].
  - apply lookup_insert_Some in Hty as [[<- <-]|[_ Hty]]; [by left|].
    apply lookup_singleton_Some in Hty as [<- <-]. by right; left.
  - apply lookup_singleton_Some in Hbank as [<- <-].
    apply lookup_singleton_Some in Hty as [<- <-]. by right; right.
Qed.

Lemma resolve_Some bank_name transaction_type columns_mapping :
  resolve bank_name transaction_type = Some columns_mapping ->
  (bank_name = "karur_vysya" /\
     (columns_mapping = karur_vysya_booking \/ columns_mapping = karur_vysya_refund))
  \/ (bank_name = "icici" /\ columns_mapping = icici_both).
Proof.
  rewrite resolve_entry.
  destruct (registry_entry bank_name transaction_type) as [cm|] eqn:Hexact.
  - intros [= <-]. apply registry_entry_Some in Hexact.
    destruct Hexact as [(-> & _ & ->)|[(-> & _ & ->)|(-> & _ & ->)]];
      [left; split; [done|by left] | left; split; [done|by right] | by right].
  - intros Hboth. apply registry_entry_Some in Hboth.
    destruct Hboth as [(-> & _ & ->)|[(-> & _ & ->)|(-> & _ & ->)]];
      [left; split; [done|by left] | left; split; [done|by right] | by right].
Qed.

(** C3. For every bank and transaction type that the registry resolves,
    each expected header of the resolved schema is a fixed point of the
    column normalizer. *)
Theorem expected_headers_normalized bank_name transaction_type columns_mapping :
  resolve bank_name transaction_type = Some columns_mapping ->
  Forall (fun h => clean_column_name h = h) (expected_columns columns_mapping).
Proof.
  intros Hres.
  assert (Hcheck : forallb (fun h => String.eqb (clean_column_name h) h)
                     (expected_columns columns_mapping) = true).
  { apply resolve_Some in Hres as [[_ [-> | ->]] | [_ ->]];
      vm_compute; reflexivity. }
  rewrite forallb_forall in Hcheck. apply Forall_forall. intros h Hin.
  apply String.eqb_eq, Hcheck. by apply list_elem_of_In.
Qed.

Lemma expected_headers_normalized_witness :
  Forall (fun h => clean_column_name h = h) (expected_columns icici_both).
Proof.
  apply (expected_headers_normalized "icici" "refund" icici_both).
  vm_compute. reflexivity.
Defined.

End Registry.

(** ** The chunk processor *)

Section ChunkProcessor.

Context `{Pandas} `{Store}.

Lemma bind_run {A B : Type} (m : M A) (f : A -> M B) (w : world) :
  (m ≫= f) w =
    match m w with
    | (Returned a, w') => f a w'
    | (Raised e, w') => (Raised e, w')
    end.
Proof. reflexivity. Qed.

Lemma bind_Returned {A B : Type} (m : M A) (f : A -> M B) (w w' : world) (b : B) :
  (m ≫= f) w = (Returned b, w') ->
  exists a w1, m w = (Returned a, w1) /\ f a w1 = (Returned b, w').
Proof.
  rewrite bind_run. destruct (m w) as [[a|e] w1]; [|done]. intros Hf. by exists a, w1.
Qed.

Lemma logger_run (l : level) (msg : message) (w : world) :
  logger l msg w = (Returned tt, logged w [(l, msg)]).
Proof. reflexivity. Qed.

Lemma logged_logged (w : world) (l1 l2 : list (level * message)) :
  logged (logged w l1) l2 = logged w (l1 ++ l2).
Proof. unfold logged. simpl. by rewrite <- app_assoc. Qed.

Lemma labels_set_labels (df : DataFrame) (new_labels : list string) :
  length new_labels = length (frame_columns df) ->
  labels (set_labels df new_labels) = new_labels.
Proof.
  intros Hlen. unfold labels, set_labels. simpl.
  apply fst_zip. rewrite length_fmap. lia.
Qed.

Lemma labels_normalized (df : DataFrame) :
  labels (normalized df) = clean_column_name <$> labels df.
Proof.
  unfold normalized. apply labels_set_labels.
  unfold labels. by rewrite !length_fmap.
Qed.

Lemma has_column_true (label : string) (df : DataFrame) :
  has_column label df = true <-> label ∈ labels df.
Proof. unfold has_column. apply bool_decide_eq_true. Qed.

Lemma has_column_false (label : string) (df : DataFrame) :
  has_column label df = false <-> label ∉ labels df.
Proof. unfold has_column. apply bool_decide_eq_false. Qed.

Lemma all_expected_present_true (expected : list string) (df : DataFrame) :
  all_expected_present expected df = true <->
  forall col, col ∈ expected -> col ∈ labels df.
Proof.
  unfold all_expected_present. rewrite forallb_forall. split.
  - intros Hall col Hcol. apply has_column_true, Hall. by apply list_elem_of_In.
  - intros Hall col Hcol. apply has_column_true, Hall. by apply list_elem_of_In.
Qed.

Lemma all_expected_present_false (expected : list string) (df : DataFrame) (h : string) :
  h ∈ expected -> h ∉ labels df -> all_expected_present expected df = false.
Proof.
  intros Hin Hout. apply not_true_is_false. intros Hall.
  apply Hout. by apply (proj1 (all_expected_present_true expected df) Hall).
Qed.

Lemma labels_drop_header (h : string) (df : DataFrame) :
  h ∉ labels (normalized (drop_header h df)).
Proof.
  rewrite labels_normalized. unfold labels, drop_header. simpl.
  intros Hin. apply list_elem_of_fmap in Hin as (l & -> & Hl).
  apply list_elem_of_fmap in Hl as (lc & -> & Hlc).
  apply list_elem_of_In, List.filter_In in Hlc as [_ Hkeep].
  apply negb_true_iff, bool_decide_eq_false in Hkeep. by apply Hkeep.
Qed.

(** The two ways [process_dataframe_chunk] ends without processing. *)
Lemma process_dataframe_chunk_not_found df bank_name transaction_type merchant_name w :
  resolve bank_name transaction_type = None ->
  process_dataframe_chunk df bank_name transaction_type merchant_name w =
    (Returned tt,
     logged w [(INFO, ProcessingChunk bank_name transaction_type merchant_name);
               (ERROR, NoValidMapping bank_name transaction_type)]).
Proof.
  intros Hres. unfold process_dataframe_chunk.
  rewrite bind_run, logger_run, Hres, logger_run. by rewrite logged_logged.
Qed.

Lemma process_dataframe_chunk_missing df bank_name transaction_type merchant_name
    columns_mapping w :
  resolve bank_name transaction_type = Some columns_mapping ->
  all_expected_present (expected_columns columns_mapping) (normalized df) = false ->
  process_dataframe_chunk df bank_name transaction_type merchant_name w =
    (Returned tt,
     logged w
       [(INFO, ProcessingChunk bank_name transaction_type merchant_name);
        (ERROR,
         MissingExpectedColumns
           (list_to_set (expected_columns columns_mapping)
              ∖ list_to_set (labels (normalized df)))
           bank_name transaction_type)]).
Proof.
  intros Hres Hmiss. unfold process_dataframe_chunk.
  rewrite bind_run, logger_run, Hres. fold (normalized df).
  rewrite Hmiss, logger_run. by rewrite logged_logged.
Qed.

Lemma process_dataframe_chunk_accepted df bank_name transaction_type merchant_name
    columns_mapping w :
  resolve bank_name transaction_type = Some columns_mapping ->
  all_expected_present (expected_columns columns_mapping) (normalized df) = true ->
  process_dataframe_chunk df bank_name transaction_type merchant_name w =
    (df_chunk ← coerce_chunk (normalized df) bank_name
                  (schema_column_mapping columns_mapping);
     _ ← process_transactions df_chunk bank_name transaction_type merchant_name;
     mret tt)
      (logged w [(INFO, ProcessingChunk bank_name transaction_type merchant_name)]).
Proof.
  intros Hres Hall. unfold process_dataframe_chunk.
  rewrite bind_run, logger_run, Hres. fold (normalized df). by rewrite Hall.
Qed.

(** C8. Schema resolution takes the entry of the registry for the bank
    and the transaction type when there is one, otherwise the bank's
    entry for ["both"] when there is one; when there is neither, the
    chunk is rejected: an error is logged, the call returns without
    raising, and neither the database nor the cache is touched. *)
Theorem schema_resolution_order (bank_name transaction_type : string) :
  (forall columns_mapping,
      registry_entry bank_name transaction_type = Some columns_mapping ->
      resolve bank_name transaction_type = Some columns_mapping)
  /\ (registry_entry bank_name transaction_type = None ->
      resolve bank_name transaction_type = registry_entry bank_name "both")
  /\ (registry_entry bank_name transaction_type = None ->
      registry_entry bank_name "both" = None ->
      resolve bank_name transaction_type = None
      /\ forall df merchant_name w,
          process_dataframe_chunk df bank_name transaction_type merchant_name w =
            (Returned tt,
             logged w
               [(INFO, ProcessingChunk bank_name transaction_type merchant_name);
                (ERROR, NoValidMapping bank_name transaction_type)])).
Proof.
  rewrite resolve_entry. split; [|split].
  - by intros cm ->.
  - by intros ->.
  - intros Hexact Hboth.
    assert (Hres : resolve bank_name transaction_type = None)
      by (by rewrite resolve_entry, Hexact).
    split; [by rewrite Hexact|]. intros df merchant_name w.
    by apply process_dataframe_chunk_not_found.
Qed.

(** C4. When an expected header of the resolved schema is missing from
    the cleaned headers of a chunk, the chunk is rejected: the set of
    missing headers (which holds that header) is logged, the call returns
    without raising and nothing else happens. A chunk that has every
    expected header is handed to the coercions and the materializer, and
    taking any one expected header out of it makes it a rejected chunk. *)
Theorem missing_header_rejects_chunk df bank_name transaction_type merchant_name
    columns_mapping w :
  resolve bank_name transaction_type = Some columns_mapping ->
  (forall h,
      h ∈ expected_columns columns_mapping ->
      h ∉ labels (normalized df) ->
      h ∈ (list_to_set (expected_columns columns_mapping)
             ∖ list_to_set (labels (normalized df)) : gset string)
      /\ process_dataframe_chunk df bank_name transaction_type merchant_name w =
          (Returned tt,
           logged w
             [(INFO, ProcessingChunk bank_name transaction_type merchant_name);
              (ERROR,
               MissingExpectedColumns
                 (list_to_set (expected_columns columns_mapping)
                    ∖ list_to_set (labels (normalized df)))
                 bank_name transaction_type)]))
  /\ (all_expected_present (expected_columns columns_mapping) (normalized df) = true ->
      process_dataframe_chunk df bank_name transaction_type merchant_name w =
        (df_chunk ← coerce_chunk (normalized df) bank_name
                      (schema_column_mapping columns_mapping);
         _ ← process_transactions df_chunk bank_name transaction_type merchant_name;
         mret tt)
          (logged w [(INFO, ProcessingChunk bank_name transaction_type merchant_name)])
      /\ forall h,
          h ∈ expected_columns columns_mapping ->
          all_expected_present (expected_columns columns_mapping)
            (normalized (drop_header h df)) = false
          /\ process_dataframe_chunk (drop_header h df) bank_name transaction_type
               merchant_name w =
              (Returned tt,
               logged w
                 [(INFO, ProcessingChunk bank_name transaction_type merchant_name);
                  (ERROR,
                   MissingExpectedColumns
                     (list_to_set (expected_columns columns_mapping)
                        ∖ list_to_set (labels (normalized (drop_header h df))))
                     bank_name transaction_type)])).
Proof.
  intros Hres. split.
  - intros h Hin Hout.
    split; [apply elem_of_difference; by rewrite !elem_of_list_to_set|].
    apply process_dataframe_chunk_missing; [done|].
    by apply (all_expected_present_false _ _ h).
  - intros Hall. split; [by apply process_dataframe_chunk_accepted|].
    intros h Hin.
    assert (Hrej : all_expected_present (expected_columns columns_mapping)
                     (normalized (drop_header h df)) = false).
    { apply (all_expected_present_false _ _ h); [done|]. apply labels_drop_header. }
    split; [done|]. by apply process_dataframe_chunk_missing.
Qed.

End ChunkProcessor.

Lemma missing_header_rejects_chunk_witness :
  resolve "karur_vysya" "booking" = Some karur_vysya_booking
  /\ all_expected_present (expected_columns karur_vysya_booking)
       (normalized Reference.karur_chunk) = true
  /\ all_expected_present (expected_columns karur_vysya_booking)
       (normalized (drop_header "TXNDATE" Reference.karur_chunk)) = false.
Proof.
  assert (Hres : resolve "karur_vysya" "booking" = Some karur_vysya_booking)
    by reflexivity.
  assert (Hall : all_expected_present (expected_columns karur_vysya_booking)
                   (normalized Reference.karur_chunk) = true)
    by (vm_compute; reflexivity).
  split; [exact Hres|]. split; [exact Hall|].
  destruct (@missing_header_rejects_chunk Reference.pandas
              Reference.list_store Reference.karur_chunk
              "karur_vysya" "booking" "IRCTC" karur_vysya_booking
              (Reference.empty_world Reference.list_store []) Hres) as [_ Hflip].
  destruct (Hflip Hall) as [_ Hdrop].
  apply (Hdrop "TXNDATE"). vm_compute. by left.
Defined.

(** ** The transaction materializer *)

Section Materializer.

Context `{Pandas} `{Store}.

Lemma log_only_ret {A : Type} (a : A) : log_only (mret a).
Proof. by intros w. Qed.

Lemma log_only_raise {A : Type} (e : exn) : log_only (raise (A := A) e).
Proof. by intros w. Qed.

Lemma log_only_logger (l : level) (msg : message) : log_only (logger l msg).
Proof. by intros w. Qed.

Lemma log_only_bind {A B : Type} (m : M A) (f : A -> M B) :
  log_only m -> (forall a, log_only (f a)) -> log_only (m ≫= f).
Proof.
  intros Hm Hf w. rewrite bind_run. specialize (Hm w).
  destruct (m w) as [[a|e] w1]; simpl in Hm; [|done].
  destruct (Hf a w1) as [Hd Hc]. destruct Hm as [Hd1 Hc1]. split; congruence.
Qed.

Lemma log_only_convert_payable_to_float df column_name :
  log_only (convert_payable_to_float df column_name).
Proof.
  unfold convert_payable_to_float.
  destruct (select df column_name) as [|[]|];
    first [apply log_only_ret | apply log_only_raise].
Qed.

Lemma log_only_convert_column_to_datetime df column_name :
  log_only (convert_column_to_datetime df column_name).
Proof.
  unfold convert_column_to_datetime.
  destruct (select df column_name) as [|c|]; try apply log_only_raise.
  apply log_only_bind; [|intros; apply log_only_ret].
  destruct (isna_index _ _); [apply log_only_ret|apply log_only_logger].
Qed.

Lemma log_only_dedicated convert df label :
  (forall df c, log_only (convert df c)) -> log_only (dedicated convert df label).
Proof.
  intros Hconvert. unfold dedicated. destruct (has_column label df).
  - apply log_only_bind; [apply Hconvert|intros; apply log_only_ret].
  - apply log_only_ret.
Qed.

Lemma log_only_transaction_data_of row df bank_name transaction_type merchant_name
    bank_id :
  log_only
    (transaction_data_of row df bank_name transaction_type merchant_name bank_id).
Proof.
  unfold transaction_data_of.
  repeat (apply log_only_bind;
          [apply log_only_dedicated;
           first [apply log_only_convert_column_to_datetime
                 |apply log_only_convert_payable_to_float]
          |intros [? ?]]).
  apply log_only_ret.
Qed.

Lemma log_only_handle_nat_loop fields d : log_only (handle_nat_loop fields d).
Proof.
  revert d. induction fields as [|field fields IH]; intros d; simpl.
  - apply log_only_ret.
  - destruct (d !! field) as [[]|]; try apply IH; [|apply log_only_raise].
    apply log_only_bind; [apply log_only_logger|intros; apply IH].
Qed.

Lemma log_only_row_body bank_name transaction_type merchant_name bank_id row st :
  log_only (row_body bank_name transaction_type merchant_name bank_id row st).
Proof.
  unfold row_body. destruct (negb _).
  - apply log_only_bind; [apply log_only_logger|intros; apply log_only_ret].
  - apply log_only_bind; [apply log_only_transaction_data_of|intros [? ?]].
    apply log_only_bind; [apply log_only_handle_nat_loop|intros; apply log_only_ret].
Qed.

Lemma log_only_row_loop bank_name transaction_type merchant_name bank_id rows st :
  log_only (row_loop bank_name transaction_type merchant_name bank_id rows st).
Proof.
  revert st. induction rows as [|row rows IH]; intros st; simpl.
  - apply log_only_ret.
  - apply log_only_bind; [apply log_only_row_body|intros; apply IH].
Qed.

Lemma log_only_materialize df bank_name transaction_type merchant_name bank_id :
  log_only (materialize df bank_name transaction_type merchant_name bank_id).
Proof. apply log_only_row_loop. Qed.

(** *** The date pass *)

Lemma handle_nat_loop_Returned fields d w d' w' :
  handle_nat_loop fields d w = (Returned d', w') ->
  (forall f, f ∈ fields -> is_Some (d !! f))
  /\ forall k,
      d' !! k = if bool_decide (k ∈ fields) then null_of_nat <$> d !! k else d !! k.
Proof.
  revert d w. induction fields as [|field fields IH]; intros d w; simpl.
  - intros [= -> ->]. split; [by intros f ?%elem_of_nil|]. by intros k.
  - destruct (d !! field) as [v|] eqn:Hfield; [|done].
    assert (Hstep : forall d1 w1,
      handle_nat_loop fields d1 w1 = (Returned d', w') ->
      d1 = <[field := null_of_nat v]> d ->
      (forall f, f ∈ field :: fields -> is_Some (d !! f))
      /\ forall k,
          d' !! k =
            if bool_decide (k ∈ field :: fields) then null_of_nat <$> d !! k
            else d !! k).
    { intros d1 w1 Hloop ->. destruct (IH _ _ Hloop) as [Hkeys Hlook]. split.
      - intros f [->|Hf]%elem_of_cons; [by rewrite Hfield|].
        specialize (Hkeys f Hf).
        destruct (decide (field = f)) as [<-|Hne]; [by rewrite Hfield|].
        by rewrite lookup_insert_ne in Hkeys.
      - intros k. rewrite Hlook.
        destruct (decide (k = field)) as [->|Hne].
        + rewrite (bool_decide_eq_true_2 (field ∈ field :: fields)); [|by left].
          rewrite lookup_insert_eq, Hfield. simpl.
          case_bool_decide; [|done]. by destruct v.
        + assert (Hiff : bool_decide (k ∈ field :: fields) = bool_decide (k ∈ fields)).
          { apply bool_decide_ext. rewrite elem_of_cons.
            split; [by intros [?|?]|by right]. }
          rewrite Hiff. by rewrite lookup_insert_ne. }
    destruct v;
      try (intros Hloop; apply (Hstep _ _ Hloop); simpl; by rewrite insert_id).
    rewrite bind_run, logger_run. intros Hloop. by apply (Hstep _ _ Hloop).
Qed.

Lemma handle_nat_loop_total fields d w :
  (forall f, f ∈ fields -> is_Some (d !! f)) ->
  exists d' w', handle_nat_loop fields d w = (Returned d', w').
Proof.
  revert d w. induction fields as [|field fields IH]; intros d w Hkeys; simpl.
  - by exists d, w.
  - destruct (Hkeys field) as [v Hv]; [by left|]. rewrite Hv.
    assert (Hrest : forall f, f ∈ fields -> is_Some (d !! f))
      by (intros f Hf; apply Hkeys; by right).
    destruct v; try (by apply IH).
    rewrite bind_run, logger_run. apply IH. intros f Hf.
    destruct (decide (field = f)) as [<-|Hne]; [by rewrite lookup_insert_eq|].
    rewrite lookup_insert_ne; [by apply Hrest|done].
Qed.

(** *** The dictionary of a row *)

Lemma list_to_map_assoc (l : list (string * value)) (key : string) :
  (list_to_map l : transaction_dict) !! key = assoc key l.
Proof.
  induction l as [|[k v] l IH]; [done|]. simpl.
  destruct (String.eqb key k) eqn:Hk.
  - apply String.eqb_eq in Hk as ->. apply lookup_insert_eq.
  - apply String.eqb_neq in Hk. rewrite lookup_insert_ne; [done|congruence].
Qed.

Lemma dedicated_Returned convert df label w v df' w' :
  dedicated convert df label w = (Returned (v, df'), w') ->
  v = VNone \/ v = VFrame.
Proof.
  unfold dedicated. destruct (has_column label df).
  - intros (df1 & w1 & _ & [= <- _ _])%bind_Returned. by right.
  - intros [= <- _ _]. by left.
Qed.

Lemma bind_pair_Returned {A B C : Type} (m : M (A * B)) (f : A -> B -> M C)
    (w w' : world) (c : C) :
  (m ≫= fun '(a, b) => f a b) w = (Returned c, w') ->
  exists a b w1, m w = (Returned (a, b), w1) /\ f a b w1 = (Returned c, w').
Proof.
  intros ([a b] & w1 & Hm & Hf)%bind_Returned. by exists a, b, w1.
Qed.

Lemma ret_Returned {A : Type} (a b : A) (w w' : world) :
  (mret a : M A) w = (Returned b, w') -> a = b /\ w = w'.
Proof. by intros [= -> ->]. Qed.

(** The entries of the dictionary that the properties below read. *)
Lemma transaction_data_of_Returned row df bank_name transaction_type merchant_name
    bank_id w d df' w' :
  transaction_data_of row df bank_name transaction_type merchant_name bank_id w =
    (Returned (d, df'), w') ->
  d !! "MID" =
    Some (if bool_decide (bank_name ∈ banks_with_mid_override)
          then row_get row "MID" else VInt bank_id)
  /\ d !! "Credit_Debit_Amount" = Some (row_get row "CREDIT_DEBIT_AMOUNT")
  /\ d !! "Transaction_Date" = Some (row_get row "Transaction_Date")
  /\ d !! "Settlement_Date" = Some (row_get row "Settlement_Date")
  /\ (d !! "Refund_Request_Date" = Some VNone \/ d !! "Refund_Request_Date" = Some VFrame)
  /\ (d !! "Credit_Debit_Date" = Some VNone \/ d !! "Credit_Debit_Date" = Some VFrame)
  /\ (d !! "File_upload_Date" = Some VNone \/ d !! "File_upload_Date" = Some VFrame).
Proof.
  unfold transaction_data_of. intros Hrun.
  apply bind_pair_Returned in Hrun as (v1 & df1 & w1 & Hv1%dedicated_Returned & Hrun).
  apply bind_pair_Returned in Hrun as (v2 & df2 & w2 & _ & Hrun).
  apply bind_pair_Returned in Hrun as (v3 & df3 & w3 & _ & Hrun).
  apply bind_pair_Returned in Hrun as (v4 & df4 & w4 & _ & Hrun).
  apply bind_pair_Returned in Hrun as (v5 & df5 & w5 & _ & Hrun).
  apply bind_pair_Returned in Hrun as (v6 & df6 & w6 & Hv6%dedicated_Returned & Hrun).
  apply bind_pair_Returned in Hrun as (v7 & df7 & w7 & Hv7%dedicated_Returned & Hrun).
  apply bind_pair_Returned in Hrun as (v8 & df8 & w8 & _ & Hrun).
  apply bind_pair_Returned in Hrun as (v9 & df9 & w9 & _ & Hrun).
  apply ret_Returned in Hrun as [Hd _]. apply pair_equal_spec in Hd as [<- _].
  rewrite !list_to_map_assoc.
  cbn [assoc String.eqb Ascii.eqb Bool.eqb].
  (repeat split; try reflexivity).
  - destruct Hv1 as [-> | ->]; auto.
  - destruct Hv6 as [-> | ->]; auto.
  - destruct Hv7 as [-> | ->]; auto.
Qed.

(** *** The row loop *)

Lemma row_body_Returned bank_name transaction_type merchant_name bank_id row st w
    st' w' :
  row_body bank_name transaction_type merchant_name bank_id row st w =
    (Returned st', w') ->
  ((transaction_type ∉ valid_transaction_types)
   /\ st' = {| loop_frame := loop_frame st;
               bulk_data_transactions := bulk_data_transactions st;
               success_count := success_count st;
               fail_count := fail_count st + 1 |})
  \/ (transaction_type ∈ valid_transaction_types
      /\ exists d0 df' w1 d,
          transaction_data_of row (loop_frame st) bank_name transaction_type
            merchant_name bank_id w = (Returned (d0, df'), w1)
          /\ handle_nat_in_datetime_fields d0 w1 = (Returned d, w')
          /\ st' = {| loop_frame := df';
                      bulk_data_transactions := bulk_data_transactions st ++ [d];
                      success_count := success_count st + 1;
                      fail_count := fail_count st |}).
Proof.
  unfold row_body. case_bool_decide as Hty; simpl.
  - intros (d0 & df' & w1 & Hdata & Hrest)%bind_pair_Returned.
    apply bind_Returned in Hrest as (d & w2 & Hnat & Hret).
    apply ret_Returned in Hret as [<- <-]. right. split; [done|].
    by exists d0, df', w1, d.
  - rewrite bind_run, logger_run. intros [<- _]%ret_Returned. by left.
Qed.

Lemma row_loop_invariant (Inv : list row -> loop_state -> Prop)
    bank_name transaction_type merchant_name bank_id :
  (forall done row st w st' w',
      Inv done st ->
      row_body bank_name transaction_type merchant_name bank_id row st w =
        (Returned st', w') ->
      Inv (done ++ [row]) st') ->
  forall rows done st w st' w',
    Inv done st ->
    row_loop bank_name transaction_type merchant_name bank_id rows st w =
      (Returned st', w') ->
    Inv (done ++ rows) st'.
Proof.
  intros Hbody. induction rows as [|row rows IH]; intros done st w st' w' Hinv; simpl.
  - intros [<- _]%ret_Returned. by rewrite app_nil_r.
  - intros (st1 & w1 & Hrow & Hloop)%bind_Returned.
    rewrite (assoc_L _ done [row] rows : done ++ row :: rows = (done ++ [row]) ++ rows).
    eapply IH; [|exact Hloop]. by eapply Hbody.
Qed.

Lemma row_body_materialized bank_name transaction_type merchant_name bank_id row st w
    d0 df' w1 d w' :
  transaction_data_of row (loop_frame st) bank_name transaction_type merchant_name
    bank_id w = (Returned (d0, df'), w1) ->
  handle_nat_in_datetime_fields d0 w1 = (Returned d, w') ->
  materialized_from bank_name bank_id row d.
Proof.
  intros (Hmid & Hcd & Htd & Hsd & Hrr & Hcdd & Hfu)%transaction_data_of_Returned
         [_ Hlook]%handle_nat_loop_Returned.
  unfold materialized_from. rewrite !Hlook. simpl.
  rewrite Hmid, Hcd, Htd, Hsd. repeat split; try done.
  - destruct Hrr as [-> | ->]; auto.
  - destruct Hcdd as [-> | ->]; auto.
  - destruct Hfu as [-> | ->]; auto.
Qed.

(** The batch holds one dictionary for each row that reaches it, in the
    order of the rows. *)
Lemma materialize_records df bank_name transaction_type merchant_name bank_id w st w' :
  materialize df bank_name transaction_type merchant_name bank_id w =
    (Returned st, w') ->
  Forall2 (materialized_from bank_name bank_id)
    (materialized_rows transaction_type (iterrows df)) (bulk_data_transactions st).
Proof.
  unfold materialize. intros Hloop.
  apply (row_loop_invariant
           (fun done st =>
              Forall2 (materialized_from bank_name bank_id)
                (materialized_rows transaction_type done)
                (bulk_data_transactions st))
           bank_name transaction_type merchant_name bank_id) with (done := [])
    in Hloop; [done| |].
  - intros done row st0 w0 st1 w1 Hinv Hbody.
    apply row_body_Returned in Hbody
      as [[Hty ->]|(Hty & d0 & df' & w2 & d & Hdata & Hnat & ->)]; simpl.
    + unfold materialized_rows in *. by rewrite bool_decide_eq_false_2 in * by done.
    + unfold materialized_rows in *. rewrite bool_decide_eq_true_2 in * by done.
      apply Forall2_app; [done|]. constructor; [|constructor].
      by eapply row_body_materialized.
  - unfold materialized_rows. simpl. case_bool_decide; constructor.
Qed.

(** The counters at the end of the loop. *)
Lemma materialize_counts df bank_name transaction_type merchant_name bank_id w st w' :
  materialize df bank_name transaction_type merchant_name bank_id w =
    (Returned st, w') ->
  length (bulk_data_transactions st) = success_count st
  /\ success_count st =
       (if bool_decide (transaction_type ∈ valid_transaction_types)
        then nrows df else 0)
  /\ fail_count st =
       (if bool_decide (transaction_type ∈ valid_transaction_types)
        then 0 else nrows df).
Proof.
  unfold materialize. intros Hloop.
  assert (Hrows : length (iterrows df) = nrows df).
  { unfold iterrows. by rewrite length_fmap, length_seq. }
  rewrite <- Hrows.
  apply (row_loop_invariant
           (fun done st =>
              length (bulk_data_transactions st) = success_count st
              /\ success_count st =
                   (if bool_decide (transaction_type ∈ valid_transaction_types)
                    then length done else 0)
              /\ fail_count st =
                   (if bool_decide (transaction_type ∈ valid_transaction_types)
                    then 0 else length done))
           bank_name transaction_type merchant_name bank_id) with (done := [])
    in Hloop; [done| |].
  - intros done row st0 w0 st1 w1 (Hlen & Hs & Hf) Hbody.
    apply row_body_Returned in Hbody
      as [[Hty ->]|(Hty & d0 & df' & w2 & d & Hdata & Hnat & ->)]; simpl.
    + rewrite bool_decide_eq_false_2 in * by done.
      rewrite length_app. simpl. lia.
    + rewrite bool_decide_eq_true_2 in * by done.
      rewrite !length_app. simpl. lia.
  - simpl. by case_bool_decide.
Qed.

(** *** Frames without dedicated columns

    On a frame that carries none of [dedicated_columns] (the chunk
    processor hands over such frames only) the loop converts nothing and
    cannot raise. *)

Lemma dedicated_absent convert df label w :
  has_column label df = false ->
  dedicated convert df label w = (Returned (VNone, df), w).
Proof. intros Hc. unfold dedicated. by rewrite Hc. Qed.

Lemma transaction_data_of_total row df bank_name transaction_type merchant_name
    bank_id w :
  (forall c, c ∈ dedicated_columns -> has_column c df = false) ->
  exists d,
    transaction_data_of row df bank_name transaction_type merchant_name bank_id w =
      (Returned (d, df), w)
    /\ forall f, f ∈ datetime_fields -> is_Some (d !! f).
Proof.
  intros Habsent. unfold transaction_data_of.
  assert (Hc : forall c, c ∈ dedicated_columns ->
               forall convert w, dedicated convert df c w = (Returned (VNone, df), w)).
  { intros c Hc convert w1. by apply dedicated_absent, Habsent. }
  unfold dedicated_columns in Hc.
  do 9 (rewrite bind_run, Hc by (repeat (first [by left | right]))).
  eexists. split; [reflexivity|].
  intros f Hf. rewrite list_to_map_assoc. unfold datetime_fields in Hf.
  repeat (apply elem_of_cons in Hf as [-> | Hf]);
    [cbn [assoc String.eqb Ascii.eqb Bool.eqb]; by eexists..
    |by apply elem_of_nil in Hf].
Qed.

Lemma row_body_total bank_name transaction_type merchant_name bank_id row st w :
  (forall c, c ∈ dedicated_columns -> has_column c (loop_frame st) = false) ->
  exists st' w',
    row_body bank_name transaction_type merchant_name bank_id row st w =
      (Returned st', w')
    /\ loop_frame st' = loop_frame st.
Proof.
  intros Habsent. unfold row_body. destruct (negb _).
  - rewrite bind_run, logger_run. by eexists _, _.
  - destruct (transaction_data_of_total row (loop_frame st) bank_name
                transaction_type merchant_name bank_id w Habsent)
      as (d0 & Hdata & Hkeys).
    rewrite bind_run, Hdata.
    destruct (handle_nat_loop_total datetime_fields d0 w Hkeys) as (d & w' & Hnat).
    unfold handle_nat_in_datetime_fields. rewrite bind_run, Hnat.
    by eexists _, _.
Qed.

Lemma row_loop_total bank_name transaction_type merchant_name bank_id rows st w :
  (forall c, c ∈ dedicated_columns -> has_column c (loop_frame st) = false) ->
  exists st' w',
    row_loop bank_name transaction_type merchant_name bank_id rows st w =
      (Returned st', w').
Proof.
  revert st w. induction rows as [|row rows IH]; intros st w Habsent; simpl.
  - by exists st, w.
  - destruct (row_body_total bank_name transaction_type merchant_name bank_id row st w
                Habsent) as (st1 & w1 & Hbody & Hframe).
    rewrite bind_run, Hbody. apply IH. by rewrite Hframe.
Qed.

(** Materialization returns. *)
Lemma materialize_total df bank_name transaction_type merchant_name bank_id w :
  (forall c, c ∈ dedicated_columns -> has_column c df = false) ->
  exists st w',
    materialize df bank_name transaction_type merchant_name bank_id w =
      (Returned st, w').
Proof. intros Habsent. by apply row_loop_total. Qed.

(** *** The commit *)

Lemma commit_and_publish_failed st w d e :
  bulk_create_transactions (bulk_data_transactions st) (database w) = (d, Some e) ->
  commit_and_publish st w =
    (Returned {| total_successful := success_count st;
                 total_failed := fail_count st + length (bulk_data_transactions st) |},
     {| log := log w ++
                 [(ERROR, TransactionFailed e);
                  (DEBUG, BatchComplete (success_count st)
                            (fail_count st + length (bulk_data_transactions st)))];
        database := database w;
        cache :=
          <["latest_transaction_results" :=
              ({| total_successful := success_count st;
                  total_failed := fail_count st + length (bulk_data_transactions st) |},
               3600)]> (cache w) |}).
Proof.
  intros Hfail. unfold commit_and_publish.
  rewrite bind_run. unfold try_except at 1. rewrite bind_run.
  unfold atomic, bulk_create. rewrite Hfail. simpl.
  rewrite bind_run, logger_run. simpl.
  rewrite bind_run. unfold cache_set, logged. simpl. by rewrite <- app_assoc.
Qed.

Lemma commit_and_publish_committed st w d :
  bulk_create_transactions (bulk_data_transactions st) (database w) = (d, None) ->
  commit_and_publish st w =
    (Returned {| total_successful := success_count st; total_failed := fail_count st |},
     {| log := log w ++
                 [(DEBUG, BatchComplete (success_count st) (fail_count st))];
        database := d;
        cache :=
          <["latest_transaction_results" :=
              ({| total_successful := success_count st;
                  total_failed := fail_count st |}, 3600)]> (cache w) |}).
Proof.
  intros Hok. unfold commit_and_publish.
  rewrite bind_run. unfold try_except at 1. rewrite bind_run.
  unfold atomic, bulk_create. rewrite Hok. simpl.
  by rewrite bind_run.
Qed.

Lemma process_transactions_registered df bank_name transaction_type merchant_name
    bank_id w :
  BANK_CODE_MAPPING !! bank_name = Some bank_id ->
  process_transactions df bank_name transaction_type merchant_name w =
    (st ← materialize df bank_name transaction_type merchant_name bank_id;
     results ← commit_and_publish st;
     mret (Some results))
      (logged w [(INFO, StartedTransactions bank_name transaction_type merchant_name)]).
Proof.
  intros Hcode. unfold process_transactions. by rewrite bind_run, logger_run, Hcode.
Qed.

Lemma process_transactions_unregistered df bank_name transaction_type merchant_name w :
  BANK_CODE_MAPPING !! bank_name = None ->
  process_transactions df bank_name transaction_type merchant_name w =
    (Returned None,
     logged w [(INFO, StartedTransactions bank_name transaction_type merchant_name);
               (ERROR, NoBankId bank_name)]).
Proof.
  intros Hcode. unfold process_transactions.
  rewrite bind_run, logger_run, Hcode, bind_run, logger_run.
  by rewrite logged_logged.
Qed.

(** C1, as amended. When the atomic commit of a chunk's batch fails, the
    published [BatchResult] has [total_failed = N], the number of rows of
    the chunk, and [total_successful = M], the number of rows that were
    materialized ([N] for a transaction type among booking, refund and
    both, [0] otherwise); the database is what it was before the call, so
    no record of the batch persists. *)
Theorem failed_commit_result df bank_name transaction_type merchant_name bank_id
    w st w1 d e :
  BANK_CODE_MAPPING !! bank_name = Some bank_id ->
  materialize df bank_name transaction_type merchant_name bank_id
    (logged w [(INFO, StartedTransactions bank_name transaction_type merchant_name)])
    = (Returned st, w1) ->
  bulk_create_transactions (bulk_data_transactions st) (database w) = (d, Some e) ->
  exists w',
    process_transactions df bank_name transaction_type merchant_name w =
      (Returned
         (Some {| total_successful := length (bulk_data_transactions st);
                  total_failed := nrows df |}), w')
    /\ length (bulk_data_transactions st) =
         (if bool_decide (transaction_type ∈ valid_transaction_types)
          then nrows df else 0)
    /\ database w' = database w
    /\ cache w' !! "latest_transaction_results" =
         Some ({| total_successful := length (bulk_data_transactions st);
                  total_failed := nrows df |}, 3600).
Proof.
  intros Hcode Hmat Hfail.
  destruct (materialize_counts _ _ _ _ _ _ _ _ Hmat) as (Hlen & Hs & Hf).
  destruct (log_only_materialize df bank_name transaction_type merchant_name bank_id
              (logged w [(INFO, StartedTransactions bank_name transaction_type
                                  merchant_name)])) as [Hdb _].
  rewrite Hmat in Hdb. simpl in Hdb.
  rewrite (process_transactions_registered _ _ _ _ _ _ Hcode).
  rewrite bind_run, Hmat, bind_run.
  rewrite (commit_and_publish_failed st w1 d e) by (by rewrite Hdb).
  assert (Hfailed : fail_count st + length (bulk_data_transactions st) = nrows df).
  { rewrite Hlen, Hs, Hf. case_bool_decide; lia. }
  rewrite Hfailed, <- Hlen. eexists. split; [reflexivity|]. simpl.
  split; [by rewrite Hlen, Hs|]. split; [done|]. apply lookup_insert_eq.
Qed.

(** C2, as amended. When the bank has a code in [BANK_CODE_MAPPING], a
    call of [process_transactions] that returns has run the row loop with
    that code: it has built one record per row for a transaction type
    among booking, refund and both (none otherwise), the [MID] of the
    record of row [i] is the row's own [MID] when the bank is hdfc, icici
    or indus, and the bank's code of the registry otherwise, and these
    records are what is handed to the committer. When the bank has no
    registered code, [process_transactions] gives the chunk up before its
    first row: the error is logged, no record is built, nothing is
    committed and no [BatchResult] is published. *)
Theorem mid_of_materialized_record df bank_name transaction_type merchant_name w :
  (forall bank_id out w',
      BANK_CODE_MAPPING !! bank_name = Some bank_id ->
      process_transactions df bank_name transaction_type merchant_name w =
        (Returned out, w') ->
      exists st w1,
        materialize df bank_name transaction_type merchant_name bank_id
          (logged w [(INFO, StartedTransactions bank_name transaction_type
                              merchant_name)])
          = (Returned st, w1)
        /\ length (bulk_data_transactions st) =
             (if bool_decide (transaction_type ∈ ["booking"; "refund"; "both"])
              then nrows df else 0)
        /\ database w' =
             match bulk_create_transactions (bulk_data_transactions st) (database w)
             with
             | (d, None) => d
             | (_, Some _) => database w
             end
        /\ forall i d,
             bulk_data_transactions st !! i = Some d ->
             d !! "MID" =
               Some (if bool_decide (bank_name ∈ ["hdfc"; "icici"; "indus"])
                     then row_get (row_at df i) "MID" else VInt bank_id))
  /\ (BANK_CODE_MAPPING !! bank_name = None ->
      process_transactions df bank_name transaction_type merchant_name w =
        (Returned None,
         logged w [(INFO, StartedTransactions bank_name transaction_type merchant_name);
                   (ERROR, NoBankId bank_name)])).
Proof.
  split; [|apply process_transactions_unregistered].
  intros bank_id out w' Hcode Hrun.
  rewrite (process_transactions_registered _ _ _ _ _ _ Hcode) in Hrun.
  apply bind_Returned in Hrun as (st & w1 & Hmat & Hrun).
  apply bind_Returned in Hrun as (results & w2 & Hcommit & Hret).
  apply ret_Returned in Hret as [_ <-].
  exists st, w1. split; [exact Hmat|].
  destruct (materialize_counts _ _ _ _ _ _ _ _ Hmat) as (Hlen & Hs & _).
  split; [by rewrite Hlen, Hs|].
  destruct (log_only_materialize df bank_name transaction_type merchant_name bank_id
              (logged w [(INFO, StartedTransactions bank_name transaction_type
                                  merchant_name)])) as [Hdb _].
  rewrite Hmat in Hdb. simpl in Hdb. split.
  - rewrite <- Hdb.
    destruct (bulk_create_transactions (bulk_data_transactions st) (database w1))
      as [d [e|]] eqn:Hstore.
    + rewrite (commit_and_publish_failed st w1 d e Hstore) in Hcommit.
      by apply pair_equal_spec in Hcommit as [_ <-].
    + rewrite (commit_and_publish_committed st w1 d Hstore) in Hcommit.
      by apply pair_equal_spec in Hcommit as [_ <-].
  - intros i d Hd.
    pose proof (materialize_records _ _ _ _ _ _ _ _ Hmat) as Hrec.
    destruct (Forall2_lookup_r _ _ _ _ _ Hrec Hd) as (row & Hrow & Hmid & _).
    unfold materialized_rows in Hrow. case_bool_decide; [|done].
    unfold iterrows in Hrow. rewrite list_lookup_fmap in Hrow.
    destruct (seq 0 (nrows df) !! i) as [j|] eqn:Hj; [|done].
    apply lookup_seq in Hj as [-> _]. simpl in Hrow. by injection Hrow as <-.
Qed.

End Materializer.

(** *** The materializer on the reference instances *)

Lemma prepared_chunk_no_dedicated c :
  c ∈ dedicated_columns -> has_column c Reference.prepared_chunk = false.
Proof.
  unfold dedicated_columns. intros Hc.
  repeat (apply elem_of_cons in Hc as [-> | Hc]); try reflexivity.
  by apply elem_of_nil in Hc.
Qed.

Lemma failed_commit_result_witness :
  exists w',
    @process_transactions Reference.pandas Reference.failing_store
      Reference.prepared_chunk "karur_vysya" "booking" "IRCTC"
      (Reference.empty_world Reference.failing_store []) =
      (Returned (Some {| total_successful := 2; total_failed := 2 |}), w')
    /\ @database Reference.failing_store w' = [].
Proof.
  destruct (@materialize_total Reference.pandas Reference.failing_store
              Reference.prepared_chunk "karur_vysya" "booking" "IRCTC" 40%Z
              (logged (Reference.empty_world Reference.failing_store [])
                 [(INFO, StartedTransactions "karur_vysya" "booking" "IRCTC")])
              prepared_chunk_no_dedicated) as (st & w1 & Hmat).
  destruct (@failed_commit_result Reference.pandas Reference.failing_store
              Reference.prepared_chunk "karur_vysya" "booking" "IRCTC" 40%Z
              (Reference.empty_world Reference.failing_store []) st w1
              ([] ++ bulk_data_transactions st) DatabaseError
              eq_refl Hmat eq_refl) as (w' & Hrun & Hlen & Hdb & _).
  exists w'. split; [|exact Hdb].
  rewrite Hrun, Hlen. reflexivity.
Defined.

(** C1, as stated, fails: after a failed commit of a chunk of two rows the
    published result counts two successful rows and two failed ones, not
    none and two. *)
Lemma failed_commit_counts_materialized_rows :
  let out :=
    @process_transactions Reference.pandas Reference.failing_store
      Reference.prepared_chunk "karur_vysya" "booking" "IRCTC"
      (Reference.empty_world Reference.failing_store []) in
  out.1 = Returned (Some {| total_successful := 2; total_failed := 2 |})
  /\ cache out.2 !! "latest_transaction_results" =
       Some ({| total_successful := 2; total_failed := 2 |}, 3600)
  /\ @database Reference.failing_store out.2 = []
  /\ out.1 <> Returned (Some {| total_successful := 0; total_failed := 2 |}).
Proof. vm_compute. repeat split. discriminate. Qed.

(** [process_transactions] returns on the list store. *)
Lemma process_transactions_list_store df bank_name transaction_type merchant_name
    bank_id :
  BANK_CODE_MAPPING !! bank_name = Some bank_id ->
  (forall c, c ∈ dedicated_columns -> has_column c df = false) ->
  exists out w',
    @process_transactions Reference.pandas Reference.list_store df bank_name
      transaction_type merchant_name (Reference.empty_world Reference.list_store [])
    = (Returned out, w').
Proof.
  intros Hcode Habsent.
  rewrite (process_transactions_registered _ _ _ _ _ _ Hcode), bind_run.
  destruct (@materialize_total Reference.pandas Reference.list_store df bank_name
              transaction_type merchant_name bank_id
              (logged (Reference.empty_world Reference.list_store [])
                 [(INFO, StartedTransactions bank_name transaction_type
                           merchant_name)]) Habsent) as (st & w1 & ->).
  rewrite bind_run.
  rewrite (@commit_and_publish_committed Reference.list_store st w1 _ eq_refl).
  by eexists _, _.
Qed.

Lemma mid_of_materialized_record_witness :
  (exists out w',
      @process_transactions Reference.pandas Reference.list_store
        Reference.prepared_chunk "karur_vysya" "booking" "IRCTC"
        (Reference.empty_world Reference.list_store []) = (Returned out, w')
      /\ (fun d : transaction_dict => d !! "MID") <$> @database Reference.list_store w'
         = [Some (VInt 40); Some (VInt 40)])
  /\ (exists out w',
      @process_transactions Reference.pandas Reference.list_store
        Reference.prepared_chunk "icici" "both" "IRCTC"
        (Reference.empty_world Reference.list_store []) = (Returned out, w')
      /\ (fun d : transaction_dict => d !! "MID") <$> @database Reference.list_store w'
         = [Some (VStr "M77"); Some (VStr "M78")]).
Proof.
  assert (Hlist : forall (batch : list transaction_dict) (a b : option value),
    length batch = 2 ->
    (forall i d, batch !! i = Some d ->
                 d !! "MID" = match i with 0 => a | _ => b end) ->
    (fun d : transaction_dict => d !! "MID") <$> batch = [a; b]).
  { intros [|d0 [|d1 [|d2 batch]]] a b Hlen Hmid; try discriminate Hlen.
    simpl. by rewrite (Hmid 0 d0 eq_refl), (Hmid 1 d1 eq_refl). }
  split.
  - destruct (process_transactions_list_store Reference.prepared_chunk "karur_vysya"
                "booking" "IRCTC" 40%Z eq_refl prepared_chunk_no_dedicated)
      as (out & w' & Hrun).
    exists out, w'. split; [exact Hrun|].
    destruct (@mid_of_materialized_record Reference.pandas Reference.list_store
                Reference.prepared_chunk "karur_vysya" "booking" "IRCTC"
                (Reference.empty_world Reference.list_store [])) as [Hmid _].
    destruct (Hmid 40%Z out w' eq_refl Hrun) as (st & w1 & _ & Hlen & -> & Hrecords).
    simpl. apply Hlist; [exact Hlen|].
    intros i d Hd. rewrite (Hrecords i d Hd). by destruct i.
  - destruct (process_transactions_list_store Reference.prepared_chunk "icici"
                "both" "IRCTC" 102%Z eq_refl prepared_chunk_no_dedicated)
      as (out & w' & Hrun).
    exists out, w'. split; [exact Hrun|].
    destruct (@mid_of_materialized_record Reference.pandas Reference.list_store
                Reference.prepared_chunk "icici" "both" "IRCTC"
                (Reference.empty_world Reference.list_store [])) as [Hmid _].
    destruct (Hmid 102%Z out w' eq_refl Hrun) as (st & w1 & _ & Hlen & -> & Hrecords).
    simpl. apply Hlist; [exact Hlen|].
    intros i d Hd. rewrite (Hrecords i d Hd).
    assert (Hi : i < 2).
    { pose proof (lookup_lt_Some _ _ _ Hd) as Hlt. rewrite Hlen in Hlt. exact Hlt. }
    destruct i as [|[|i]]; [reflexivity|reflexivity|lia].
Defined.

(** C2, as stated, fails: for a bank without a registered code (here one
    of [banks_with_mid_override]) no row is processed and no result is
    produced; the call returns [None] and leaves the cache empty. *)
Lemma unregistered_bank_abandons_chunk :
  let out :=
    @process_transactions Reference.pandas Reference.list_store
      Reference.prepared_chunk "indus" "booking" "IRCTC"
      (Reference.empty_world Reference.list_store []) in
  BANK_CODE_MAPPING !! "indus" = None
  /\ out.1 = Returned None
  /\ log out.2 = [(INFO, StartedTransactions "indus" "booking" "IRCTC");
                  (ERROR, NoBankId "indus")]
  /\ cache out.2 = ∅
  /\ ~ (exists results, out.1 = Returned (Some results)).
Proof.
  vm_compute. repeat split. intros [results Hout]. discriminate Hout.
Qed.


(** ** Frames *)

Section Frames.

Implicit Types (df : DataFrame) (label key : string) (c : column_data).

Lemma select_columns_named df label :
  select df label =
    match columns_named label (frame_columns df) with
    | [] => Missing
    | [lc] => One lc.2
    | _ => Many
    end.
Proof. reflexivity. Qed.

Lemma columns_named_cons label (lc : string * column_data)
    (cols : list (string * column_data)) :
  columns_named label (lc :: cols) =
    if bool_decide (lc.1 = label) then lc :: columns_named label cols
    else columns_named label cols.
Proof. reflexivity. Qed.

Lemma columns_named_app label (cols1 cols2 : list (string * column_data)) :
  columns_named label (cols1 ++ cols2) =
    columns_named label cols1 ++ columns_named label cols2.
Proof. apply List.filter_app. Qed.

Lemma columns_named_label label (cols : list (string * column_data))
    (lc : string * column_data) :
  lc ∈ columns_named label cols -> lc.1 = label.
Proof.
  intros Hin. apply list_elem_of_In, List.filter_In in Hin as [_ Hin].
  by apply bool_decide_eq_true in Hin.
Qed.

Lemma columns_named_fmap (g : string * column_data -> string * column_data) label
    (cols : list (string * column_data)) :
  (forall lc, (g lc).1 = lc.1) ->
  columns_named label (g <$> cols) = g <$> columns_named label cols.
Proof.
  intros Hg. induction cols as [|lc cols IH]; [done|].
  rewrite fmap_cons, !columns_named_cons, Hg, IH.
  by destruct (bool_decide (lc.1 = label)).
Qed.

Lemma columns_named_nil label (cols : list (string * column_data)) :
  label ∉ cols.*1 -> columns_named label cols = [].
Proof.
  induction cols as [|lc cols IH]; [done|]. intros Hl.
  rewrite columns_named_cons, bool_decide_eq_false_2.
  - apply IH. intros Hin. apply Hl. by right.
  - intros Heq. apply Hl. rewrite <- Heq. simpl. by left.
Qed.

Lemma select_not_Missing df label c :
  select df label = One c -> has_column label df = true.
Proof.
  rewrite select_columns_named. intros Hsel. apply bool_decide_eq_true.
  destruct (decide (label ∈ labels df)) as [|Hout]; [done|].
  by rewrite (columns_named_nil label _ Hout) in Hsel.
Qed.

Lemma labels_set_column_present df label c :
  has_column label df = true -> labels (set_column df label c) = labels df.
Proof.
  intros Hc. unfold labels, set_column. simpl. rewrite Hc.
  rewrite <- list_fmap_compose. apply list_fmap_ext.
  intros i lc _. simpl. by destruct (bool_decide (lc.1 = label)).
Qed.

Lemma labels_set_column_absent df label c :
  has_column label df = false -> labels (set_column df label c) = labels df ++ [label].
Proof.
  intros Hc. unfold labels, set_column. simpl. rewrite Hc. by rewrite fmap_app.
Qed.

Lemma select_set_column_eq df label c0 c :
  select df label = One c0 -> select (set_column df label c) label = One c.
Proof.
  intros Hsel. pose proof (select_not_Missing _ _ _ Hsel) as Hc.
  rewrite select_columns_named in *. unfold set_column. simpl. rewrite Hc.
  rewrite columns_named_fmap
    by (intros lc; by destruct (bool_decide (lc.1 = label))).
  destruct (columns_named label (frame_columns df)) as [|lc [|lc' l]] eqn:Hn;
    try done.
  simpl. assert (Hl : lc.1 = label).
  { apply (columns_named_label label (frame_columns df)). rewrite Hn. by left. }
  by rewrite bool_decide_eq_true_2.
Qed.

Lemma select_set_column_new df label c :
  has_column label df = false -> select (set_column df label c) label = One c.
Proof.
  intros Hc. rewrite select_columns_named. unfold set_column. simpl. rewrite Hc.
  rewrite columns_named_app.
  rewrite (columns_named_nil label) by (by apply has_column_false).
  rewrite columns_named_cons. simpl. by rewrite bool_decide_eq_true_2.
Qed.

Lemma select_set_column_ne df label label' c :
  label' <> label -> select (set_column df label c) label' = select df label'.
Proof.
  intros Hne. rewrite !select_columns_named. unfold set_column. simpl.
  assert (Heq : columns_named label'
                  (if has_column label df
                   then (fun lc : string * column_data =>
                           if bool_decide (lc.1 = label) then (lc.1, c) else lc)
                          <$> frame_columns df
                   else frame_columns df ++ [(label, c)])
                = columns_named label' (frame_columns df)).
  { destruct (has_column label df).
    - induction (frame_columns df) as [|lc cols IH]; [done|].
      rewrite fmap_cons, !columns_named_cons, IH.
      destruct (bool_decide (lc.1 = label)) eqn:Hl; simpl; [|done].
      apply bool_decide_eq_true in Hl.
      by rewrite !bool_decide_eq_false_2 by congruence.
    - rewrite columns_named_app, columns_named_cons. simpl.
      rewrite bool_decide_eq_false_2 by congruence. apply app_nil_r. }
  by rewrite Heq.
Qed.

Lemma labels_rename df (mapping : gmap string string) :
  labels (rename df mapping) = renamed mapping <$> labels df.
Proof.
  unfold labels, rename. simpl. rewrite <- !list_fmap_compose.
  by apply list_fmap_ext.
Qed.

(** When one label only is renamed to [target], the columns under
    [target] after the renaming are the columns under that label. *)
Lemma select_rename df (mapping : gmap string string) key target :
  (forall l, l ∈ labels df -> renamed mapping l = target <-> l = key) ->
  select (rename df mapping) target = select df key.
Proof.
  intros Hkey. rewrite !select_columns_named. unfold rename, labels in *. simpl.
  assert (Heq : columns_named target
                  ((fun lc : string * column_data =>
                      (default lc.1 (mapping !! lc.1), lc.2)) <$> frame_columns df)
                = (fun lc : string * column_data =>
                     (default lc.1 (mapping !! lc.1), lc.2))
                    <$> columns_named key (frame_columns df)).
  { induction (frame_columns df) as [|lc cols IH]; [done|].
    rewrite fmap_cons, !columns_named_cons. simpl.
    assert (Hlc : bool_decide (default lc.1 (mapping !! lc.1) = target)
                  = bool_decide (lc.1 = key)).
    { apply bool_decide_ext, Hkey. simpl. by left. }
    rewrite Hlc, IH.
    - by destruct (bool_decide (lc.1 = key)).
    - intros l Hl. apply Hkey. simpl. by right. }
  rewrite Heq. by destruct (columns_named key (frame_columns df)) as [|? [|]].
Qed.

Lemma labels_row_at df i : (row_at df i).*1 = labels df.
Proof.
  unfold row_at, labels. rewrite <- list_fmap_compose. by apply list_fmap_ext.
Qed.

Lemma row_get_absent df i key :
  has_column key df = false -> row_get (row_at df i) key = VNone.
Proof.
  intros Hc%has_column_false. rewrite <- (labels_row_at df i) in Hc.
  unfold row_get.
  assert (Hnil : List.filter (fun lv : string * value => bool_decide (lv.1 = key))
                   (row_at df i) = []).
  { induction (row_at df i) as [|lv r IH]; [done|]. simpl.
    rewrite bool_decide_eq_false_2.
    - apply IH. intros Hin. apply Hc. by right.
    - intros Heq. apply Hc. rewrite <- Heq. simpl. by left. }
  by rewrite Hnil.
Qed.

End Frames.

(** ** The coercions of the chunk processor *)

Section Coercions.

Context `{Pandas} `{Store}.

Lemma convert_column_to_datetime_Returned df column_name w df' w' :
  convert_column_to_datetime df column_name w = (Returned df', w') ->
  exists c,
    select df column_name = One c
    /\ df' = set_column df column_name (DatetimeCol (to_datetime c)).
Proof.
  unfold convert_column_to_datetime.
  destruct (select df column_name) as [|c|]; [done| |done].
  intros (_ & w1 & _ & [<- _]%ret_Returned)%bind_Returned. by exists c.
Qed.

Lemma convert_payable_to_float_Returned df column_name w df' w' :
  convert_payable_to_float df column_name w = (Returned df', w') ->
  exists cells,
    select df column_name = One (ObjectCol cells)
    /\ df' = set_column df column_name (FloatCol (to_amount <$> cells)).
Proof.
  unfold convert_payable_to_float.
  destruct (select df column_name) as [|[cells| |]|]; try done.
  intros [<- _]%ret_Returned. by exists cells.
Qed.

(** On a column of dtype [object] carried once, the amount coercion
    returns. *)
Lemma convert_payable_to_float_total df column_name cells w :
  select df column_name = One (ObjectCol cells) ->
  convert_payable_to_float df column_name w =
    (Returned (set_column df column_name (FloatCol (to_amount <$> cells))), w).
Proof. intros Hsel. unfold convert_payable_to_float. by rewrite Hsel. Qed.

Lemma derive_credit_debit_Returned df w df' w' :
  derive_credit_debit df w = (Returned df', w') ->
  exists cells,
    select df "Payable_Merchant" = One (FloatCol cells)
    /\ df' =
         set_column
           (set_column df "Payable_Merchant" (FloatCol (fillna_zero <$> cells)))
           "CREDIT_DEBIT_AMOUNT"
           (ObjectCol (credit_debit <$> (fillna_zero <$> cells))).
Proof.
  unfold derive_credit_debit.
  destruct (select df "Payable_Merchant") as [|[|cells|]|]; try done.
  intros [<- _]%ret_Returned. by exists cells.
Qed.

Lemma datetime_step_Returned df column_name w df' w' :
  (if has_column column_name df
   then convert_column_to_datetime df column_name
   else mret df) w = (Returned df', w') ->
  labels df' = labels df
  /\ forall l, l <> column_name -> select df' l = select df l.
Proof.
  destruct (has_column column_name df) eqn:Hc.
  - intros (c & Hsel & ->)%convert_column_to_datetime_Returned. split.
    + by apply labels_set_column_present.
    + intros l Hl. by apply select_set_column_ne.
  - by intros [<- _]%ret_Returned.
Qed.

(** What [coerce_chunk] returns: the two date steps keep the labels and
    every column but the two date columns; then the amount column, when
    there is one, is converted, and for [icici] filled and classified. *)
Lemma coerce_chunk_Returned df bank_name column_mapping w df' w' :
  coerce_chunk df bank_name column_mapping w = (Returned df', w') ->
  exists df3,
    labels df3 = labels (rename df column_mapping)
    /\ select df3 "Payable_Merchant" =
         select (rename df column_mapping) "Payable_Merchant"
    /\ ((has_column "Payable_Merchant" df3 = false /\ df' = df3)
        \/ exists cells,
            select df3 "Payable_Merchant" = One (ObjectCol cells)
            /\ ((bank_name <> "icici"
                 /\ df' = set_column df3 "Payable_Merchant"
                            (FloatCol (to_amount <$> cells)))
                \/ (bank_name = "icici"
                    /\ df' =
                         set_column
                           (set_column
                              (set_column df3 "Payable_Merchant"
                                 (FloatCol (to_amount <$> cells)))
                              "Payable_Merchant"
                              (FloatCol (fillna_zero <$> (to_amount <$> cells))))
                           "CREDIT_DEBIT_AMOUNT"
                           (ObjectCol
                              (credit_debit <$>
                                 (fillna_zero <$> (to_amount <$> cells))))))).
Proof.
  unfold coerce_chunk.
  intros (df2 & w2 & [Hl2 Hs2]%datetime_step_Returned & Hrun)%bind_Returned.
  apply bind_Returned in Hrun as (df3 & w3 & [Hl3 Hs3]%datetime_step_Returned & Hrun).
  exists df3. split; [congruence|]. split; [by rewrite Hs3, Hs2|].
  destruct (has_column "Payable_Merchant" df3) eqn:Hpm.
  - apply bind_Returned in Hrun
      as (df4 & w4 & (cells & Hsel & ->)%convert_payable_to_float_Returned & Hrun).
    right. exists cells. split; [done|]. case_bool_decide as Hbank.
    + right. split; [done|].
      apply derive_credit_debit_Returned in Hrun as (cells' & Hsel' & ->).
      rewrite (select_set_column_eq _ _ _ _ Hsel) in Hsel'.
      by injection Hsel' as <-.
    + left. split; [done|]. by apply ret_Returned in Hrun as [<- _].
  - left. split; [done|]. by apply ret_Returned in Hrun as [<- _].
Qed.

(** *** Labels after the renaming *)

Lemma normalized_label_no_underscore df l :
  l ∈ labels (normalized df) -> "_"%char ∉ list_ascii_of_string l.
Proof.
  rewrite labels_normalized. intros (raw & -> & _)%list_elem_of_fmap.
  apply clean_column_name_no_underscore.
Qed.

Lemma derived_columns_underscore target :
  target ∈ derived_columns -> "_"%char ∈ list_ascii_of_string target.
Proof.
  unfold derived_columns, dedicated_columns. intros Ht.
  repeat (apply elem_of_cons in Ht as [-> | Ht]);
    [apply list_elem_of_In; simpl; tauto..|by apply elem_of_nil in Ht].
Qed.

Lemma registry_mapping_values columns_mapping l v :
  columns_mapping = karur_vysya_booking \/ columns_mapping = karur_vysya_refund
    \/ columns_mapping = icici_both ->
  schema_column_mapping columns_mapping !! l = Some v ->
  v ∈ canonical_targets.
Proof.
  unfold canonical_targets.
  intros [-> | [-> | ->]] Hl; simpl in Hl;
    repeat (apply lookup_insert_Some in Hl as [[_ <-]|[_ Hl]]);
    try (apply lookup_singleton_Some in Hl as [_ <-]);
    apply list_elem_of_In; simpl; tauto.
Qed.

Lemma canonical_targets_not_derived v target :
  v ∈ canonical_targets -> target ∈ derived_columns -> v <> target.
Proof.
  intros Hv Ht ->.
  assert (Hdisjoint : forallb (fun t => negb (bool_decide (t ∈ canonical_targets)))
                        derived_columns = true) by (vm_compute; reflexivity).
  rewrite forallb_forall in Hdisjoint.
  specialize (Hdisjoint target (proj1 (list_elem_of_In _ _) Ht)).
  apply negb_true_iff, bool_decide_eq_false in Hdisjoint. by apply Hdisjoint.
Qed.

(** The renaming of a cleaned label never yields a derived label. *)
Lemma renamed_not_derived columns_mapping l target :
  columns_mapping = karur_vysya_booking \/ columns_mapping = karur_vysya_refund
    \/ columns_mapping = icici_both ->
  "_"%char ∉ list_ascii_of_string l ->
  target ∈ derived_columns ->
  renamed (schema_column_mapping columns_mapping) l <> target.
Proof.
  intros Hcm Hl Ht. unfold renamed.
  destruct (schema_column_mapping columns_mapping !! l) as [v|] eqn:Hv; simpl.
  - apply canonical_targets_not_derived; [|done].
    by apply (registry_mapping_values columns_mapping l).
  - intros ->. by apply Hl, derived_columns_underscore.
Qed.

Lemma renamed_payable_icici l :
  "_"%char ∉ list_ascii_of_string l ->
  renamed (schema_column_mapping icici_both) l = "Payable_Merchant" <-> l = "NETAMT".
Proof.
  intros Hl. unfold renamed.
  destruct (schema_column_mapping icici_both !! l) as [v|] eqn:Hv; simpl.
  - simpl in Hv.
    repeat (apply lookup_insert_Some in Hv as [[<- <-]|[_ Hv]]);
      try (apply lookup_singleton_Some in Hv as [<- <-]); by split.
  - split.
    + intros ->. exfalso. apply Hl. apply list_elem_of_In. simpl. tauto.
    + intros ->. by vm_compute in Hv.
Qed.

Lemma resolve_registry bank_name transaction_type columns_mapping :
  resolve bank_name transaction_type = Some columns_mapping ->
  columns_mapping = karur_vysya_booking \/ columns_mapping = karur_vysya_refund
    \/ columns_mapping = icici_both.
Proof. intros [[_ [-> | ->]] | [_ ->]]%resolve_Some; auto. Qed.

Lemma resolve_icici transaction_type :
  resolve "icici" transaction_type = Some icici_both.
Proof.
  unfold resolve.
  replace (BANK_MAPPINGS !! "icici") with (Some ({[ "both" := icici_both ]} : gmap string schema))
    by (vm_compute; reflexivity).
  simpl. destruct (_ !! transaction_type) as [cm|] eqn:Hty.
  - by apply lookup_singleton_Some in Hty as [_ <-].
  - by rewrite lookup_singleton_eq.
Qed.

(** After [coerce_chunk] on a cleaned chunk, the frame carries a derived
    label only if it is the credit/debit column of the [icici] branch. *)
Lemma coerce_chunk_derived_columns df bank_name transaction_type columns_mapping
    w df' w' target :
  resolve bank_name transaction_type = Some columns_mapping ->
  coerce_chunk (normalized df) bank_name (schema_column_mapping columns_mapping) w =
    (Returned df', w') ->
  target ∈ derived_columns ->
  has_column target df' = true ->
  bank_name = "icici" /\ target = "CREDIT_DEBIT_AMOUNT".
Proof.
  intros Hres%resolve_registry Hrun Ht Hhas.
  assert (Hrenamed : target ∉ labels (rename (normalized df)
                                        (schema_column_mapping columns_mapping))).
  { rewrite labels_rename. intros (l & Heq & Hl)%list_elem_of_fmap.
    apply normalized_label_no_underscore in Hl.
    by apply (renamed_not_derived columns_mapping l target). }
  apply coerce_chunk_Returned in Hrun as (df3 & Hl3 & _ & Hcases).
  rewrite <- Hl3 in Hrenamed. apply has_column_true in Hhas.
  destruct Hcases as [[_ ->]|(cells & Hsel & [[_ ->]|[-> ->]])]; [done| |].
  - rewrite labels_set_column_present in Hhas by (by eapply select_not_Missing).
    done.
  - split; [done|].
    assert (Hpm : has_column "Payable_Merchant" df3 = true)
      by (by eapply select_not_Missing).
    assert (Hlabels :
      labels (set_column (set_column df3 "Payable_Merchant"
                            (FloatCol (to_amount <$> cells)))
                "Payable_Merchant"
                (FloatCol (fillna_zero <$> (to_amount <$> cells)))) = labels df3).
    { rewrite !labels_set_column_present; [done..|].
      apply has_column_true. rewrite labels_set_column_present by done.
      by apply has_column_true. }
    destruct (has_column "CREDIT_DEBIT_AMOUNT"
                (set_column (set_column df3 "Payable_Merchant"
                               (FloatCol (to_amount <$> cells)))
                   "Payable_Merchant"
                   (FloatCol (fillna_zero <$> (to_amount <$> cells))))) eqn:Hcda.
    + rewrite labels_set_column_present, Hlabels in Hhas by done. done.
    + rewrite labels_set_column_absent, Hlabels in Hhas by done.
      apply elem_of_app in Hhas as [Hhas|Hhas]; [done|].
      by apply list_elem_of_singleton in Hhas.
Qed.

(** *** The amount coercer *)




(** *** The credit/debit class *)

Lemma credit_debit_fillna_zero x :
  credit_debit (fillna_zero x) =
    match x with
    | S754_finite false _ _ | S754_infinity false => OStr "CREDIT"
    | S754_finite true _ _ | S754_infinity true => OStr "DEBIT"
    | S754_zero _ | S754_nan => ONone
    end.
Proof. by destruct x as [[]|[]| |[] m e]. Qed.

(** C5. In the [icici] branch an unreadable amount (a [NaN]) is filled
    with zero, and the credit/debit class of an amount is [CREDIT] when it
    is positive, [DEBIT] when it is negative and [None] when it is zero or
    was unreadable. On a chunk accepted for [icici], the frame that
    [coerce_chunk] returns holds the filled amounts under
    [Payable_Merchant] and their classes under [CREDIT_DEBIT_AMOUNT], row
    by row. For a bank other than [icici] that frame has no
    [CREDIT_DEBIT_AMOUNT] column, so that the class of every row is
    [None] at this stage. *)
Theorem credit_debit_from_sign :
  (forall x,
      fillna_zero x = (match x with S754_nan => zero | _ => x end)
      /\ credit_debit (fillna_zero x) =
           match x with
           | S754_finite false _ _ | S754_infinity false => OStr "CREDIT"
           | S754_finite true _ _ | S754_infinity true => OStr "DEBIT"
           | S754_zero _ | S754_nan => ONone
           end)
  /\ (forall df transaction_type w df' w',
        resolve "icici" transaction_type = Some icici_both
        /\ (all_expected_present (expected_columns icici_both) (normalized df) = true ->
            coerce_chunk (normalized df) "icici" (schema_column_mapping icici_both) w =
              (Returned df', w') ->
            exists cells,
              select (normalized df) "NETAMT" = One (ObjectCol cells)
              /\ select df' "Payable_Merchant" =
                   One (FloatCol (fillna_zero <$> (to_amount <$> cells)))
              /\ select df' "CREDIT_DEBIT_AMOUNT" =
                   One (ObjectCol
                          (credit_debit <$> (fillna_zero <$> (to_amount <$> cells))))))
  /\ (forall df bank_name transaction_type columns_mapping w df' w',
        bank_name <> "icici" ->
        resolve bank_name transaction_type = Some columns_mapping ->
        coerce_chunk (normalized df) bank_name
          (schema_column_mapping columns_mapping) w = (Returned df', w') ->
        has_column "CREDIT_DEBIT_AMOUNT" df' = false
        /\ forall i, row_get (row_at df' i) "CREDIT_DEBIT_AMOUNT" = VNone).
Proof.
  split; [|split].
  - intros x. split; [done|]. apply credit_debit_fillna_zero.
  - intros df transaction_type w df' w'. split; [apply resolve_icici|].
    intros Hall Hrun.
    pose proof (coerce_chunk_Returned _ _ _ _ _ _ Hrun) as (df3 & Hl3 & Hs3 & Hcases).
    assert (Hsel : select (rename (normalized df) (schema_column_mapping icici_both))
                     "Payable_Merchant" = select (normalized df) "NETAMT").
    { apply select_rename. intros l Hl.
      by apply renamed_payable_icici, (normalized_label_no_underscore df). }
    assert (Hnet : has_column "NETAMT" (normalized df) = true).
    { apply has_column_true.
      apply (proj1 (all_expected_present_true _ _) Hall).
      apply list_elem_of_In. vm_compute. tauto. }
    destruct Hcases as [[Hpm ->]|(cells & Hcells & [[Hbank _]|[_ ->]])]; [| done |].
    + exfalso. apply has_column_false in Hpm. apply Hpm.
      rewrite Hl3, labels_rename. apply list_elem_of_fmap.
      exists "NETAMT". split; [by vm_compute|by apply has_column_true].
    + exists cells. split; [by rewrite <- Hsel, <- Hs3|].
      assert (Hpm4 : select (set_column df3 "Payable_Merchant"
                               (FloatCol (to_amount <$> cells))) "Payable_Merchant"
                     = One (FloatCol (to_amount <$> cells)))
        by (by eapply select_set_column_eq).
      split.
      * rewrite select_set_column_ne by done. by eapply select_set_column_eq.
      * apply select_set_column_new.
        destruct (has_column "CREDIT_DEBIT_AMOUNT" _) eqn:Hcda; [|done].
        exfalso.
        assert (Hin : "CREDIT_DEBIT_AMOUNT" ∈ labels df3).
        { apply has_column_true in Hcda.
          rewrite !labels_set_column_present in Hcda; [done|..].
          - by eapply select_not_Missing.
          - by eapply select_not_Missing. }
        rewrite Hl3, labels_rename in Hin.
        apply list_elem_of_fmap in Hin as (l & Heq & Hl).
        apply (renamed_not_derived icici_both l "CREDIT_DEBIT_AMOUNT");
          [auto| by apply (normalized_label_no_underscore df) | by left | done].
  - intros df bank_name transaction_type columns_mapping w df' w' Hbank Hres Hrun.
    assert (Hcda : has_column "CREDIT_DEBIT_AMOUNT" df' = false).
    { destruct (has_column "CREDIT_DEBIT_AMOUNT" df') eqn:Hhas; [|done].
      destruct (coerce_chunk_derived_columns _ _ _ _ _ _ _ "CREDIT_DEBIT_AMOUNT"
                  Hres Hrun) as [Hicici _]; [by left|done|done]. }
    split; [done|]. intros i. by apply row_get_absent.
Qed.

(** C10. For a bank other than [icici] whose chunk goes through a schema
    of the registry, every record that the materializer builds from the
    coerced frame has a null [Credit_Debit_Amount]: the frame carries no
    [CREDIT_DEBIT_AMOUNT] column, since cleaned labels hold no underscore,
    no rename mapping of the registry yields that label, and only the
    [icici] branch creates the column. *)
Theorem credit_debit_null_outside_icici df bank_name transaction_type merchant_name
    columns_mapping w df' w1 bank_id w2 st w3 :
  bank_name <> "icici" ->
  resolve bank_name transaction_type = Some columns_mapping ->
  coerce_chunk (normalized df) bank_name (schema_column_mapping columns_mapping) w =
    (Returned df', w1) ->
  materialize df' bank_name transaction_type merchant_name bank_id w2 =
    (Returned st, w3) ->
  forall d, d ∈ bulk_data_transactions st -> d !! "Credit_Debit_Amount" = Some VNone.
Proof.
  intros Hbank Hres Hrun Hmat d Hd.
  assert (Hcda : has_column "CREDIT_DEBIT_AMOUNT" df' = false).
  { destruct (has_column "CREDIT_DEBIT_AMOUNT" df') eqn:Hhas; [|done].
    destruct (coerce_chunk_derived_columns _ _ _ _ _ _ _ "CREDIT_DEBIT_AMOUNT"
                Hres Hrun) as [Hicici _]; [by left|done|done]. }
  pose proof (materialize_records _ _ _ _ _ _ _ _ Hmat) as Hrec.
  apply list_elem_of_lookup in Hd as [i Hd].
  destruct (Forall2_lookup_r _ _ _ _ _ Hrec Hd) as (row & Hrow & _ & Hcd & _).
  rewrite Hcd. f_equal.
  unfold materialized_rows in Hrow. case_bool_decide; [|done].
  unfold iterrows in Hrow. rewrite list_lookup_fmap in Hrow.
  destruct (seq 0 (nrows df') !! i) as [j|]; [|done].
  injection Hrow as <-. by apply row_get_absent.
Qed.

(** The frame that the chunk processor hands to [process_transactions]
    carries no dedicated column, so that materialization returns. *)
Lemma coerce_chunk_no_dedicated df bank_name transaction_type columns_mapping
    w df' w' c :
  resolve bank_name transaction_type = Some columns_mapping ->
  coerce_chunk (normalized df) bank_name (schema_column_mapping columns_mapping) w =
    (Returned df', w') ->
  c ∈ dedicated_columns -> has_column c df' = false.
Proof.
  intros Hres Hrun Hc. destruct (has_column c df') eqn:Hhas; [|done].
  destruct (coerce_chunk_derived_columns _ _ _ _ _ _ _ c Hres Hrun)
    as [_ ->]; [by right|done|].
  exfalso. unfold dedicated_columns in Hc.
  repeat (apply elem_of_cons in Hc as [Hc | Hc]; [discriminate Hc|]).
  by apply elem_of_nil in Hc.
Qed.

End Coercions.
(** *** The coercions on the reference instances *)

Lemma credit_debit_from_sign_witness :
  exists df' w',
    @coerce_chunk Reference.pandas Reference.list_store
      (normalized Reference.icici_chunk) "icici" (schema_column_mapping icici_both)
      (Reference.empty_world Reference.list_store []) = (Returned df', w')
    /\ select df' "CREDIT_DEBIT_AMOUNT" =
         One (ObjectCol [OStr "CREDIT"; OStr "DEBIT"; ONone; ONone]).
Proof.
  destruct (@coerce_chunk Reference.pandas Reference.list_store
              (normalized Reference.icici_chunk) "icici"
              (schema_column_mapping icici_both)
              (Reference.empty_world Reference.list_store []))
    as [[df'|e] w'] eqn:Hrun; [|vm_compute in Hrun; discriminate Hrun].
  exists df', w'. split; [reflexivity|].
  destruct (@credit_debit_from_sign Reference.pandas Reference.list_store)
    as (_ & Hicici & _).
  destruct (Hicici Reference.icici_chunk "refund"
              (Reference.empty_world Reference.list_store []) df' w')
    as [_ Hframe].
  destruct (Hframe ltac:(vm_compute; reflexivity) Hrun) as (cells & Hnet & _ & Hcd).
  vm_compute in Hnet. injection Hnet as <-. exact Hcd.
Defined.

Lemma credit_debit_null_outside_icici_witness :
  exists df' w1 st w3,
    @coerce_chunk Reference.pandas Reference.list_store
      (normalized Reference.karur_chunk) "karur_vysya"
      (schema_column_mapping karur_vysya_booking)
      (Reference.empty_world Reference.list_store []) = (Returned df', w1)
    /\ @materialize Reference.pandas Reference.list_store df' "karur_vysya" "booking"
         "IRCTC" 40%Z w1 = (Returned st, w3)
    /\ length (bulk_data_transactions st) = 2
    /\ forall d, d ∈ bulk_data_transactions st ->
                 d !! "Credit_Debit_Amount" = Some VNone.
Proof.
  assert (Hres : resolve "karur_vysya" "booking" = Some karur_vysya_booking)
    by reflexivity.
  destruct (@coerce_chunk Reference.pandas Reference.list_store
              (normalized Reference.karur_chunk) "karur_vysya"
              (schema_column_mapping karur_vysya_booking)
              (Reference.empty_world Reference.list_store []))
    as [[df'|e] w1] eqn:Hrun; [|vm_compute in Hrun; discriminate Hrun].
  assert (Hrows : nrows df' = 2).
  { pose proof (f_equal
                  (fun out : outcome DataFrame * world =>
                     match out.1 with Returned d => nrows d | Raised _ => 0 end)
                  Hrun) as Hrows.
    vm_compute in Hrows. by rewrite Hrows. }
  destruct (@materialize_total Reference.pandas Reference.list_store df'
              "karur_vysya" "booking" "IRCTC" 40%Z w1) as (st & w3 & Hmat).
  { intros c Hc.
    exact (@coerce_chunk_no_dedicated Reference.pandas Reference.list_store
             Reference.karur_chunk "karur_vysya" "booking"
             karur_vysya_booking _ df' w1 c Hres Hrun Hc). }
  destruct (materialize_counts _ _ _ _ _ _ _ _ Hmat) as (Hlen & Hs & _).
  exists df', w1, st, w3. split; [reflexivity|]. split; [exact Hmat|].
  split; [by rewrite Hlen, Hs, Hrows|].
  exact (@credit_debit_null_outside_icici Reference.pandas Reference.list_store
           Reference.karur_chunk "karur_vysya" "booking"
           "IRCTC" karur_vysya_booking _ df' w1 40%Z w1 st w3
           ltac:(intros Hneq; discriminate Hneq) Hres Hrun Hmat).
Defined.

(** *** Resolution and amounts on the reference instances *)

Lemma schema_resolution_order_witness :
  resolve "karur_vysya" "refund" = Some karur_vysya_refund
  /\ resolve "icici" "refund" = Some icici_both
  /\ @process_dataframe_chunk Reference.pandas Reference.list_store
       Reference.karur_chunk "hdfc" "booking" "IRCTC"
       (Reference.empty_world Reference.list_store []) =
       (Returned tt,
        logged (Reference.empty_world Reference.list_store [])
          [(INFO, ProcessingChunk "hdfc" "booking" "IRCTC");
           (ERROR, NoValidMapping "hdfc" "booking")]).
Proof.
  split; [|split].
  - destruct (@schema_resolution_order Reference.pandas Reference.list_store
                "karur_vysya" "refund") as (Hexact & _ & _).
    apply Hexact. reflexivity.
  - destruct (@schema_resolution_order Reference.pandas Reference.list_store
                "icici" "refund") as (_ & Hboth & _).
    rewrite Hboth; reflexivity.
  - destruct (@schema_resolution_order Reference.pandas Reference.list_store
                "hdfc" "booking") as (_ & _ & Hnone).
    destruct (Hnone eq_refl eq_refl) as [_ Hrejected]. apply Hrejected.
Defined.


(** *** The whole chunk processor on the reference instances *)

Example icici_chunk_processed :
  let out :=
    @process_dataframe_chunk Reference.pandas Reference.list_store
      Reference.icici_chunk "icici" "refund" "IRCTC"
      (Reference.empty_world Reference.list_store []) in
  out.1 = Returned tt
  /\ cache out.2 !! "latest_transaction_results" =
       Some ({| total_successful := 4; total_failed := 0 |}, 3600)
  /\ (fun d : transaction_dict => d !! "Credit_Debit_Amount") <$> database out.2 =
       [Some (VStr "CREDIT"); Some (VStr "DEBIT"); Some VNone; Some VNone]
  /\ (fun d : transaction_dict => d !! "MID") <$> database out.2 =
       [Some (VStr "M77"); Some (VStr "M77"); Some (VStr "M78"); Some (VStr "M78")].
Proof. vm_compute. repeat split. Qed.

Example karur_chunk_failed_commit :
  let out :=
    @process_dataframe_chunk Reference.pandas Reference.failing_store
      Reference.karur_chunk "karur_vysya" "booking" "IRCTC"
      (Reference.empty_world Reference.failing_store []) in
  out.1 = Returned tt
  /\ cache out.2 !! "latest_transaction_results" =
       Some ({| total_successful := 2; total_failed := 2 |}, 3600)
  /\ @database Reference.failing_store out.2 = [].
Proof. vm_compute. repeat split. Qed.

(** * Further properties *)

(** ** The column normalizer, continued *)

Section NormalizerOutput.

Lemma find_close_sublist (r r' : list ascii) :
  Text.find_close r = Some r' -> r' `sublist_of` r.
Proof.
  revert r'. induction r as [|d r IH]; intros r' Hf; [done|].
  simpl in Hf. destruct (Text.is_close d).
  - injection Hf as <-. by apply sublist_cons.
  - destruct (Text.is_newline d); [done|]. by apply sublist_cons, IH.
Qed.

Lemma regex_sub_sublist (s : list ascii) : Text.regex_sub s `sublist_of` s.
Proof.
  induction s as [s IH] using text_length_ind.
  destruct s as [|c rest]; [done|]. rewrite regex_sub_cons.
  assert (Hkeep : c :: Text.regex_sub rest `sublist_of` c :: rest).
  { apply sublist_skip, IH. simpl. lia. }
  destruct (Text.is_open c); [|done].
  destruct (Text.find_close rest) as [r'|] eqn:Hf; [|done].
  destruct (find_close_Some _ _ Hf) as [Hlen _].
  apply sublist_cons. transitivity r'; [|by apply find_close_sublist].
  apply IH. simpl. lia.
Qed.

Lemma filter_sublist (p : ascii -> bool) (s : list ascii) :
  List.filter p s `sublist_of` s.
Proof.
  induction s as [|c s IH]; [done|]. simpl.
  destruct (p c); [by apply sublist_skip|by apply sublist_cons].
Qed.

(** X1. Whatever the header, the cleaned column name holds no blank, no
    dot and no underscore, and its characters are characters of the header
    in the order of the header: the normalizer only deletes. *)
Theorem clean_column_name_only_deletes (h : string) :
  list_ascii_of_string (clean_column_name h) `sublist_of` list_ascii_of_string h
  /\ Forall (fun c => Text.isspace c = false /\ Text.dot_or_underscore c = false)
       (list_ascii_of_string (clean_column_name h)).
Proof.
  rewrite clean_column_name_chars, clean_chars_kept. split.
  - unfold kept. etransitivity; [apply filter_sublist|].
    etransitivity; [apply filter_sublist|]. apply regex_sub_sublist.
  - apply Forall_forall. intros c Hc. split.
    + pose proof (kept_no_space (Text.regex_sub (list_ascii_of_string h))) as Hs.
      rewrite Forall_forall in Hs. by apply Hs.
    + pose proof (kept_no_dot (Text.regex_sub (list_ascii_of_string h))) as Hd.
      rewrite Forall_forall in Hd. by apply Hd.
Qed.

Implicit Types (s r : list ascii) (c : ascii).

Lemma no_pair_no_open s :
  Forall (fun c => Text.is_open c = false) s -> no_pair s.
Proof.
  induction 1 as [|c r Hc _ IH]; [done|]. split; [congruence|done].
Qed.

Lemma no_pair_no_close s : "]"%char ∉ s -> no_pair s.
Proof.
  induction s as [|c r IH]; [done|]. intros Hs. split.
  - intros _ Hin. apply Hs. by right.
  - apply IH. intros Hin. apply Hs. by right.
Qed.

Lemma clean_chars_sublist s : clean_chars s `sublist_of` s.
Proof.
  rewrite clean_chars_kept. unfold kept. etransitivity; [apply filter_sublist|].
  etransitivity; [apply filter_sublist|]. apply regex_sub_sublist.
Qed.

Lemma clean_chars_no_line_feed s : Text.LF ∉ clean_chars s.
Proof.
  rewrite clean_chars_kept. intros Hin.
  pose proof (kept_no_space (Text.regex_sub s)) as Hk.
  rewrite Forall_forall in Hk. specialize (Hk _ Hin). discriminate Hk.
Qed.

Lemma sublist_same_length {A : Type} (l1 l2 : list A) :
  l1 `sublist_of` l2 -> length l2 <= length l1 -> l1 = l2.
Proof.
  induction 1 as [|x l1 l2 Hsub IH|x l1 l2 Hsub IH]; simpl; intros Hlen; [done| |].
  - f_equal. apply IH. lia.
  - apply sublist_length in Hsub. lia.
Qed.

(** A second pass changes a cleaned name exactly when a bracket pair is
    left in it. *)
Lemma clean_chars_fixed s :
  clean_chars (clean_chars s) = clean_chars s <-> no_pair (clean_chars s).
Proof.
  split.
  - intros Hfix.
    assert (Hsub : Text.regex_sub (clean_chars s) = clean_chars s).
    { apply sublist_same_length; [apply regex_sub_sublist|].
      rewrite <- Hfix at 1. rewrite (clean_chars_kept (clean_chars s)).
      unfold kept. etransitivity; [apply sublist_length, filter_sublist|].
      apply sublist_length, filter_sublist. }
    rewrite <- Hsub. apply regex_sub_no_pair, clean_chars_no_line_feed.
  - intros Hpair. rewrite (clean_chars_kept (clean_chars s)).
    rewrite (no_pair_regex_sub _ Hpair), clean_chars_kept. apply kept_kept.
Qed.

(** X24. A second pass of the normalizer changes a cleaned name exactly
    when the first pass has left an opening bracket with a closing bracket
    behind it. The normalizer is therefore idempotent on every header
    without a line feed, on every header without an opening bracket and on
    every header without a closing bracket. *)
Theorem clean_column_name_idempotent_iff (h : string) :
  (clean_column_name (clean_column_name h) = clean_column_name h
   <-> no_pair (list_ascii_of_string (clean_column_name h)))
  /\ ((Text.LF ∉ list_ascii_of_string h)
      \/ ("["%char ∉ list_ascii_of_string h)
      \/ ("]"%char ∉ list_ascii_of_string h) ->
      clean_column_name (clean_column_name h) = clean_column_name h).
Proof.
  assert (Hiff : clean_column_name (clean_column_name h) = clean_column_name h
                 <-> no_pair (list_ascii_of_string (clean_column_name h))).
  { rewrite clean_column_name_chars, <- clean_chars_fixed.
    unfold clean_column_name at 1 3. rewrite clean_column_name_chars. split.
    - intros Heq. apply (f_equal list_ascii_of_string) in Heq.
      by rewrite !list_ascii_of_string_of_list_ascii in Heq.
    - by intros ->. }
  split; [exact Hiff|]. intros Hh. apply Hiff. rewrite clean_column_name_chars.
  destruct Hh as [Hlf|[Hopen|Hclose]].
  - by apply clean_chars_no_pair.
  - apply no_pair_no_open, Forall_forall. intros c Hc.
    destruct (Text.is_open c) eqn:Ho; [|done]. exfalso. apply Hopen.
    apply Ascii.eqb_eq in Ho as ->.
    by apply (elem_of_sublist _ _ _ Hc (clean_chars_sublist (list_ascii_of_string h))).
  - apply no_pair_no_close. intros Hin. apply Hclose.
    by apply (elem_of_sublist _ _ _ Hin (clean_chars_sublist (list_ascii_of_string h))).
Qed.

End NormalizerOutput.

Lemma clean_column_name_idempotent_iff_witness :
  clean_column_name (clean_column_name "SESSION ID [ASPD] [x]._") =
    clean_column_name "SESSION ID [ASPD] [x]._"
  /\ clean_column_name (clean_column_name (String Text.LF "TXN DATE")) =
       clean_column_name (String Text.LF "TXN DATE").
Proof.
  split.
  - apply (proj2 (clean_column_name_idempotent_iff "SESSION ID [ASPD] [x]._")).
    left. vm_compute. intros Hin.
    repeat (apply elem_of_cons in Hin as [Hin|Hin]; [discriminate Hin|]).
    by apply elem_of_nil in Hin.
  - apply (proj2 (clean_column_name_idempotent_iff (String Text.LF "TXN DATE"))).
    right; left. vm_compute. intros Hin.
    repeat (apply elem_of_cons in Hin as [Hin|Hin]; [discriminate Hin|]).
    by apply elem_of_nil in Hin.
Defined.

(** ** The schema registry, continued *)

Section RegistryDomain.

Context `{Pandas} `{Store}.

Lemma resolve_karur_vysya transaction_type :
  resolve "karur_vysya" transaction_type =
    if bool_decide (transaction_type = "booking") then Some karur_vysya_booking
    else if bool_decide (transaction_type = "refund") then Some karur_vysya_refund
    else None.
Proof.
  unfold resolve.
  replace (BANK_MAPPINGS !! "karur_vysya")
    with (Some ({[ "booking" := karur_vysya_booking;
                   "refund" := karur_vysya_refund ]} : gmap string schema))
    by (vm_compute; reflexivity).
  simpl. case_bool_decide as Hb.
  - subst. by rewrite lookup_insert_eq.
  - rewrite lookup_insert_ne by done. case_bool_decide as Hr.
    + subst. by rewrite lookup_singleton_eq.
    + rewrite lookup_singleton_ne by done.
      rewrite lookup_insert_ne by done. by rewrite lookup_singleton_ne.
Qed.

(** X2. The registry resolves a schema exactly for [icici] with any
    transaction type and for [karur_vysya] with booking or refund. Every
    other chunk is rejected with the log line of the missing mapping and
    nothing else: a chunk of [hdfc], which has a bank code, and a chunk of
    [karur_vysya] of type both among them. *)
Theorem resolve_domain (bank_name transaction_type : string) :
  (resolve bank_name transaction_type = None <->
   ~ (bank_name = "icici"
      \/ (bank_name = "karur_vysya"
          /\ (transaction_type = "booking" \/ transaction_type = "refund"))))
  /\ (~ (bank_name = "icici"
         \/ (bank_name = "karur_vysya"
             /\ (transaction_type = "booking" \/ transaction_type = "refund"))) ->
      forall df merchant_name w,
        process_dataframe_chunk df bank_name transaction_type merchant_name w =
          (Returned tt,
           logged w
             [(INFO, ProcessingChunk bank_name transaction_type merchant_name);
              (ERROR, NoValidMapping bank_name transaction_type)])).
Proof.
  assert (Hiff : resolve bank_name transaction_type = None <->
    ~ (bank_name = "icici"
       \/ (bank_name = "karur_vysya"
           /\ (transaction_type = "booking" \/ transaction_type = "refund")))).
  { split.
    - intros Hnone [-> | [-> Hty]].
      + by rewrite resolve_icici in Hnone.
      + rewrite resolve_karur_vysya in Hnone.
        destruct Hty as [-> | ->]; by vm_compute in Hnone.
    - intros Hout. destruct (resolve bank_name transaction_type) as [cm|] eqn:Hres;
        [|done].
      exfalso. apply Hout.
      pose proof (resolve_Some _ _ _ Hres) as [[-> _] | [-> _]]; [|by left].
      right. split; [done|]. rewrite resolve_karur_vysya in Hres.
      case_bool_decide; [by left|]. case_bool_decide; [by right|done]. }
  split; [exact Hiff|]. intros Hout df merchant_name w.
  apply process_dataframe_chunk_not_found. by apply Hiff.
Qed.

End RegistryDomain.

Lemma resolve_domain_witness :
  @process_dataframe_chunk Reference.pandas Reference.list_store
    Reference.karur_chunk "karur_vysya" "both" "IRCTC"
    (Reference.empty_world Reference.list_store []) =
    (Returned tt,
     logged (Reference.empty_world Reference.list_store [])
       [(INFO, ProcessingChunk "karur_vysya" "both" "IRCTC");
        (ERROR, NoValidMapping "karur_vysya" "both")]).
Proof.
  destruct (@resolve_domain Reference.pandas Reference.list_store
              "karur_vysya" "both") as [_ Hrejected].
  apply Hrejected. intros [Hbank | [_ [Hty | Hty]]]; discriminate.
Defined.

(** ** The date pass, continued *)

Section DatePass.

Context `{Pandas} `{Store}.

Lemma handle_nat_loop_clean fields (d : transaction_dict) (w : world) :
  (forall f, f ∈ fields -> exists v, d !! f = Some v /\ v <> VNaT) ->
  handle_nat_loop fields d w = (Returned d, w).
Proof.
  induction fields as [|field fields IH]; intros Hclean; [done|]. simpl.
  destruct (Hclean field) as (v & Hv & Hnat); [by left|]. rewrite Hv.
  assert (Hrest : handle_nat_loop fields d w = (Returned d, w)).
  { apply IH. intros f Hf. apply Hclean. by right. }
  by destruct v.
Qed.

Lemma handle_nat_loop_missing fields (d : transaction_dict) (w : world) :
  (exists f, f ∈ fields /\ d !! f = None) ->
  exists f w', f ∈ fields /\ d !! f = None
               /\ handle_nat_loop fields d w = (Raised (KeyError f), w').
Proof.
  revert d w. induction fields as [|field fields IH]; intros d w (f & Hf & Hnone).
  - by apply elem_of_nil in Hf.
  - simpl. destruct (d !! field) as [v|] eqn:Hfield.
    + assert (Hne : f <> field) by (intros ->; congruence).
      apply elem_of_cons in Hf as [?|Hf]; [done|].
      assert (Hstep : forall d1 w1,
        (d1 = d \/ d1 = <[field := VNone]> d) ->
        exists f' w', f' ∈ field :: fields /\ d !! f' = None
                      /\ handle_nat_loop fields d1 w1 = (Raised (KeyError f'), w')).
      { intros d1 w1 Hd1.
        destruct (IH d1 w1) as (f' & w' & Hf' & Hnone' & Hrun).
        - exists f. split; [done|]. destruct Hd1 as [-> | ->]; [done|].
          by rewrite lookup_insert_ne.
        - exists f', w'. split; [by right|]. split; [|done].
          destruct Hd1 as [-> | ->]; [done|].
          destruct (decide (field = f')) as [<-|Hne'].
          + by rewrite lookup_insert_eq in Hnone'.
          + by rewrite lookup_insert_ne in Hnone'. }
      destruct v; try (apply Hstep; by left).
      rewrite bind_run, logger_run. apply Hstep. by right.
    + exists field, w. split; [by left|]. done.
Qed.

Lemma handle_nat_loop_log fields (d : transaction_dict) (w : world) d' w' :
  NoDup fields ->
  handle_nat_loop fields d w = (Returned d', w') ->
  exists entries,
    w' = logged w entries
    /\ length entries = length (List.filter (holds_nat d) fields)
    /\ Forall (fun entry : level * message => entry.1 = WARNING) entries.
Proof.
  intros Hnodup. revert d w.
  induction Hnodup as [|field fields Hfresh Hnodup IH]; intros d w; simpl.
  - intros [<- <-]%ret_Returned. exists []. unfold logged. simpl.
    rewrite app_nil_r. by destruct w.
  - unfold holds_nat at 1. destruct (d !! field) as [v|] eqn:Hfield; [|done].
    assert (Hsame : forall v', List.filter (holds_nat (<[field := v']> d)) fields
                               = List.filter (holds_nat d) fields).
    { intros v'. apply List.filter_ext_in. intros f Hf%list_elem_of_In.
      unfold holds_nat. rewrite lookup_insert_ne; [done|]. by intros ->. }
    destruct v; try (intros Hrun; by apply IH in Hrun).
    rewrite bind_run, logger_run. intros Hrun. apply IH in Hrun
      as (entries & -> & Hlen & Hwarn).
    exists ((WARNING,
             EncounteredNaT field (default (VStr "Unknown") (d !! "Transaction_Id")))
            :: entries).
    rewrite logged_logged. split; [done|]. split.
    + simpl. by rewrite Hlen, Hsame.
    + by constructor.
Qed.

(** X3. [handle_nat_in_datetime_fields] returns exactly on the
    dictionaries that have the five date keys, and raises [KeyError] for a
    date key that the dictionary lacks otherwise. When it returns it has
    written one warning for each date field that held the sentinel and
    nothing else, and a second pass over its result changes nothing and
    logs nothing. *)
Theorem handle_nat_once (d : transaction_dict) (w : world) :
  ((forall f, f ∈ datetime_fields -> is_Some (d !! f)) ->
   exists d' entries,
     handle_nat_in_datetime_fields d w = (Returned d', logged w entries)
     /\ length entries = length (List.filter (holds_nat d) datetime_fields)
     /\ Forall (fun entry : level * message => entry.1 = WARNING) entries
     /\ forall w2, handle_nat_in_datetime_fields d' w2 = (Returned d', w2))
  /\ ((exists f, f ∈ datetime_fields /\ d !! f = None) ->
      exists f w',
        f ∈ datetime_fields /\ d !! f = None
        /\ handle_nat_in_datetime_fields d w = (Raised (KeyError f), w')).
Proof.
  split; [|apply handle_nat_loop_missing].
  intros Hkeys. unfold handle_nat_in_datetime_fields.
  destruct (handle_nat_loop_total datetime_fields d w Hkeys) as (d' & w' & Hrun).
  assert (Hnodup : NoDup datetime_fields).
  { unfold datetime_fields. repeat (apply NoDup_cons; split;
      [intros Hin; repeat (apply elem_of_cons in Hin as [Hin|Hin];
                           [discriminate Hin|]); by apply elem_of_nil in Hin|]).
    apply NoDup_nil_2. }
  destruct (handle_nat_loop_log _ _ _ _ _ Hnodup Hrun) as (entries & -> & Hlen & Hwarn).
  exists d', entries. split; [done|]. split; [done|]. split; [done|].
  intros w2. apply handle_nat_loop_clean. intros f Hf.
  destruct (handle_nat_loop_Returned _ _ _ _ _ Hrun) as [_ Hlook].
  destruct (Hkeys f Hf) as [v Hv]. exists (null_of_nat v). split.
  - rewrite Hlook, bool_decide_eq_true_2 by done. by rewrite Hv.
  - by destruct v.
Qed.

End DatePass.

Lemma handle_nat_once_witness :
  let d : transaction_dict :=
    {[ "Transaction_Date" := VNaT; "Settlement_Date" := VTimestamp 0%Z;
       "Refund_Request_Date" := VNone; "Credit_Debit_Date" := VNaT;
       "File_upload_Date" := VNone ]} in
  (exists d' entries,
      @handle_nat_in_datetime_fields Reference.list_store d
        (Reference.empty_world Reference.list_store []) =
        (Returned d', logged (Reference.empty_world Reference.list_store []) entries)
      /\ length entries = 2)
  /\ exists f w',
      @handle_nat_in_datetime_fields Reference.list_store (delete "Settlement_Date" d)
        (Reference.empty_world Reference.list_store []) = (Raised (KeyError f), w').
Proof.
  intros d.
  destruct (@handle_nat_once Reference.list_store d
              (Reference.empty_world Reference.list_store [])) as [Hreturns _].
  destruct (@handle_nat_once Reference.list_store (delete "Settlement_Date" d)
              (Reference.empty_world Reference.list_store [])) as [_ Hraises].
  split.
  - destruct Hreturns as (d' & entries & Hrun & Hlen & _).
    + intros f Hf. unfold datetime_fields in Hf.
      repeat (apply elem_of_cons in Hf as [-> | Hf]);
        [eexists; vm_compute; reflexivity..|].
      by apply elem_of_nil in Hf.
    + exists d', entries. split; [exact Hrun|]. rewrite Hlen. by vm_compute.
  - destruct Hraises as (f & w' & _ & _ & Hrun).
    + exists "Settlement_Date". split; [|by vm_compute].
      apply list_elem_of_In. simpl. tauto.
    + by exists f, w'.
Defined.

(** ** The coercers, continued *)

Section CoercersAgain.

Context `{Pandas} `{Store}.

Lemma set_column_same (df : DataFrame) (label : string) (c : column_data) :
  select df label = One c -> set_column df label c = df.
Proof.
  intros Hsel. pose proof (select_not_Missing _ _ _ Hsel) as Hc.
  rewrite select_columns_named in Hsel. unfold set_column. rewrite Hc.
  destruct df as [cols n]. simpl in *. f_equal.
  destruct (columns_named label cols) as [|lc0 [|? ?]] eqn:Hnamed; try done.
  injection Hsel as <-.
  assert (Hall : forall lc, lc ∈ cols -> lc.1 = label -> lc = lc0).
  { intros lc Hin Hl.
    assert (Hlc : lc ∈ columns_named label cols).
    { apply list_elem_of_In, List.filter_In. split; [by apply list_elem_of_In|].
      by apply bool_decide_eq_true. }
    rewrite Hnamed in Hlc. by apply list_elem_of_singleton in Hlc. }
  clear Hnamed Hc. induction cols as [|lc cols IH]; [done|].
  rewrite fmap_cons. f_equal.
  - case_bool_decide as Hl; [|done].
    rewrite (Hall lc) by (by left || done). by destruct lc0.
  - apply IH. intros lc' Hin. apply Hall. by right.
Qed.

Lemma nrows_set_column (df : DataFrame) (label : string) (c : column_data) :
  nrows (set_column df label c) = nrows df.
Proof. reflexivity. Qed.

(** X4. When [convert_payable_to_float] returns, the frame has the same
    labels, the same number of rows and the same columns under every other
    label, and the world is untouched; the column is then a float column,
    so that a second conversion of it raises [AttributeError] (the [.str]
    accessor refuses it). *)
Theorem convert_payable_to_float_twice df column_name w df' w' :
  convert_payable_to_float df column_name w = (Returned df', w') ->
  w' = w
  /\ labels df' = labels df
  /\ nrows df' = nrows df
  /\ (forall l, l <> column_name -> select df' l = select df l)
  /\ (exists cells, select df' column_name = One (FloatCol cells))
  /\ forall w2, convert_payable_to_float df' column_name w2 = (Raised AttributeError, w2).
Proof.
  intros Hrun.
  assert (Hw : w' = w).
  { unfold convert_payable_to_float in Hrun.
    destruct (select df column_name) as [|[]|]; try done.
    by apply ret_Returned in Hrun as [_ <-]. }
  apply convert_payable_to_float_Returned in Hrun as (cells & Hsel & ->).
  pose proof (select_set_column_eq _ _ _ (FloatCol (to_amount <$> cells)) Hsel) as Hsel'.
  split; [done|]. split.
  { apply labels_set_column_present. by eapply select_not_Missing. }
  split; [done|]. split; [intros l Hl; by apply select_set_column_ne|].
  split; [by eexists|]. intros w2. unfold convert_payable_to_float. by rewrite Hsel'.
Qed.

Lemma isna_positions_from (n : nat) (cells : list (option Timestamp)) :
  let positions :=
    (List.filter (fun it : nat * option Timestamp => bool_decide (it.2 = None))
       (imap (fun i t => (n + i, t)) cells)).*1 in
  (forall i, i ∈ positions <-> exists j, i = n + j /\ cells !! j = Some None)
  /\ StronglySorted lt positions.
Proof.
  revert n. induction cells as [|t cells IH]; intros n; simpl.
  - split; [|constructor]. intros i. split; [by intros ?%elem_of_nil|].
    by intros (j & _ & ?).
  - assert (Hshift :
      imap ((fun i t0 => (n + i, t0)) ∘ S) cells
      = imap (fun i (t0 : option Timestamp) => (S n + i, t0)) cells).
    { apply imap_ext. intros i t0 _. simpl. f_equal. lia. }
    rewrite Hshift. destruct (IH (S n)) as [Hin Hsorted].
    assert (Hlater : forall i,
      i ∈ (List.filter (fun it : nat * option Timestamp => bool_decide (it.2 = None))
             (imap (fun i t0 => (S n + i, t0)) cells)).*1 ->
      n < i).
    { intros i (j & -> & _)%Hin. lia. }
    assert (Hrest : forall i,
      (exists j, i = n + j /\ (t :: cells) !! j = Some None)
      <-> (i = n /\ t = None) \/ exists j, i = S n + j /\ cells !! j = Some None).
    { intros i. split.
      - intros ([|j] & -> & Hj); simpl in Hj.
        + left. split; [lia|congruence].
        + right. exists j. split; [lia|done].
      - intros [[-> ->]|(j & -> & Hj)].
        + exists 0. split; [lia|done].
        + exists (S j). split; [lia|done]. }
    case_bool_decide as Ht; simpl in Ht |- *.
    + rewrite Nat.add_0_r. split.
      * intros i. rewrite Hrest, elem_of_cons, Hin. tauto.
      * constructor; [done|]. apply Forall_forall. intros i Hi. by apply Hlater.
    + split; [|done]. intros i. rewrite Hrest, Hin. tauto.
Qed.

(** The positions without a date, in ascending order. *)
Lemma isna_positions_spec (cells : list (option Timestamp)) :
  (forall i, i ∈ isna_positions cells <-> cells !! i = Some None)
  /\ StronglySorted lt (isna_positions cells).
Proof.
  destruct (isna_positions_from 0 cells) as [Hin Hsorted]. split; [|done].
  intros i. unfold isna_positions. rewrite (Hin i). split.
  - by intros (j & -> & Hj).
  - intros Hi. by exists i.
Qed.

(** X5. When [convert_column_to_datetime] returns, the frame has the same
    labels, the same number of rows, the same index and the same columns
    under every other label, and the column holds dates. It has logged one
    warning exactly when some cell holds no date, and the warning lists,
    in ascending order, the index labels of the rows without a date (the
    label of the first row of the frame plus the position of the row), not
    their positions. Converting the column again returns the same
    frame. *)
Theorem convert_column_to_datetime_twice df column_name w df' w' :
  convert_column_to_datetime df column_name w = (Returned df', w') ->
  labels df' = labels df
  /\ nrows df' = nrows df
  /\ index_start df' = index_start df
  /\ (forall l, l <> column_name -> select df' l = select df l)
  /\ (exists cells positions,
        select df' column_name = One (DatetimeCol cells)
        /\ (forall i, i ∈ positions <-> cells !! i = Some None)
        /\ StronglySorted lt positions
        /\ w' = match positions with
                | [] => w
                | _ :: _ =>
                    logged w
                      [(WARNING,
                        CouldNotParseDates column_name
                          ((fun i => index_start df + i) <$> positions))]
                end)
  /\ forall w2, exists w2', convert_column_to_datetime df' column_name w2 = (Returned df', w2').
Proof.
  intros Hrun. unfold convert_column_to_datetime in Hrun.
  destruct (select df column_name) as [|c|] eqn:Hsel; try done.
  apply bind_Returned in Hrun as ([] & w1 & Hlog & [<- <-]%ret_Returned).
  pose proof (select_set_column_eq _ _ _ (DatetimeCol (to_datetime c)) Hsel) as Hsel'.
  split; [apply labels_set_column_present; by eapply select_not_Missing|].
  split; [done|]. split; [done|].
  split; [intros l Hl; by apply select_set_column_ne|]. split.
  - exists (to_datetime c), (isna_positions (to_datetime c)).
    destruct (isna_positions_spec (to_datetime c)) as [Hin Hsorted].
    split; [done|]. split; [done|]. split; [done|].
    unfold isna_index, index_label in Hlog. simpl in Hlog.
    destruct (isna_positions (to_datetime c)); simpl in Hlog.
    + by apply ret_Returned in Hlog as [_ <-].
    + rewrite logger_run in Hlog. by injection Hlog as <-.
  - intros w2. unfold convert_column_to_datetime. rewrite Hsel'. simpl.
    rewrite (set_column_same _ _ _ Hsel'). rewrite bind_run.
    destruct (isna_index _ _); [by eexists|].
    rewrite logger_run. by eexists.
Qed.

End CoercersAgain.

Lemma convert_payable_to_float_twice_witness :
  exists df',
    @convert_payable_to_float Reference.pandas Reference.list_store
      (normalized Reference.karur_chunk) "BOOKINGAMOUNT"
      (Reference.empty_world Reference.list_store []) =
      (Returned df', Reference.empty_world Reference.list_store [])
    /\ @convert_payable_to_float Reference.pandas Reference.list_store df'
         "BOOKINGAMOUNT" (Reference.empty_world Reference.list_store []) =
         (Raised AttributeError, Reference.empty_world Reference.list_store []).
Proof.
  eexists. split; [vm_compute; reflexivity|].
  eapply (@convert_payable_to_float_twice Reference.pandas Reference.list_store
            (normalized Reference.karur_chunk) "BOOKINGAMOUNT"
            (Reference.empty_world Reference.list_store [])).
  vm_compute. reflexivity.
Defined.

Lemma convert_column_to_datetime_twice_witness :
  let df :=
    {| frame_columns :=
         [("TXNDATE", ObjectCol [OStr "2024-01-15"; OStr "soon"; ONaN]);
          ("IRCTCORDERNO", ObjectCol [OStr "100001"; OStr "100002"; OStr "100003"])];
       nrows := 3; index_start := 6 |} in
  exists df' w',
    @convert_column_to_datetime Reference.pandas Reference.list_store df "TXNDATE"
      (Reference.empty_world Reference.list_store []) = (Returned df', w')
    /\ log w' = [(WARNING, CouldNotParseDates "TXNDATE" [7; 8])]
    /\ exists w2',
         @convert_column_to_datetime Reference.pandas Reference.list_store df'
           "TXNDATE" w' = (Returned df', w2').
Proof.
  intros df. eexists _, _. split; [vm_compute; reflexivity|]. split; [reflexivity|].
  eapply (@convert_column_to_datetime_twice Reference.pandas Reference.list_store
            df "TXNDATE" (Reference.empty_world Reference.list_store [])).
  vm_compute. reflexivity.
Defined.

(** ** [process_transactions], continued *)

Section Publication.

Context `{Pandas} `{Store}.

(** The commit never raises: it publishes the counts either way. *)
Lemma commit_and_publish_run st w :
  exists r w',
    commit_and_publish st w = (Returned r, w')
    /\ cache w' = <["latest_transaction_results" := (r, 3600)]> (cache w)
    /\ total_successful r = success_count st
    /\ ((exists e d, bulk_create_transactions (bulk_data_transactions st) (database w)
                     = (d, Some e)
                   /\ database w' = database w
                   /\ total_failed r = fail_count st + length (bulk_data_transactions st))
        \/ (bulk_create_transactions (bulk_data_transactions st) (database w)
              = (database w', None)
            /\ total_failed r = fail_count st)).
Proof.
  destruct (bulk_create_transactions (bulk_data_transactions st) (database w))
    as [d [e|]] eqn:Hstore.
  - rewrite (commit_and_publish_failed st w d e Hstore).
    eexists _, _. split; [reflexivity|]. simpl. split; [done|]. split; [done|].
    left. by exists e, d.
  - rewrite (commit_and_publish_committed st w d Hstore).
    eexists _, _. split; [reflexivity|]. simpl. split; [done|]. split; [done|].
    by right.
Qed.

Lemma log_only_coerce_chunk df bank_name column_mapping :
  log_only (coerce_chunk df bank_name column_mapping).
Proof.
  unfold coerce_chunk.
  apply log_only_bind.
  { destruct (has_column _ _);
      [apply log_only_convert_column_to_datetime|apply log_only_ret]. }
  intros df2. apply log_only_bind.
  { destruct (has_column _ _);
      [apply log_only_convert_column_to_datetime|apply log_only_ret]. }
  intros df3. destruct (has_column _ _); [|apply log_only_ret].
  apply log_only_bind; [apply log_only_convert_payable_to_float|].
  intros df4. case_bool_decide; [|apply log_only_ret].
  unfold derive_credit_debit.
  destruct (select df4 "Payable_Merchant") as [|[]|];
    first [apply log_only_ret | apply log_only_raise].
Qed.

(** What [process_transactions] leaves behind. *)
Lemma process_transactions_footprint df bank_name transaction_type merchant_name w :
  let out := process_transactions df bank_name transaction_type merchant_name w in
  (forall key, key <> "latest_transaction_results" ->
               cache out.2 !! key = cache w !! key)
  /\ (forall e, out.1 = Raised e ->
                database out.2 = database w /\ cache out.2 = cache w)
  /\ (out.1 = Returned None -> database out.2 = database w /\ cache out.2 = cache w).
Proof.
  destruct (BANK_CODE_MAPPING !! bank_name) as [bank_id|] eqn:Hcode.
  - rewrite (process_transactions_registered _ _ _ _ _ _ Hcode).
    set (w0 := logged w [(INFO, StartedTransactions bank_name transaction_type
                                  merchant_name)]).
    destruct (log_only_materialize df bank_name transaction_type merchant_name bank_id
                w0) as [Hdb Hcache].
    rewrite bind_run.
    destruct (materialize df bank_name transaction_type merchant_name bank_id w0)
      as [[st|e] w1]; simpl in *.
    + destruct (commit_and_publish_run st w1) as (r & w2 & Hrun & Hc & _).
      rewrite bind_run, Hrun. simpl. split; [|split]; [|done|done].
      intros key Hkey. rewrite Hc, lookup_insert_ne by done. by rewrite Hcache.
    + split; [|split]; [|by intros e0 _|done]. intros key _. by rewrite Hcache.
  - rewrite (process_transactions_unregistered _ _ _ _ _ Hcode). simpl.
    by split; [|split].
Qed.

(** What [process_dataframe_chunk] leaves behind. *)
Lemma process_dataframe_chunk_footprint df bank_name transaction_type merchant_name w :
  (forall key, key <> "latest_transaction_results" ->
     cache (process_dataframe_chunk df bank_name transaction_type merchant_name w).2
       !! key = cache w !! key)
  /\ (forall e w',
        process_dataframe_chunk df bank_name transaction_type merchant_name w =
          (Raised e, w') ->
        database w' = database w /\ cache w' = cache w).
Proof.
  destruct (resolve bank_name transaction_type) as [cm|] eqn:Hres.
  2: { rewrite (process_dataframe_chunk_not_found _ _ _ _ _ Hres). by split. }
  destruct (all_expected_present (expected_columns cm) (normalized df)) eqn:Hall.
  2: { rewrite (process_dataframe_chunk_missing _ _ _ _ _ _ Hres Hall). by split. }
  rewrite (process_dataframe_chunk_accepted _ _ _ _ _ _ Hres Hall).
  set (w0 := logged w [(INFO, ProcessingChunk bank_name transaction_type
                                merchant_name)]).
  destruct (log_only_coerce_chunk (normalized df) bank_name
              (schema_column_mapping cm) w0) as [Hdb Hcache].
  rewrite bind_run.
  destruct (coerce_chunk (normalized df) bank_name (schema_column_mapping cm) w0)
    as [[df'|e] w1]; simpl in *.
  - destruct (process_transactions_footprint df' bank_name transaction_type
                merchant_name w1) as (Hkeys & Hraised & _).
    rewrite bind_run.
    destruct (process_transactions df' bank_name transaction_type merchant_name w1)
      as [[r|e] w2]; simpl in *.
    + split; [|done]. intros key Hkey. by rewrite Hkeys, Hcache.
    + split.
      * intros key Hkey. by rewrite Hkeys, Hcache.
      * intros e0 w' [= _ <-]. destruct (Hraised e eq_refl) as [-> ->]. done.
  - split; [intros key _; by rewrite Hcache|]. by intros e0 w' [= _ <-].
Qed.

(** X6. Whatever the chunk, [process_dataframe_chunk] can change the
    cache under the key of the latest results only; and when it raises,
    it has changed neither the database nor the cache: an exception of a
    coercion or of the row loop comes before the commit, and the commit
    itself never raises. *)
Theorem chunk_footprint df bank_name transaction_type merchant_name w :
  (forall key, key <> "latest_transaction_results" ->
     cache (process_dataframe_chunk df bank_name transaction_type merchant_name w).2
       !! key = cache w !! key)
  /\ (forall e w',
        process_dataframe_chunk df bank_name transaction_type merchant_name w =
          (Raised e, w') ->
        database w' = database w /\ cache w' = cache w).
Proof. apply process_dataframe_chunk_footprint. Qed.

Lemma materialize_invalid df bank_name transaction_type merchant_name bank_id w :
  transaction_type ∉ valid_transaction_types ->
  materialize df bank_name transaction_type merchant_name bank_id w =
    (Returned {| loop_frame := df; bulk_data_transactions := [];
                 success_count := 0; fail_count := nrows df |},
     logged w (replicate (nrows df)
                 (ERROR, UnexpectedTransactionType transaction_type))).
Proof.
  intros Hty. unfold materialize.
  assert (Hrows : length (iterrows df) = nrows df).
  { unfold iterrows. by rewrite length_fmap, length_seq. }
  rewrite <- Hrows.
  assert (Hloop : forall rows n w,
    row_loop bank_name transaction_type merchant_name bank_id rows
      {| loop_frame := df; bulk_data_transactions := [];
         success_count := 0; fail_count := n |} w =
      (Returned {| loop_frame := df; bulk_data_transactions := [];
                   success_count := 0; fail_count := n + length rows |},
       logged w (replicate (length rows)
                   (ERROR, UnexpectedTransactionType transaction_type)))).
  { induction rows as [|row rows IH]; intros n w1.
    - cbn [row_loop length replicate]. unfold logged.
      rewrite app_nil_r, Nat.add_0_r. by destruct w1.
    - cbn [row_loop length replicate]. rewrite bind_run. unfold row_body.
      rewrite bool_decide_eq_false_2 by done. cbn [negb].
      rewrite bind_run, logger_run.
      cbn [loop_frame bulk_data_transactions success_count fail_count].
      cbn [mret M_ret].
      rewrite IH, logged_logged. cbn [app].
      do 3 f_equal. lia. }
  apply (Hloop (iterrows df) 0 w).
Qed.

(** X7. For a bank with a registered code and a transaction type that is
    none of booking, refund and both, [process_transactions] builds no
    record and counts every row as failed, whatever the frame holds and
    whatever the store does with the empty batch that is still submitted:
    it returns and publishes [{total_successful: 0, total_failed: N}]. *)
Theorem invalid_transaction_type_fails_every_row df bank_name transaction_type
    merchant_name bank_id w :
  BANK_CODE_MAPPING !! bank_name = Some bank_id ->
  transaction_type ∉ valid_transaction_types ->
  exists w',
    process_transactions df bank_name transaction_type merchant_name w =
      (Returned (Some {| total_successful := 0; total_failed := nrows df |}), w')
    /\ cache w' !! "latest_transaction_results" =
         Some ({| total_successful := 0; total_failed := nrows df |}, 3600)
    /\ database w' =
         match bulk_create_transactions [] (database w) with
         | (d, None) => d
         | (_, Some _) => database w
         end.
Proof.
  intros Hcode Hty.
  rewrite (process_transactions_registered _ _ _ _ _ _ Hcode).
  rewrite bind_run, (materialize_invalid _ _ _ _ _ _ Hty), bind_run.
  match goal with |- context [commit_and_publish ?st ?w1] =>
    destruct (commit_and_publish_run st w1) as (r & w2 & Hrun & Hc & Hs & Hstore)
  end.
  rewrite Hrun. simpl in *.
  assert (Hr : r = {| total_successful := 0; total_failed := nrows df |}).
  { destruct r as [s f]. simpl in *. f_equal; [done|].
    destruct Hstore as [(e & d & _ & _ & ->)|[_ ->]]; lia. }
  subst r. exists w2. split; [done|]. split; [by rewrite Hc, lookup_insert_eq|].
  destruct Hstore as [(e & d & -> & -> & _)|[-> _]]; done.
Qed.

(** X8. For a bank with a registered code, one of the three transaction
    types and a frame without dedicated columns, the row loop returns with
    one record for each row; when the store accepts the batch,
    [process_transactions] returns [{total_successful: N, total_failed: 0}],
    publishes it in the cache and leaves the database as the store made
    it. *)
Theorem process_transactions_committed df bank_name transaction_type merchant_name
    bank_id w :
  BANK_CODE_MAPPING !! bank_name = Some bank_id ->
  transaction_type ∈ valid_transaction_types ->
  (forall c, c ∈ dedicated_columns -> has_column c df = false) ->
  exists st w1,
    materialize df bank_name transaction_type merchant_name bank_id
      (logged w [(INFO, StartedTransactions bank_name transaction_type merchant_name)])
      = (Returned st, w1)
    /\ length (bulk_data_transactions st) = nrows df
    /\ forall d,
        bulk_create_transactions (bulk_data_transactions st) (database w) = (d, None) ->
        exists w',
          process_transactions df bank_name transaction_type merchant_name w =
            (Returned (Some {| total_successful := nrows df; total_failed := 0 |}), w')
          /\ database w' = d
          /\ cache w' !! "latest_transaction_results" =
               Some ({| total_successful := nrows df; total_failed := 0 |}, 3600).
Proof.
  intros Hcode Hty Habsent.
  destruct (materialize_total df bank_name transaction_type merchant_name bank_id
              (logged w [(INFO, StartedTransactions bank_name transaction_type
                                  merchant_name)]) Habsent) as (st & w1 & Hmat).
  destruct (materialize_counts _ _ _ _ _ _ _ _ Hmat) as (Hlen & Hs & Hf).
  rewrite bool_decide_eq_true_2 in Hs, Hf by done.
  exists st, w1. split; [done|]. split; [by rewrite Hlen|]. intros d Hstore.
  destruct (log_only_materialize df bank_name transaction_type merchant_name bank_id
              (logged w [(INFO, StartedTransactions bank_name transaction_type
                                  merchant_name)])) as [Hdb _].
  rewrite Hmat in Hdb. simpl in Hdb.
  rewrite (process_transactions_registered _ _ _ _ _ _ Hcode).
  rewrite bind_run, Hmat, bind_run.
  rewrite (commit_and_publish_committed st w1 d) by (by rewrite Hdb).
  rewrite Hs, Hf. eexists. split; [reflexivity|]. simpl.
  split; [done|]. apply lookup_insert_eq.
Qed.

Lemma registry_bank_code bank_name transaction_type columns_mapping :
  resolve bank_name transaction_type = Some columns_mapping ->
  exists bank_id, BANK_CODE_MAPPING !! bank_name = Some bank_id.
Proof.
  intros [[-> _] | [-> _]]%resolve_Some; eexists; vm_compute; reflexivity.
Qed.

Lemma nrows_coerce_chunk df bank_name column_mapping w df' w' :
  coerce_chunk df bank_name column_mapping w = (Returned df', w') ->
  nrows df' = nrows df.
Proof.
  unfold coerce_chunk.
  assert (Hdate : forall df0 c w0 df1 w1,
    (if has_column c df0 then convert_column_to_datetime df0 c else mret df0) w0
      = (Returned df1, w1) -> nrows df1 = nrows df0).
  { intros df0 c w0 df1 w1. destruct (has_column c df0).
    - by intros (col & _ & ->)%convert_column_to_datetime_Returned.
    - by intros [<- _]%ret_Returned. }
  intros (df2 & w2 & Hn2%Hdate & Hrun)%bind_Returned.
  apply bind_Returned in Hrun as (df3 & w3 & Hn3%Hdate & Hrun).
  simpl in Hn2. rewrite <- Hn2, <- Hn3.
  destruct (has_column "Payable_Merchant" df3).
  - apply bind_Returned in Hrun
      as (df4 & w4 & (cells & _ & ->)%convert_payable_to_float_Returned & Hrun).
    case_bool_decide.
    + by apply derive_credit_debit_Returned in Hrun as (cells' & _ & ->).
    + by apply ret_Returned in Hrun as [<- _].
  - by apply ret_Returned in Hrun as [<- _].
Qed.

(** X9. Every bank that the registry resolves has a registered code, and
    the frame that the coercions return carries no dedicated column: an
    accepted chunk whose coercions return is always materialized and
    published. [process_transactions] returns a result whose
    [total_successful] is the number of rows of the chunk for one of the
    three transaction types and zero otherwise, the cache holds that
    result, and [process_dataframe_chunk] returns. *)
Theorem accepted_chunk_is_published df bank_name transaction_type merchant_name
    columns_mapping w df' w1 :
  resolve bank_name transaction_type = Some columns_mapping ->
  all_expected_present (expected_columns columns_mapping) (normalized df) = true ->
  coerce_chunk (normalized df) bank_name (schema_column_mapping columns_mapping)
    (logged w [(INFO, ProcessingChunk bank_name transaction_type merchant_name)])
    = (Returned df', w1) ->
  exists r w2,
    process_transactions df' bank_name transaction_type merchant_name w1 =
      (Returned (Some r), w2)
    /\ total_successful r =
         (if bool_decide (transaction_type ∈ valid_transaction_types)
          then nrows df else 0)
    /\ cache w2 !! "latest_transaction_results" = Some (r, 3600)
    /\ process_dataframe_chunk df bank_name transaction_type merchant_name w =
         (Returned tt, w2).
Proof.
  intros Hres Hall Hrun.
  destruct (registry_bank_code _ _ _ Hres) as [bank_id Hcode].
  set (w1' := logged w1 [(INFO, StartedTransactions bank_name transaction_type
                                  merchant_name)]).
  destruct (materialize_total df' bank_name transaction_type merchant_name bank_id w1')
    as (st & w1'' & Hmat).
  { intros c Hc. by eapply coerce_chunk_no_dedicated. }
  destruct (materialize_counts _ _ _ _ _ _ _ _ Hmat) as (_ & Hs & _).
  destruct (commit_and_publish_run st w1'') as (r & w2 & Hcommit & Hc & Hsr & _).
  assert (Hpt : process_transactions df' bank_name transaction_type merchant_name w1 =
                (Returned (Some r), w2)).
  { rewrite (process_transactions_registered _ _ _ _ _ _ Hcode).
    fold w1'. by rewrite bind_run, Hmat, bind_run, Hcommit. }
  exists r, w2. split; [done|]. split.
  { rewrite Hsr, Hs. by rewrite (nrows_coerce_chunk _ _ _ _ _ _ Hrun). }
  split; [by rewrite Hc, lookup_insert_eq|].
  rewrite (process_dataframe_chunk_accepted _ _ _ _ _ _ Hres Hall).
  by rewrite bind_run, Hrun, bind_run, Hpt.
Qed.

End Publication.

(** *** Publication on the reference instances *)

Lemma invalid_transaction_type_fails_every_row_witness :
  exists w',
    @process_transactions Reference.pandas Reference.list_store
      Reference.prepared_chunk "karur_vysya" "cancel" "IRCTC"
      (Reference.empty_world Reference.list_store []) =
      (Returned (Some {| total_successful := 0; total_failed := 2 |}), w')
    /\ @database Reference.list_store w' = [].
Proof.
  destruct (@invalid_transaction_type_fails_every_row Reference.pandas
              Reference.list_store Reference.prepared_chunk "karur_vysya" "cancel"
              "IRCTC" 40%Z (Reference.empty_world Reference.list_store []) eq_refl)
    as (w' & Hrun & _ & Hdb).
  { intros Hin. unfold valid_transaction_types in Hin.
    repeat (apply elem_of_cons in Hin as [Hin | Hin]; [discriminate Hin|]).
    by apply elem_of_nil in Hin. }
  exists w'. split; [exact Hrun | exact Hdb].
Defined.

Lemma process_transactions_committed_witness :
  exists w',
    @process_transactions Reference.pandas Reference.list_store
      Reference.prepared_chunk "karur_vysya" "booking" "IRCTC"
      (Reference.empty_world Reference.list_store []) =
      (Returned (Some {| total_successful := 2; total_failed := 0 |}), w')
    /\ length (@database Reference.list_store w') = 2.
Proof.
  destruct (@process_transactions_committed Reference.pandas Reference.list_store
              Reference.prepared_chunk "karur_vysya" "booking" "IRCTC" 40%Z
              (Reference.empty_world Reference.list_store []) eq_refl)
    as (st & w1 & _ & Hlen & Hcommit).
  { unfold valid_transaction_types. apply elem_of_cons. by left. }
  { exact prepared_chunk_no_dedicated. }
  destruct (Hcommit ([] ++ bulk_data_transactions st) eq_refl)
    as (w' & Hrun & Hdb & _).
  exists w'. split; [exact Hrun|]. rewrite Hdb. exact Hlen.
Defined.

Lemma accepted_chunk_is_published_witness :
  exists w2,
    @process_dataframe_chunk Reference.pandas Reference.list_store
      Reference.karur_chunk "karur_vysya" "booking" "IRCTC"
      (Reference.empty_world Reference.list_store []) = (Returned tt, w2)
    /\ exists r, @cache Reference.list_store w2 !! "latest_transaction_results" =
                   Some (r, 3600)
                 /\ total_successful r = 2.
Proof.
  destruct (@coerce_chunk Reference.pandas Reference.list_store
              (normalized Reference.karur_chunk) "karur_vysya"
              (schema_column_mapping karur_vysya_booking)
              (logged (Reference.empty_world Reference.list_store [])
                 [(INFO, ProcessingChunk "karur_vysya" "booking" "IRCTC")]))
    as [[df'|e] w1] eqn:Hrun; [|vm_compute in Hrun; discriminate Hrun].
  destruct (@accepted_chunk_is_published Reference.pandas Reference.list_store
              Reference.karur_chunk "karur_vysya" "booking" "IRCTC"
              karur_vysya_booking (Reference.empty_world Reference.list_store [])
              df' w1 eq_refl ltac:(vm_compute; reflexivity) Hrun)
    as (r & w2 & _ & Hs & Hcache & Hchunk).
  exists w2. split; [exact Hchunk|]. exists r. split; [exact Hcache | exact Hs].
Defined.

(** ** The dictionaries of the batch *)

Section Records.

Context `{Pandas} `{Store}.





(** The display on a frame without dedicated column. *)
Lemma transaction_data_of_absent row df bank_name transaction_type merchant_name
    bank_id w d df' w' :
  (forall c, c ∈ dedicated_columns -> has_column c df = false) ->
  transaction_data_of row df bank_name transaction_type merchant_name bank_id w =
    (Returned (d, df'), w') ->
  df' = df /\ forall key, key ∈ dedicated_columns -> d !! key = Some VNone.
Proof.
  intros Habsent. unfold transaction_data_of.
  assert (Hc : forall c, c ∈ dedicated_columns ->
               forall convert w, dedicated convert df c w = (Returned (VNone, df), w)).
  { intros c Hc convert w1. by apply dedicated_absent, Habsent. }
  unfold dedicated_columns in Hc.
  do 9 (rewrite bind_run, Hc by (repeat (first [by left | right]))).
  intros [Hd _]%ret_Returned. apply pair_equal_spec in Hd as [<- <-].
  split; [done|]. intros key Hkey. rewrite list_to_map_assoc.
  unfold dedicated_columns in Hkey.
  repeat (apply elem_of_cons in Hkey as [-> | Hkey]); [reflexivity..|].
  by apply elem_of_nil in Hkey.
Qed.

(** X11. No schema of the registry leads to a dedicated column: in every
    dictionary that the materializer builds from a frame that the
    coercions of the chunk processor returned, the nine dedicated entries
    (the refund request date, the credit/debit date, the upload date and
    the six amounts) are null. *)
Theorem chunk_records_dedicated_null df bank_name transaction_type merchant_name
    columns_mapping w df' w1 bank_id w2 st w3 :
  resolve bank_name transaction_type = Some columns_mapping ->
  coerce_chunk (normalized df) bank_name (schema_column_mapping columns_mapping) w =
    (Returned df', w1) ->
  materialize df' bank_name transaction_type merchant_name bank_id w2 =
    (Returned st, w3) ->
  forall d key, d ∈ bulk_data_transactions st -> key ∈ dedicated_columns ->
                d !! key = Some VNone.
Proof.
  intros Hres Hrun Hmat.
  assert (Habsent : forall c, c ∈ dedicated_columns -> has_column c df' = false).
  { intros c Hc. by eapply coerce_chunk_no_dedicated. }
  unfold materialize in Hmat.
  apply (row_loop_invariant
           (fun _ st =>
              loop_frame st = df'
              /\ Forall (fun d => forall key, key ∈ dedicated_columns ->
                                              d !! key = Some VNone)
                   (bulk_data_transactions st))
           bank_name transaction_type merchant_name bank_id) with (done := [])
    in Hmat.
  - destruct Hmat as [_ Hall]. intros d key Hd.
    by apply (proj1 (Forall_forall _ _) Hall).
  - intros _ row st0 w0 st1 w1' [Hframe Hinv] Hbody.
    apply row_body_Returned in Hbody
      as [[Hty ->]|(Hty & d0 & df1 & w4 & d & Hdata & Hnat & ->)]; simpl; [done|].
    rewrite Hframe in Hdata.
    apply (transaction_data_of_absent _ _ _ _ _ _ _ _ _ _ Habsent) in Hdata
      as [-> Hnull].
    split; [done|]. apply Forall_app. split; [done|]. constructor; [|constructor].
    apply handle_nat_loop_Returned in Hnat as [_ Hlook].
    intros key Hkey. rewrite Hlook, (Hnull key Hkey). by case_bool_decide.
  - split; [done|constructor].
Qed.

(** *** A dedicated amount column *)

Lemma select_Missing df label :
  select df label = Missing <-> has_column label df = false.
Proof.
  rewrite select_columns_named, has_column_false. unfold labels.
  induction (frame_columns df) as [|lc cols IH].
  - split; [intros _; apply not_elem_of_nil | done].
  - rewrite columns_named_cons, fmap_cons, not_elem_of_cons.
    case_bool_decide as Hl.
    + split; [|by intros [? _]].
      by destruct (columns_named label cols) as [|? [|? ?]].
    + rewrite IH. split; [by intros ? | by intros [_ ?]].
Qed.

Lemma has_column_select df df' label :
  select df' label = select df label ->
  has_column label df = true -> has_column label df' = true.
Proof.
  intros Hsel Hhas. destruct (has_column label df') eqn:Hhas'; [done|].
  apply select_Missing in Hhas'. rewrite Hsel in Hhas'.
  apply select_Missing in Hhas'. congruence.
Qed.

Lemma dedicated_datetime_frame df label w v df' w' :
  dedicated convert_column_to_datetime df label w = (Returned (v, df'), w') ->
  labels df' = labels df
  /\ forall c, c <> label -> select df' c = select df c.
Proof.
  unfold dedicated. destruct (has_column label df) eqn:Hhas.
  - intros (df1 & w1 & (col & _ & ->)%convert_column_to_datetime_Returned
            & Hret)%bind_Returned.
    apply ret_Returned in Hret as [Hpair _]. apply pair_equal_spec in Hpair as [_ <-].
    split; [by apply labels_set_column_present|].
    intros c Hc. by apply select_set_column_ne.
  - intros [Hpair _]%ret_Returned. by apply pair_equal_spec in Hpair as [_ <-].
Qed.

Lemma dedicated_float_frame df label w v df' w' :
  dedicated convert_payable_to_float df label w = (Returned (v, df'), w') ->
  (forall c, c <> label -> select df' c = select df c)
  /\ (has_column label df = true ->
      (exists cells, select df label = One (ObjectCol cells))
      /\ exists cells, select df' label = One (FloatCol cells)).
Proof.
  unfold dedicated. destruct (has_column label df).
  - intros (df1 & w1 & (cells & Hsel & ->)%convert_payable_to_float_Returned
            & Hret)%bind_Returned.
    apply ret_Returned in Hret as [Hpair _]. apply pair_equal_spec in Hpair as [_ <-].
    split.
    + intros c Hc. by apply select_set_column_ne.
    + intros _. split; [by exists cells|].
      eexists. by eapply select_set_column_eq.
  - intros [Hpair _]%ret_Returned. apply pair_equal_spec in Hpair as [_ <-].
    by split.
Qed.

(** The display converts a dedicated amount column that the frame
    carries, and needs it to be of dtype [object]. *)
Lemma transaction_data_of_amount row df bank_name transaction_type merchant_name
    bank_id w d df' w' c :
  transaction_data_of row df bank_name transaction_type merchant_name bank_id w =
    (Returned (d, df'), w') ->
  c ∈ amount_columns -> has_column c df = true ->
  (exists cells, select df c = One (ObjectCol cells))
  /\ exists cells, select df' c = One (FloatCol cells).
Proof.
  unfold transaction_data_of. intros Hrun Hc Hhas.
  apply bind_pair_Returned in Hrun as (v1 & df1 & w1 & [_ H1]%dedicated_datetime_frame & Hrun).
  apply bind_pair_Returned in Hrun
    as (v2 & df2 & w2 & [H2 F2]%dedicated_float_frame & Hrun).
  apply bind_pair_Returned in Hrun
    as (v3 & df3 & w3 & [H3 F3]%dedicated_float_frame & Hrun).
  apply bind_pair_Returned in Hrun
    as (v4 & df4 & w4 & [H4 F4]%dedicated_float_frame & Hrun).
  apply bind_pair_Returned in Hrun
    as (v5 & df5 & w5 & [H5 F5]%dedicated_float_frame & Hrun).
  apply bind_pair_Returned in Hrun as (v6 & df6 & w6 & [_ H6]%dedicated_datetime_frame & Hrun).
  apply bind_pair_Returned in Hrun as (v7 & df7 & w7 & [_ H7]%dedicated_datetime_frame & Hrun).
  apply bind_pair_Returned in Hrun
    as (v8 & df8 & w8 & [H8 F8]%dedicated_float_frame & Hrun).
  apply bind_pair_Returned in Hrun
    as (v9 & df9 & w9 & [H9 F9]%dedicated_float_frame & Hrun).
  apply ret_Returned in Hrun as [Hd _]. apply pair_equal_spec in Hd as [_ <-].
  unfold amount_columns in Hc.
  repeat (apply elem_of_cons in Hc as [-> | Hc]); [..|by apply elem_of_nil in Hc].
  - assert (Hhas1 : has_column "Gross_Amount" df1 = true)
      by (apply (has_column_select df df1); [by apply H1|done]).
    destruct (F2 Hhas1) as [[cells Hobj] [cells' Hfl]].
    split; [exists cells; by rewrite <- (H1 "Gross_Amount")|].
    exists cells'. by rewrite H9, H8, H7, H6, H5, H4, H3.
  - assert (Hhas2 : has_column "Aggregator_Com" df2 = true).
    { apply (has_column_select df df2); [|done]. by rewrite H2, H1. }
    destruct (F3 Hhas2) as [[cells Hobj] [cells' Hfl]].
    split; [exists cells; by rewrite <- (H1 "Aggregator_Com"), <- (H2 "Aggregator_Com")|].
    exists cells'. by rewrite H9, H8, H7, H6, H5, H4.
  - assert (Hhas3 : has_column "Acquirer_Comm" df3 = true).
    { apply (has_column_select df df3); [|done]. by rewrite H3, H2, H1. }
    destruct (F4 Hhas3) as [[cells Hobj] [cells' Hfl]].
    split.
    { exists cells. by rewrite <- (H1 "Acquirer_Comm"), <- (H2 "Acquirer_Comm"),
                      <- (H3 "Acquirer_Comm"). }
    exists cells'. by rewrite H9, H8, H7, H6, H5.
  - assert (Hhas4 : has_column "Payout_from_Nodal" df4 = true).
    { apply (has_column_select df df4); [|done]. by rewrite H4, H3, H2, H1. }
    destruct (F5 Hhas4) as [[cells Hobj] [cells' Hfl]].
    split.
    { exists cells. by rewrite <- (H1 "Payout_from_Nodal"), <- (H2 "Payout_from_Nodal"),
                      <- (H3 "Payout_from_Nodal"), <- (H4 "Payout_from_Nodal"). }
    exists cells'. by rewrite H9, H8, H7, H6.
  - assert (Hhas7 : has_column "Intl_Amount" df7 = true).
    { apply (has_column_select df df7); [|done]. by rewrite H7, H6, H5, H4, H3, H2, H1. }
    destruct (F8 Hhas7) as [[cells Hobj] [cells' Hfl]].
    split.
    { exists cells. by rewrite <- (H1 "Intl_Amount"), <- (H2 "Intl_Amount"),
                      <- (H3 "Intl_Amount"), <- (H4 "Intl_Amount"),
                      <- (H5 "Intl_Amount"), <- (H6 "Intl_Amount"),
                      <- (H7 "Intl_Amount"). }
    exists cells'. by rewrite H9.
  - assert (Hhas8 : has_column "Domestic_Amount" df8 = true).
    { apply (has_column_select df df8); [|done]. by rewrite H8, H7, H6, H5, H4, H3, H2, H1. }
    destruct (F9 Hhas8) as [[cells Hobj] [cells' Hfl]].
    split; [|by exists cells'].
    exists cells. by rewrite <- (H1 "Domestic_Amount"), <- (H2 "Domestic_Amount"),
                     <- (H3 "Domestic_Amount"), <- (H4 "Domestic_Amount"),
                     <- (H5 "Domestic_Amount"), <- (H6 "Domestic_Amount"),
                     <- (H7 "Domestic_Amount"), <- (H8 "Domestic_Amount").
Qed.

(** X12. A frame that carries a dedicated amount column ([Gross_Amount],
    [Aggregator_Com], [Acquirer_Comm], [Payout_from_Nodal], [Intl_Amount]
    or [Domestic_Amount]) and has two rows or more cannot be materialized:
    the display of the first row converts the column of the frame in
    place, and the display of the second row applies the string accessor
    to the converted column. For a registered bank and one of the three
    transaction types [process_transactions] raises, and it has then
    written neither to the database nor to the cache. *)
Theorem dedicated_amount_column_raises df bank_name transaction_type merchant_name
    bank_id w c :
  BANK_CODE_MAPPING !! bank_name = Some bank_id ->
  transaction_type ∈ valid_transaction_types ->
  c ∈ amount_columns ->
  has_column c df = true ->
  2 <= nrows df ->
  exists e w',
    process_transactions df bank_name transaction_type merchant_name w =
      (Raised e, w')
    /\ database w' = database w /\ cache w' = cache w.
Proof.
  intros Hcode Hty Hc Hhas Hrows.
  rewrite (process_transactions_registered _ _ _ _ _ _ Hcode), bind_run.
  set (w0 := logged w [(INFO, StartedTransactions bank_name transaction_type
                                merchant_name)]).
  destruct (log_only_materialize df bank_name transaction_type merchant_name bank_id
              w0) as [Hdb Hcache].
  destruct (materialize df bank_name transaction_type merchant_name bank_id w0)
    as [[st|e] w1] eqn:Hmat; [exfalso|by exists e, w1].
  clear Hdb Hcache. unfold materialize, iterrows in Hmat.
  destruct (nrows df) as [|[|n]]; [lia|lia|]. clear Hrows.
  cbn [seq fmap list_fmap row_loop] in Hmat.
  apply bind_Returned in Hmat as (st1 & w2 & Hfirst & Hmat).
  apply bind_Returned in Hmat as (st2 & w3 & Hsecond & _).
  apply row_body_Returned in Hfirst
    as [[Hno _]|(_ & d0 & df1 & w4 & d & Hdata & _ & ->)]; [done|].
  apply row_body_Returned in Hsecond
    as [[Hno _]|(_ & d0' & df2 & w5 & d' & Hdata' & _ & _)]; [done|].
  cbn [loop_frame] in Hdata, Hdata'.
  destruct (transaction_data_of_amount _ _ _ _ _ _ _ _ _ _ c Hdata Hc Hhas)
    as [_ [cells Hfloat]].
  destruct (transaction_data_of_amount _ _ _ _ _ _ _ _ _ _ c Hdata' Hc
              (select_not_Missing _ _ _ Hfloat)) as [[cells' Hobj] _].
  rewrite Hfloat in Hobj. discriminate Hobj.
Qed.

End Records.

(** *** The dictionaries on the reference instances *)


Lemma chunk_records_dedicated_null_witness :
  exists df' w1 st w3,
    @coerce_chunk Reference.pandas Reference.list_store
      (normalized Reference.icici_chunk) "icici" (schema_column_mapping icici_both)
      (Reference.empty_world Reference.list_store []) = (Returned df', w1)
    /\ @materialize Reference.pandas Reference.list_store df' "icici" "refund"
         "IRCTC" 102%Z w1 = (Returned st, w3)
    /\ length (bulk_data_transactions st) = 4
    /\ forall d key, d ∈ bulk_data_transactions st -> key ∈ dedicated_columns ->
                     d !! key = Some VNone.
Proof.
  assert (Hres : resolve "icici" "refund" = Some icici_both) by reflexivity.
  destruct (@coerce_chunk Reference.pandas Reference.list_store
              (normalized Reference.icici_chunk) "icici"
              (schema_column_mapping icici_both)
              (Reference.empty_world Reference.list_store []))
    as [[df'|e] w1] eqn:Hrun; [|vm_compute in Hrun; discriminate Hrun].
  assert (Hrows : nrows df' = 4).
  { pose proof (f_equal
                  (fun out : outcome DataFrame * world =>
                     match out.1 with Returned d => nrows d | Raised _ => 0 end)
                  Hrun) as Hrows.
    vm_compute in Hrows. by rewrite Hrows. }
  destruct (@materialize_total Reference.pandas Reference.list_store df'
              "icici" "refund" "IRCTC" 102%Z w1) as (st & w3 & Hmat).
  { intros c Hc.
    exact (@coerce_chunk_no_dedicated Reference.pandas Reference.list_store
             Reference.icici_chunk "icici" "refund" icici_both _ df' w1 c
             Hres Hrun Hc). }
  destruct (materialize_counts _ _ _ _ _ _ _ _ Hmat) as (Hlen & Hs & _).
  exists df', w1, st, w3. split; [reflexivity|]. split; [exact Hmat|].
  split; [by rewrite Hlen, Hs, Hrows|].
  exact (@chunk_records_dedicated_null Reference.pandas Reference.list_store
           Reference.icici_chunk "icici" "refund" "IRCTC" icici_both _ df' w1
           102%Z w1 st w3 Hres Hrun Hmat).
Defined.

Lemma dedicated_amount_column_raises_witness :
  exists e w',
    @process_transactions Reference.pandas Reference.list_store
      {| frame_columns := [("Order_Id", ObjectCol [OStr "100001"; OStr "100002"]);
                           ("Gross_Amount", ObjectCol [OStr "10.00"; OStr "20.00"])];
         nrows := 2; index_start := 0 |}
      "karur_vysya" "booking" "IRCTC"
      (Reference.empty_world Reference.list_store []) = (Raised e, w')
    /\ @database Reference.list_store w' = [].
Proof.
  destruct (@dedicated_amount_column_raises Reference.pandas Reference.list_store
              {| frame_columns :=
                   [("Order_Id", ObjectCol [OStr "100001"; OStr "100002"]);
                    ("Gross_Amount", ObjectCol [OStr "10.00"; OStr "20.00"])];
                 nrows := 2; index_start := 0 |}
              "karur_vysya" "booking" "IRCTC" 40%Z
              (Reference.empty_world Reference.list_store []) "Gross_Amount"
              eq_refl)
    as (e & w' & Hrun & Hdb & _).
  { unfold valid_transaction_types. apply elem_of_cons. by left. }
  { unfold amount_columns. apply elem_of_cons. by left. }
  { reflexivity. }
  { simpl. lia. }
  exists e, w'. split; [exact Hrun | exact Hdb].
Defined.

(** ** The date fields of the batch *)

Section DateFields.

Context `{Pandas} `{Store}.

Lemma row_get_One df i key c :
  select df key = One c -> row_get (row_at df i) key = cell_value c i.
Proof.
  rewrite select_columns_named. unfold row_get, row_at, columns_named.
  intros Hsel.
  assert (Hfilter : forall cols : list (string * column_data),
    List.filter (fun lv : string * value => bool_decide (lv.1 = key))
      ((fun lc : string * column_data => (lc.1, cell_value lc.2 i))
         <$> cols)
    = (fun lc : string * column_data => (lc.1, cell_value lc.2 i))
        <$> List.filter (fun lc : string * column_data => bool_decide (lc.1 = key))
              cols).
  { induction cols as [|lc cols IH]; [done|]. simpl.
    destruct (bool_decide (lc.1 = key)); simpl; [f_equal|]; exact IH. }
  rewrite Hfilter.
  destruct (List.filter _ (frame_columns df)) as [|lc [|? ?]]; [done| |done].
  simpl. by injection Hsel as <-.
Qed.

(** A date column that the coercions of the chunk processor leave behind
    holds dates, and is not repeated. *)
Lemma coerce_chunk_dates df bank_name column_mapping w df' w' label :
  coerce_chunk df bank_name column_mapping w = (Returned df', w') ->
  label ∈ ["Transaction_Date"; "Settlement_Date"] ->
  select df' label = Missing
  \/ exists cells, select df' label = One (DatetimeCol cells).
Proof.
  unfold coerce_chunk. intros Hrun Hlabel.
  assert (Hstep : forall dfa c wa dfb wb,
    (if has_column c dfa then convert_column_to_datetime dfa c else mret dfa) wa
      = (Returned dfb, wb) ->
    (select dfb c = Missing \/ exists cells, select dfb c = One (DatetimeCol cells))
    /\ forall l, l <> c -> select dfb l = select dfa l).
  { intros dfa c wa dfb wb. destruct (has_column c dfa) eqn:Hhas.
    - intros (col & Hsel & ->)%convert_column_to_datetime_Returned. split.
      + right. eexists. by eapply select_set_column_eq.
      + intros l Hl. by apply select_set_column_ne.
    - intros [<- _]%ret_Returned. split; [|done]. left. by apply select_Missing. }
  apply bind_Returned in Hrun as (df1 & w1 & [Htd Hs1]%Hstep & Hrun).
  apply bind_Returned in Hrun as (df2 & w2 & [Hsd Hs2]%Hstep & Hrun).
  assert (Hdates : select df2 label = Missing
                   \/ exists cells, select df2 label = One (DatetimeCol cells)).
  { repeat (apply elem_of_cons in Hlabel as [-> | Hlabel]);
      [|done|by apply elem_of_nil in Hlabel].
    by rewrite Hs2. }
  assert (Hkept : select df' label = select df2 label).
  { assert (Hne : label <> "Payable_Merchant" /\ label <> "CREDIT_DEBIT_AMOUNT").
    { repeat (apply elem_of_cons in Hlabel as [-> | Hlabel]);
        [done|done|by apply elem_of_nil in Hlabel]. }
    destruct Hne as [Hpm Hcd].
    destruct (has_column "Payable_Merchant" df2).
    - apply bind_Returned in Hrun
        as (df3 & w3 & (cells & _ & ->)%convert_payable_to_float_Returned & Hrun).
      case_bool_decide.
      + apply derive_credit_debit_Returned in Hrun as (cells' & _ & ->).
        by rewrite !select_set_column_ne.
      + apply ret_Returned in Hrun as [<- _]. by rewrite select_set_column_ne.
    - by apply ret_Returned in Hrun as [<- _]. }
  by rewrite Hkept.
Qed.

(** The dedicated entries of the records of a frame without dedicated
    column. *)
Lemma materialize_dedicated_null df bank_name transaction_type merchant_name bank_id
    w st w' :
  (forall c, c ∈ dedicated_columns -> has_column c df = false) ->
  materialize df bank_name transaction_type merchant_name bank_id w =
    (Returned st, w') ->
  forall d key, d ∈ bulk_data_transactions st -> key ∈ dedicated_columns ->
                d !! key = Some VNone.
Proof.
  intros Habsent Hmat. unfold materialize in Hmat.
  apply (row_loop_invariant
           (fun _ st =>
              loop_frame st = df
              /\ Forall (fun d => forall key, key ∈ dedicated_columns ->
                                              d !! key = Some VNone)
                   (bulk_data_transactions st))
           bank_name transaction_type merchant_name bank_id) with (done := [])
    in Hmat.
  - destruct Hmat as [_ Hall]. intros d key Hd.
    by apply (proj1 (Forall_forall _ _) Hall).
  - intros _ row st0 w0 st1 w1' [Hframe Hinv] Hbody.
    apply row_body_Returned in Hbody
      as [[Hty ->]|(Hty & d0 & df1 & w4 & d & Hdata & Hnat & ->)]; simpl; [done|].
    rewrite Hframe in Hdata.
    apply (transaction_data_of_absent _ _ _ _ _ _ _ _ _ _ Habsent) in Hdata
      as [-> Hnull].
    split; [done|]. apply Forall_app. split; [done|]. constructor; [|constructor].
    apply handle_nat_loop_Returned in Hnat as [_ Hlook].
    intros key Hkey. rewrite Hlook, (Hnull key Hkey). by case_bool_decide.
  - split; [done|constructor].
Qed.

(** C6. The date pass rewrites the null-date sentinel to [None] in each
    of the five date fields (Transaction_Date, Settlement_Date,
    Refund_Request_Date, Credit_Debit_Date, File_upload_Date) and changes
    no other entry. Every record of the batch holds, in the two date
    fields that are read from the row, the row's object with the sentinel
    rewritten to [None], and in the three others [None] or the frame
    object; none of the five is the sentinel. On the frames that the
    chunk processor hands over, each of the five fields of every record
    is [None] or a timestamp. *)
Theorem no_nat_reaches_the_batch :
  (forall d0 w0 d w1,
      handle_nat_in_datetime_fields d0 w0 = (Returned d, w1) ->
      (forall f,
          f ∈ ["Transaction_Date"; "Settlement_Date"; "Refund_Request_Date";
               "Credit_Debit_Date"; "File_upload_Date"] ->
          (d0 !! f = Some VNaT /\ d !! f = Some VNone)
          \/ exists v, v <> VNaT /\ d0 !! f = Some v /\ d !! f = Some v)
      /\ forall k,
          k ∉ ["Transaction_Date"; "Settlement_Date"; "Refund_Request_Date";
               "Credit_Debit_Date"; "File_upload_Date"] ->
          d !! k = d0 !! k)
  /\ (forall df bank_name transaction_type merchant_name bank_id w st w',
      materialize df bank_name transaction_type merchant_name bank_id w =
        (Returned st, w') ->
      forall i d,
        bulk_data_transactions st !! i = Some d ->
        d !! "Transaction_Date" =
          Some (null_of_nat (row_get (row_at df i) "Transaction_Date"))
        /\ d !! "Settlement_Date" =
             Some (null_of_nat (row_get (row_at df i) "Settlement_Date"))
        /\ (forall f,
              f ∈ ["Refund_Request_Date"; "Credit_Debit_Date"; "File_upload_Date"] ->
              d !! f = Some VNone \/ d !! f = Some VFrame)
        /\ forall f,
             f ∈ ["Transaction_Date"; "Settlement_Date"; "Refund_Request_Date";
                  "Credit_Debit_Date"; "File_upload_Date"] ->
             exists v, d !! f = Some v /\ v <> VNaT)
  /\ (forall df bank_name transaction_type merchant_name columns_mapping w df' w1
             bank_id w2 st w3,
      resolve bank_name transaction_type = Some columns_mapping ->
      coerce_chunk (normalized df) bank_name (schema_column_mapping columns_mapping) w
        = (Returned df', w1) ->
      materialize df' bank_name transaction_type merchant_name bank_id w2 =
        (Returned st, w3) ->
      forall d f,
        d ∈ bulk_data_transactions st ->
        f ∈ ["Transaction_Date"; "Settlement_Date"; "Refund_Request_Date";
             "Credit_Debit_Date"; "File_upload_Date"] ->
        d !! f = Some VNone \/ exists t, d !! f = Some (VTimestamp t)).
Proof.
  assert (Hnull : forall v, null_of_nat v <> VNaT) by (by intros []).
  assert (Hbatch : forall df bank_name transaction_type merchant_name bank_id w st w',
    materialize df bank_name transaction_type merchant_name bank_id w =
      (Returned st, w') ->
    forall i d,
      bulk_data_transactions st !! i = Some d ->
      d !! "Transaction_Date" =
        Some (null_of_nat (row_get (row_at df i) "Transaction_Date"))
      /\ d !! "Settlement_Date" =
           Some (null_of_nat (row_get (row_at df i) "Settlement_Date"))
      /\ (d !! "Refund_Request_Date" = Some VNone
          \/ d !! "Refund_Request_Date" = Some VFrame)
      /\ (d !! "Credit_Debit_Date" = Some VNone
          \/ d !! "Credit_Debit_Date" = Some VFrame)
      /\ (d !! "File_upload_Date" = Some VNone
          \/ d !! "File_upload_Date" = Some VFrame)).
  { intros df bank_name transaction_type merchant_name bank_id w st w' Hmat i d Hd.
    pose proof (materialize_records _ _ _ _ _ _ _ _ Hmat) as Hrec.
    destruct (Forall2_lookup_r _ _ _ _ _ Hrec Hd)
      as (row & Hrow & _ & _ & Htd & Hsd & Hrr & Hcdd & Hfu).
    unfold materialized_rows in Hrow. case_bool_decide; [|done].
    unfold iterrows in Hrow. rewrite list_lookup_fmap in Hrow.
    destruct (seq 0 (nrows df) !! i) as [j|] eqn:Hj; [|done].
    apply lookup_seq in Hj as [-> _]. simpl in Hrow. injection Hrow as <-.
    done. }
  split; [|split].
  - intros d0 w0 d w1 Hnat.
    apply handle_nat_loop_Returned in Hnat as [Hkeys Hlook]. split.
    + intros f Hf. destruct (Hkeys f Hf) as [v Hv].
      rewrite Hlook, bool_decide_eq_true_2, Hv by exact Hf. simpl.
      destruct v; try (right; eexists; split; [|split; reflexivity]; discriminate).
      by left.
    + intros k Hk. rewrite Hlook. by rewrite bool_decide_eq_false_2.
  - intros df bank_name transaction_type merchant_name bank_id w st w' Hmat i d Hd.
    destruct (Hbatch _ _ _ _ _ _ _ _ Hmat i d Hd) as (Htd & Hsd & Hrr & Hcdd & Hfu).
    split; [done|]. split; [done|]. split.
    + intros f Hf.
      repeat (apply elem_of_cons in Hf as [-> | Hf]);
        [done..|by apply elem_of_nil in Hf].
    + intros f Hf.
      repeat (apply elem_of_cons in Hf as [-> | Hf]);
        [by eexists|by eexists|..|by apply elem_of_nil in Hf].
      * destruct Hrr as [Hv | Hv]; by eexists.
      * destruct Hcdd as [Hv | Hv]; by eexists.
      * destruct Hfu as [Hv | Hv]; by eexists.
  - intros df bank_name transaction_type merchant_name columns_mapping w df' w1
           bank_id w2 st w3 Hres Hrun Hmat d f Hd Hf.
    assert (Hded : forall key, key ∈ dedicated_columns -> d !! key = Some VNone).
    { intros key Hkey.
      apply (materialize_dedicated_null df' bank_name transaction_type merchant_name
               bank_id w2 st w3); [|done..].
      intros c Hc. by eapply coerce_chunk_no_dedicated. }
    apply list_elem_of_lookup in Hd as [i Hd].
    destruct (Hbatch _ _ _ _ _ _ _ _ Hmat i d Hd) as (Htd & Hsd & _).
    assert (Hdate : forall label,
      label ∈ ["Transaction_Date"; "Settlement_Date"] ->
      null_of_nat (row_get (row_at df' i) label) = VNone
      \/ exists t, null_of_nat (row_get (row_at df' i) label) = VTimestamp t).
    { intros label Hlabel.
      destruct (coerce_chunk_dates _ _ _ _ _ _ label Hrun Hlabel)
        as [Hmissing|[cells Hone]].
      - left. rewrite row_get_absent; [done|]. by apply select_Missing.
      - rewrite (row_get_One _ _ _ _ Hone). simpl.
        destruct (cells !! i) as [[t|]|]; simpl; [right; by exists t|by left..]. }
    repeat (apply elem_of_cons in Hf as [-> | Hf]); [..|by apply elem_of_nil in Hf].
    + rewrite Htd. destruct (Hdate "Transaction_Date") as [-> | [t ->]];
        [by left|by left|right; by exists t].
    + rewrite Hsd. destruct (Hdate "Settlement_Date") as [-> | [t ->]];
        [by right; left|by left|right; by exists t].
    + left. apply Hded. unfold dedicated_columns. by left.
    + left. apply Hded. unfold dedicated_columns. do 5 right. by left.
    + left. apply Hded. unfold dedicated_columns. do 6 right. by left.
Qed.

End DateFields.

(** *** The date fields on the reference instances *)

Lemma no_nat_reaches_the_batch_witness :
  exists df' w1 st w3,
    @coerce_chunk Reference.pandas Reference.list_store
      (normalized Reference.karur_chunk) "karur_vysya"
      (schema_column_mapping karur_vysya_booking)
      (Reference.empty_world Reference.list_store []) = (Returned df', w1)
    /\ @materialize Reference.pandas Reference.list_store df' "karur_vysya" "booking"
         "IRCTC" 40%Z w1 = (Returned st, w3)
    /\ length (bulk_data_transactions st) = 2
    /\ (forall d f,
          d ∈ bulk_data_transactions st ->
          f ∈ ["Transaction_Date"; "Settlement_Date"; "Refund_Request_Date";
               "Credit_Debit_Date"; "File_upload_Date"] ->
          d !! f = Some VNone \/ exists t, d !! f = Some (VTimestamp t))
    /\ exists d,
         bulk_data_transactions st !! 1 = Some d
         /\ d !! "Transaction_Date" = Some VNone
         /\ d !! "Settlement_Date" = Some VNone.
Proof.
  assert (Hres : resolve "karur_vysya" "booking" = Some karur_vysya_booking)
    by reflexivity.
  destruct (@coerce_chunk Reference.pandas Reference.list_store
              (normalized Reference.karur_chunk) "karur_vysya"
              (schema_column_mapping karur_vysya_booking)
              (Reference.empty_world Reference.list_store []))
    as [[df'|e] w1] eqn:Hrun; [|vm_compute in Hrun; discriminate Hrun].
  assert (Hrows : nrows df' = 2).
  { change (match (Returned df', w1).1 with
            | Returned d => nrows d
            | Raised _ => 0
            end = 2).
    rewrite <- Hrun. vm_compute. reflexivity. }
  assert (Htd : row_get (row_at df' 1) "Transaction_Date" = VNaT).
  { change (match (Returned df', w1).1 with
            | Returned d => row_get (row_at d 1) "Transaction_Date"
            | Raised _ => VNone
            end = VNaT).
    rewrite <- Hrun. vm_compute. reflexivity. }
  assert (Hsd : row_get (row_at df' 1) "Settlement_Date" = VNaT).
  { change (match (Returned df', w1).1 with
            | Returned d => row_get (row_at d 1) "Settlement_Date"
            | Raised _ => VNone
            end = VNaT).
    rewrite <- Hrun. vm_compute. reflexivity. }
  destruct (@materialize_total Reference.pandas Reference.list_store df'
              "karur_vysya" "booking" "IRCTC" 40%Z w1) as (st & w3 & Hmat).
  { intros c Hc.
    exact (@coerce_chunk_no_dedicated Reference.pandas Reference.list_store
             Reference.karur_chunk "karur_vysya" "booking"
             karur_vysya_booking _ df' w1 c Hres Hrun Hc). }
  destruct (materialize_counts _ _ _ _ _ _ _ _ Hmat) as (Hlen & Hs & _).
  assert (Hlen2 : length (bulk_data_transactions st) = 2).
  { rewrite Hlen, Hs, bool_decide_eq_true_2; [exact Hrows|].
    unfold valid_transaction_types. by left. }
  destruct (@no_nat_reaches_the_batch Reference.pandas Reference.list_store)
    as (_ & Hbatch & Hpipeline).
  exists df', w1, st, w3. split; [reflexivity|]. split; [exact Hmat|].
  split; [exact Hlen2|]. split.
  - exact (Hpipeline Reference.karur_chunk "karur_vysya" "booking" "IRCTC"
             karur_vysya_booking _ df' w1 40%Z w1 st w3 Hres Hrun Hmat).
  - destruct (lookup_lt_is_Some_2 (bulk_data_transactions st) 1) as [d Hd];
      [rewrite Hlen2; lia|].
    exists d. split; [exact Hd|].
    destruct (Hbatch df' "karur_vysya" "booking" "IRCTC" 40%Z w1 st w3 Hmat 1 d Hd)
      as (Htdate & Hsdate & _).
    by rewrite Htdate, Hsdate, Htd, Hsd.
Defined.

(** ** The views *)

Section Views.

Context `{Pandas} `{Store} `{Readers} `{TempFiles}.

Lemma J_bind_run {A B : Type} (m : J A) (f : A -> J B) (s : system) :
  (m ≫= f) s =
    match m s with
    | (JReturned a, s') => f a s'
    | (JRaised e, s') => (JRaised e, s')
    end.
Proof. reflexivity. Qed.

(** What the results page shows: the counts of the cache, or zeros. *)
Lemma transaction_results_view_run s :
  transaction_results_view s =
    (JReturned
       (Render "transaction_results.html"
          (Some (default {| total_successful := 0; total_failed := 0 |}
                   (fst <$> cache (sys_world s) !! "latest_transaction_results")))),
     {| sys_world := sys_world s; sys_files := sys_files s; sys_queue := sys_queue s;
        views_log :=
          views_log s ++
            [match fst <$> cache (sys_world s) !! "latest_transaction_results" with
             | Some results => (DEBUG, RetrievedResults results)
             | None => (ERROR, NoCachedResults)
             end];
        job_log := job_log s; temp_count := temp_count s |}).
Proof.
  unfold transaction_results_view, cache_get. rewrite J_bind_run.
  destruct (fst <$> cache (sys_world s) !! "latest_transaction_results")
    as [[successful failed]|]; reflexivity.
Qed.

Lemma process_transactions_published df bank_name transaction_type merchant_name
    w r w' :
  process_transactions df bank_name transaction_type merchant_name w =
    (Returned (Some r), w') ->
  cache w' !! "latest_transaction_results" = Some (r, 3600).
Proof.
  destruct (BANK_CODE_MAPPING !! bank_name) as [bank_id|] eqn:Hcode.
  - rewrite (process_transactions_registered _ _ _ _ _ _ Hcode).
    intros (st & w1 & _ & Hrun)%bind_Returned.
    apply bind_Returned in Hrun as (r' & w2 & Hcommit & Hret).
    apply ret_Returned in Hret as [[= ->] ->].
    destruct (commit_and_publish_run st w1) as (r0 & w0 & Hrun & Hc & _).
    rewrite Hrun in Hcommit. apply pair_equal_spec in Hcommit as [[= ->] ->].
    by rewrite Hc, lookup_insert_eq.
  - rewrite (process_transactions_unregistered _ _ _ _ _ Hcode).
    intros [[=] _]%pair_equal_spec.
Qed.

(** X13. The results page shows what the materializer published: when
    [process_transactions] returns counts, [transaction_results_view] on
    the world it leaves renders these counts, logs them at DEBUG level in
    the log of [views.py] and changes nothing else. *)
Theorem results_view_round_trip df bank_name transaction_type merchant_name w r w'
    (s : system) :
  process_transactions df bank_name transaction_type merchant_name w =
    (Returned (Some r), w') ->
  sys_world s = w' ->
  transaction_results_view s =
    (JReturned (Render "transaction_results.html" (Some r)),
     {| sys_world := sys_world s; sys_files := sys_files s; sys_queue := sys_queue s;
        views_log := views_log s ++ [(DEBUG, RetrievedResults r)];
        job_log := job_log s; temp_count := temp_count s |}).
Proof.
  intros Hrun%process_transactions_published <-.
  by rewrite transaction_results_view_run, Hrun.
Qed.

(** X14. A chunk on which [process_dataframe_chunk] raises, or which it
    rejects for want of a schema or of an expected header, does not change
    what the results page shows: the page renders the counts of an earlier
    chunk, or zeros with an ERROR line when nothing was published. *)
Theorem results_view_after_failed_chunk df bank_name transaction_type merchant_name
    w out w' (s s' : system) :
  process_dataframe_chunk df bank_name transaction_type merchant_name w = (out, w') ->
  (exists e, out = Raised e)
  \/ resolve bank_name transaction_type = None
  \/ (exists columns_mapping,
        resolve bank_name transaction_type = Some columns_mapping
        /\ all_expected_present (expected_columns columns_mapping) (normalized df)
           = false) ->
  sys_world s = w -> sys_world s' = w' ->
  (transaction_results_view s').1 = (transaction_results_view s).1
  /\ (cache w !! "latest_transaction_results" = None ->
      transaction_results_view s' =
        (JReturned (Render "transaction_results.html"
                      (Some {| total_successful := 0; total_failed := 0 |})),
         {| sys_world := sys_world s'; sys_files := sys_files s';
            sys_queue := sys_queue s';
            views_log := views_log s' ++ [(ERROR, NoCachedResults)];
            job_log := job_log s'; temp_count := temp_count s' |})).
Proof.
  intros Hrun Hcase Hs Hs'.
  assert (Hcache : cache w' = cache w).
  { destruct Hcase as [[e ->]|[Hres|(cm & Hres & Hall)]].
    - by destruct (proj2 (process_dataframe_chunk_footprint df bank_name
                            transaction_type merchant_name w) e w' Hrun).
    - rewrite (process_dataframe_chunk_not_found _ _ _ _ _ Hres) in Hrun.
      by apply pair_equal_spec in Hrun as [_ <-].
    - rewrite (process_dataframe_chunk_missing _ _ _ _ _ _ Hres Hall) in Hrun.
      by apply pair_equal_spec in Hrun as [_ <-]. }
  rewrite !transaction_results_view_run, Hs, Hs', Hcache. simpl.
  split; [done|]. intros Hnone. by rewrite Hnone.
Qed.

(** *** [upload_files] *)

Lemma length_temp_paths count names :
  length (temp_paths count names) = length names.
Proof.
  revert count. induction names as [|name names IH]; intros count; simpl; [done|].
  by rewrite IH.
Qed.

Lemma upload_loop_app files1 files2 paths formats (s : system) :
  Forall (fun file => upload_size file <> 0) files1 ->
  exists s1,
    upload_loop (files1 ++ files2) paths formats s =
      upload_loop files2
        (paths ++ temp_paths (temp_count s) (upload_name <$> files1))
        (formats ++ (format_of_name <$> (upload_name <$> files1))) s1
    /\ sys_world s1 = sys_world s
    /\ sys_queue s1 = sys_queue s
    /\ views_log s1 = views_log s
    /\ job_log s1 = job_log s
    /\ temp_count s1 = temp_count s + length files1
    /\ (forall p, is_Some (sys_files s !! p) -> is_Some (sys_files s1 !! p))
    /\ (forall p, p ∈ temp_paths (temp_count s) (upload_name <$> files1) ->
                  is_Some (sys_files s1 !! p))
    /\ (forall p, p ∉ temp_paths (temp_count s) (upload_name <$> files1) ->
                  sys_files s1 !! p = sys_files s !! p).
Proof.
  intros Hsizes. revert paths formats s.
  induction Hsizes as [|file files1 Hsize Hsizes IH]; intros paths formats s.
  - exists s. simpl. rewrite !app_nil_r, Nat.add_0_r.
    repeat split; try done. by intros p ?%elem_of_nil.
  - cbn [app upload_loop]. apply Nat.eqb_neq in Hsize. rewrite Hsize.
    rewrite J_bind_run. unfold write_temporary_file at 1.
    set (s0 := {| sys_world := sys_world s;
                  sys_files := <[temp_stem (temp_count s) +:+
                                   "." +:+ upload_extension (upload_name file)
                                 := upload_content file]> (sys_files s);
                  sys_queue := sys_queue s; views_log := views_log s;
                  job_log := job_log s; temp_count := temp_count s + 1 |}).
    destruct (IH (paths ++ [temp_stem (temp_count s) +:+
                              "." +:+ upload_extension (upload_name file)])
                 (formats ++
                    [if bool_decide (upload_extension (upload_name file)
                                       ∈ excel_extensions)
                     then "excel" else "csv"]) s0)
      as (s1 & Hrun & Hw & Hq & Hv & Hj & Hc & Hgrow & Hnew & Hold).
    exists s1. rewrite Hrun. simpl in *.
    rewrite <- !(assoc_L (++)). simpl.
    replace (temp_count s + 1) with (S (temp_count s)) in * by lia.
    repeat split; try done.
    + lia.
    + intros p Hp. apply Hgrow.
      destruct (decide (temp_path (temp_count s) (upload_name file) = p)) as [<-|Hne].
      * unfold temp_path. by rewrite lookup_insert_eq.
      * unfold temp_path in Hne. by rewrite lookup_insert_ne.
    + intros p [->|Hp]%elem_of_cons; [|by apply Hnew].
      apply Hgrow. unfold temp_path. by rewrite lookup_insert_eq.
    + intros p [Hne Hp]%not_elem_of_cons. rewrite (Hold p Hp).
      unfold temp_path in Hne. by rewrite lookup_insert_ne.
Qed.

(** X15. For a POST with a valid form and no empty file, [upload_files]
    answers 202 and dispatches one task. The task lists one temporary file
    and one format tag for each upload, in the order of the uploads: the
    path ends with a dot and the text behind the last dot of the lowered
    name, the tag is "excel" when that text is xlsx, xls or ods and "csv"
    otherwise. The task carries the bank, the transaction type and the
    merchant of the form; each listed file exists when the task is
    dispatched, the files that existed still exist, and the world of the
    pipeline is untouched. *)
Theorem upload_files_dispatches (req : request) (s : system) :
  method req = "POST" ->
  form_is_valid req = true ->
  Forall (fun file => upload_size file <> 0) (request_files req) ->
  let names := upload_name <$> request_files req in
  exists s',
    upload_files req s = (JReturned (JsonResponse ProcessingStarted 202), s')
    /\ sys_queue s' =
         sys_queue s ++
           [{| task_file_paths := temp_paths (temp_count s) names;
               task_bank_name := cleaned_bank_name req;
               task_transaction_type := cleaned_transaction_type req;
               task_file_formats := format_of_name <$> names;
               task_merchant_name := cleaned_merchant_name req |}]
    /\ length (temp_paths (temp_count s) names) = length (format_of_name <$> names)
    /\ (forall p, p ∈ temp_paths (temp_count s) names -> is_Some (sys_files s' !! p))
    /\ (forall p, is_Some (sys_files s !! p) -> is_Some (sys_files s' !! p))
    /\ sys_world s' = sys_world s
    /\ temp_count s' = temp_count s + length (request_files req).
Proof.
  intros Hpost Hvalid Hsizes names. unfold upload_files.
  rewrite bool_decide_eq_true_2, Hvalid by done.
  destruct (upload_loop_app (request_files req) [] [] [] s Hsizes)
    as (s1 & Hrun & Hw & Hq & Hv & Hj & Hc & Hgrow & Hnew & _).
  rewrite app_nil_r in Hrun. rewrite J_bind_run, Hrun. simpl.
  eexists. split; [reflexivity|]. simpl. rewrite Hq.
  repeat split; try done.
  by rewrite length_temp_paths, length_fmap.
Qed.

(** X16. For a POST with a valid form, [upload_files] stops at the first
    empty file: it answers 400 with the name of that file, logs an ERROR
    line and dispatches no task. The temporary files that it wrote for the
    uploads before the empty one are left on the disk. *)
Theorem upload_files_empty_file (req : request) (s : system) before file after :
  method req = "POST" ->
  form_is_valid req = true ->
  request_files req = before ++ file :: after ->
  Forall (fun file => upload_size file <> 0) before ->
  upload_size file = 0 ->
  exists s',
    upload_files req s =
      (JReturned (JsonResponse (FileIsEmptyMessage (upload_name file)) 400), s')
    /\ sys_queue s' = sys_queue s
    /\ views_log s' = views_log s ++ [(ERROR, FileIsEmpty (upload_name file))]
    /\ sys_world s' = sys_world s
    /\ temp_count s' = temp_count s + length before
    /\ (forall p, p ∈ temp_paths (temp_count s) (upload_name <$> before) ->
                  is_Some (sys_files s' !! p)).
Proof.
  intros Hpost Hvalid Hfiles Hsizes Hempty. unfold upload_files.
  rewrite bool_decide_eq_true_2, Hvalid, Hfiles by done.
  destruct (upload_loop_app before (file :: after) [] [] s Hsizes)
    as (s1 & Hrun & Hw & Hq & Hv & Hj & Hc & Hgrow & Hnew & _).
  rewrite J_bind_run, Hrun. cbn [upload_loop]. rewrite Hempty. simpl.
  eexists. split; [reflexivity|]. simpl. rewrite Hv. by repeat split.
Qed.

End Views.

(** ** The ingestion driver *)

Section Driver.

Context `{Pandas} `{Store} `{Readers} `{TempFiles}.

(** *** What the steps of the driver preserve *)

Section Footprint.

Context (R : relation system) (R_refl : forall s, R s s)
  (R_trans : forall s1 s2 s3, R s1 s2 -> R s2 s3 -> R s1 s3).

Lemma preserves_ret {A : Type} (a : A) : preserves R (mret a : J A).
Proof. intros s. apply R_refl. Qed.

Lemma preserves_jraise {A : Type} (e : job_exn) : preserves R (jraise e : J A).
Proof. intros s. apply R_refl. Qed.

Lemma preserves_bind {A B : Type} (m : J A) (f : A -> J B) :
  preserves R m -> (forall a, preserves R (f a)) -> preserves R (m ≫= f).
Proof.
  intros Hm Hf s. rewrite J_bind_run. specialize (Hm s).
  destruct (m s) as [[a|e] s1]; simpl in *; [|done].
  by apply (R_trans _ _ _ Hm), Hf.
Qed.

Lemma preserves_job_try_except {A : Type} (body : J A) (handler : job_exn -> J A) :
  preserves R body -> (forall e, preserves R (handler e)) ->
  preserves R (job_try_except body handler).
Proof.
  intros Hbody Hhandler s. unfold job_try_except. specialize (Hbody s).
  destruct (body s) as [[a|e] s1]; simpl in *; [done|].
  by apply (R_trans _ _ _ Hbody), Hhandler.
Qed.

Lemma preserves_try_except_finally {A : Type} (body : J A)
    (handler : job_exn -> J A) (final : J unit) :
  preserves R body -> (forall e, preserves R (handler e)) -> preserves R final ->
  preserves R (try_except_finally body handler final).
Proof.
  intros Hbody Hhandler Hfinal s. unfold try_except_finally.
  pose proof (preserves_job_try_except body handler Hbody Hhandler s) as Htry.
  destruct (job_try_except body handler s) as [r s1]. simpl in Htry.
  specialize (Hfinal s1).
  destruct (final s1) as [[u|e] s2]; simpl in *; by apply (R_trans _ _ _ Htry).
Qed.

(** The [try] block of a file preserves what the logger, the opening of a
    file and the chunk processor preserve. *)
Lemma preserves_process_chunks df_chunks bank_name transaction_type merchant_name :
  (forall df, preserves R
     (run_pipeline (process_dataframe_chunk df bank_name transaction_type
                      merchant_name))) ->
  preserves R (process_chunks df_chunks bank_name transaction_type merchant_name).
Proof.
  intros Hchunk. induction df_chunks as [|df df_chunks IH]; simpl.
  - apply preserves_ret.
  - apply preserves_bind; [apply Hchunk|done].
Qed.

Lemma preserves_try_file file_path file_name file_extension file_formats file_index
    bank_name transaction_type merchant_name :
  (forall l msg, preserves R (job_logger l msg)) ->
  (forall df, preserves R
     (run_pipeline (process_dataframe_chunk df bank_name transaction_type
                      merchant_name))) ->
  preserves R
    (try_file file_path file_name file_extension file_formats file_index
       bank_name transaction_type merchant_name).
Proof.
  intros Hlog Hchunk. unfold try_file.
  assert (Hopen : preserves R (open_file file_path)).
  { intros s. unfold open_file. destruct (sys_files s !! file_path); apply R_refl. }
  apply preserves_bind.
  { destruct (file_formats !! file_index);
      [apply preserves_ret | apply preserves_jraise]. }
  intros file_format. repeat case_bool_decide.
  - apply preserves_bind; [done|]. intros content. apply preserves_bind.
    { destruct (read_excel _ content); [apply preserves_ret | apply preserves_jraise]. }
    intros df. apply preserves_bind; [by apply preserves_process_chunks|].
    intros _. apply preserves_ret.
  - apply preserves_bind; [done|]. intros _. apply preserves_ret.
  - apply preserves_bind; [done|]. intros content.
    destruct (read_csv content) as [|df_chunks complete]; [apply preserves_jraise|].
    apply preserves_bind; [done|]. intros _.
    apply preserves_bind; [by apply preserves_process_chunks|]. intros _.
    destruct complete; [apply preserves_ret | apply preserves_jraise].
  - apply preserves_bind; [done|]. intros _. apply preserves_ret.
Qed.

End Footprint.

Lemma worker_step_refl (s : system) : worker_step s s.
Proof. by repeat split. Qed.

Lemma worker_step_trans (s1 s2 s3 : system) :
  worker_step s1 s2 -> worker_step s2 s3 -> worker_step s1 s3.
Proof.
  intros (Hq & Hv & Hc & Hk) (Hq' & Hv' & Hc' & Hk').
  repeat split; [congruence..|]. intros key Hkey. by rewrite Hk', Hk.
Qed.

Lemma same_files_trans (s1 s2 s3 : system) :
  same_files s1 s2 -> same_files s2 s3 -> same_files s1 s3.
Proof. unfold same_files. congruence. Qed.

Lemma job_logger_run l msg (s : system) :
  job_logger l msg s =
    (JReturned tt,
     {| sys_world := sys_world s; sys_files := sys_files s; sys_queue := sys_queue s;
        views_log := views_log s;
        job_log := job_log s ++ [(length (log (sys_world s)), l, msg)];
        temp_count := temp_count s |}).
Proof. reflexivity. Qed.

Lemma worker_step_job_logger l msg : preserves worker_step (job_logger l msg).
Proof. intros s. by repeat split. Qed.

Lemma same_files_job_logger l msg : preserves same_files (job_logger l msg).
Proof. by intros s. Qed.

Lemma worker_step_chunk df bank_name transaction_type merchant_name :
  preserves worker_step
    (run_pipeline (process_dataframe_chunk df bank_name transaction_type
                     merchant_name)).
Proof.
  intros s. unfold run_pipeline.
  pose proof (proj1 (process_dataframe_chunk_footprint df bank_name
                       transaction_type merchant_name (sys_world s))) as Hkeys.
  destruct (process_dataframe_chunk df bank_name transaction_type merchant_name
              (sys_world s)) as [[u|e] w]; by repeat split.
Qed.

Lemma same_files_chunk df bank_name transaction_type merchant_name :
  preserves same_files
    (run_pipeline (process_dataframe_chunk df bank_name transaction_type
                     merchant_name)).
Proof.
  intros s. unfold run_pipeline.
  by destruct (process_dataframe_chunk df bank_name transaction_type merchant_name
                 (sys_world s)) as [[u|e] w].
Qed.

(** *** The [finally] block and the body of the loop *)

Lemma remove_file_run file_path (s : system) :
  exists s',
    remove_file file_path s = (JReturned tt, s')
    /\ sys_files s' = delete file_path (sys_files s)
    /\ sys_world s' = sys_world s
    /\ worker_step s s'.
Proof.
  unfold remove_file. destruct (sys_files s !! file_path) eqn:Hfile.
  - rewrite job_logger_run. eexists. split; [reflexivity|]. simpl.
    by repeat split.
  - rewrite job_logger_run. eexists. split; [reflexivity|]. simpl.
    rewrite delete_id by done. by repeat split.
Qed.

(** The body of the loop over the files returns, whatever its [try] block
    does, and the file is gone. *)
Lemma process_file_run file_index file_path bank_name transaction_type file_formats
    merchant_name (s : system) :
  exists s',
    process_file file_index file_path bank_name transaction_type file_formats
      merchant_name s = (JReturned tt, s')
    /\ sys_files s' = delete file_path (sys_files s)
    /\ worker_step s s'.
Proof.
  unfold process_file. rewrite J_bind_run, job_logger_run.
  set (s0 := {| sys_world := sys_world s; sys_files := sys_files s;
                sys_queue := sys_queue s; views_log := views_log s;
                job_log := _; temp_count := temp_count s |}).
  set (body := try_file _ _ _ _ _ _ _ _).
  set (handler := fun e : job_exn => _).
  assert (Hbody_w : preserves worker_step body).
  { apply preserves_try_file;
      [apply worker_step_refl | apply worker_step_trans
      | intros l msg; apply worker_step_job_logger
      | intros df; apply worker_step_chunk]. }
  assert (Hbody_f : preserves same_files body).
  { apply preserves_try_file;
      [done | apply same_files_trans
      | intros l msg; apply same_files_job_logger
      | intros df; apply same_files_chunk]. }
  rewrite J_bind_run. unfold try_except_finally, job_try_except.
  specialize (Hbody_w s0). specialize (Hbody_f s0).
  destruct (body s0) as [[ended|e] s1]; simpl in Hbody_w, Hbody_f.
  - destruct (remove_file_run file_path s1) as (s2 & -> & Hfiles & _ & Hstep).
    assert (Hs2 : worker_step s s2).
    { apply (worker_step_trans s s1 s2); [|done].
      apply (worker_step_trans s s0 s1); [by repeat split|done]. }
    destruct ended.
    + rewrite job_logger_run. eexists. split; [reflexivity|]. simpl.
      split; [by rewrite Hfiles, Hbody_f|].
      apply (worker_step_trans s s2); [done|by repeat split].
    + eexists. split; [reflexivity|]. split; [by rewrite Hfiles, Hbody_f|done].
  - unfold handler. rewrite J_bind_run, job_logger_run. cbn [mret J_ret].
    match goal with |- context [remove_file file_path ?s1'] =>
      destruct (remove_file_run file_path s1') as (s2 & -> & Hfiles & _ & Hstep)
    end.
    eexists. split; [reflexivity|]. simpl in Hfiles.
    split; [by rewrite Hfiles, Hbody_f|].
    apply (worker_step_trans s s1).
    + apply (worker_step_trans s s0 s1); [by repeat split|done].
    + eapply worker_step_trans; [|exact Hstep]. by repeat split.
Qed.

Lemma process_files_run file_index file_paths bank_name transaction_type file_formats
    merchant_name (s : system) :
  exists s',
    process_files file_index file_paths bank_name transaction_type file_formats
      merchant_name s = (JReturned tt, s')
    /\ (forall p, sys_files s' !! p =
                    if bool_decide (p ∈ file_paths) then None else sys_files s !! p)
    /\ worker_step s s'.
Proof.
  revert file_index s.
  induction file_paths as [|file_path file_paths IH]; intros file_index s; simpl.
  - exists s. split; [done|]. split; [done|apply worker_step_refl].
  - destruct (process_file_run file_index file_path bank_name transaction_type
                file_formats merchant_name s) as (s1 & Hfile & Hfiles & Hstep).
    rewrite J_bind_run, Hfile.
    destruct (IH (S file_index) s1) as (s2 & -> & Hlook & Hstep').
    exists s2. split; [done|]. split; [|by eapply worker_step_trans].
    intros p. rewrite Hlook, Hfiles.
    destruct (decide (p = file_path)) as [->|Hne].
    + rewrite lookup_delete_eq, (bool_decide_eq_true_2 (_ ∈ _ :: _)) by (by left).
      by case_bool_decide.
    + rewrite lookup_delete_ne by done.
      case_bool_decide as Hin.
      * rewrite bool_decide_eq_true_2; [done|by right].
      * rewrite bool_decide_eq_false_2; [done|].
        by intros [?|?]%elem_of_cons.
Qed.

Lemma process_uploaded_files_run file_paths bank_name transaction_type
    file_formats merchant_name (s : system) :
  exists s',
    process_uploaded_files file_paths bank_name transaction_type file_formats
      merchant_name s = (JReturned tt, s')
    /\ (forall p, sys_files s' !! p =
                    if bool_decide (p ∈ file_paths) then None else sys_files s !! p)
    /\ worker_step s s'.
Proof.
  unfold process_uploaded_files. rewrite J_bind_run, job_logger_run.
  set (s0 := {| sys_world := sys_world s; sys_files := sys_files s;
                sys_queue := sys_queue s; views_log := views_log s;
                job_log := _; temp_count := temp_count s |}).
  unfold job_try_except. rewrite J_bind_run, job_logger_run.
  set (s1 := {| sys_world := sys_world s0; sys_files := sys_files s0;
                sys_queue := sys_queue s0; views_log := views_log s0;
                job_log := _; temp_count := temp_count s0 |}).
  destruct (process_files_run 0 file_paths bank_name transaction_type file_formats
              merchant_name s1) as (s2 & Hrun & Hfiles & Hstep).
  rewrite J_bind_run, Hrun, job_logger_run.
  eexists. split; [reflexivity|]. simpl. split; [done|].
  apply (worker_step_trans s s2); [|by repeat split].
  apply (worker_step_trans s s1 s2); [by repeat split|done].
Qed.

(** X17. [process_uploaded_files] returns for every list of files and of
    format tags, whatever the readers and the chunk processor do with a
    file: every exception of a file is caught in the loop (the deletion
    of a file that exists is taken to succeed). When it
    returns, no listed path names a file any more and every other file is
    as it was; the task queue, the log of [views.py] and the count of
    temporary files are as they were, and the cache differs at most under
    the key of the latest results. *)
Theorem process_uploaded_files_returns file_paths bank_name transaction_type
    file_formats merchant_name (s : system) :
  exists s',
    process_uploaded_files file_paths bank_name transaction_type file_formats
      merchant_name s = (JReturned tt, s')
    /\ (forall p, sys_files s' !! p =
                    if bool_decide (p ∈ file_paths) then None else sys_files s !! p)
    /\ worker_step s s'.
Proof. apply process_uploaded_files_run. Qed.

(** *** Files that are not read *)

Lemma try_file_skipped file_path file_formats file_index bank_name transaction_type
    merchant_name (s : system) :
  skipped file_formats file_index file_path ->
  exists r s',
    try_file file_path (file_name_of file_path)
      (file_extension_of (file_name_of file_path)) file_formats file_index
      bank_name transaction_type merchant_name s = (r, s')
    /\ sys_world s' = sys_world s
    /\ match r with
       | JReturned ended => ended = Continue /\ file_formats !! file_index <> None
       | JRaised e => e = IndexError /\ file_formats !! file_index = None
       end.
Proof.
  unfold skipped, try_file. intros Hskip. rewrite J_bind_run.
  destruct (file_formats !! file_index) as [file_format|].
  - cbn [mret J_ret]. destruct Hskip as [[-> Hext]|[Hexcel Hcsv]].
    + rewrite bool_decide_eq_true_2, bool_decide_eq_false_2 by done.
      rewrite J_bind_run, job_logger_run. eexists _, _. by split; [reflexivity|].
    + rewrite !bool_decide_eq_false_2 by done.
      rewrite J_bind_run, job_logger_run. eexists _, _. by split; [reflexivity|].
  - eexists _, _. by split; [reflexivity|].
Qed.

Lemma process_file_skipped file_index file_path bank_name transaction_type
    file_formats merchant_name (s : system) :
  skipped file_formats file_index file_path ->
  sys_world
    (process_file file_index file_path bank_name transaction_type file_formats
       merchant_name s).2 = sys_world s.
Proof.
  intros Hskip. unfold process_file. rewrite J_bind_run, job_logger_run.
  set (s0 := {| sys_world := sys_world s; sys_files := sys_files s;
                sys_queue := sys_queue s; views_log := views_log s;
                job_log := _; temp_count := temp_count s |}).
  destruct (try_file_skipped file_path file_formats file_index bank_name
              transaction_type merchant_name s0 Hskip) as (r & s1 & Htry & Hw & Hr).
  rewrite J_bind_run. unfold try_except_finally, job_try_except. rewrite Htry.
  destruct r as [ended|e].
  - destruct Hr as [-> _].
    destruct (remove_file_run file_path s1) as (s2 & -> & _ & Hw2 & _).
    simpl. by rewrite Hw2, Hw.
  - rewrite J_bind_run, job_logger_run. cbn [mret J_ret].
    match goal with |- context [remove_file file_path ?s1'] =>
      destruct (remove_file_run file_path s1') as (s2 & -> & _ & Hw2 & _)
    end.
    simpl. by rewrite Hw2.
Qed.

(** X18. When every file of the list is one that the driver does not read
    (its format tag is missing, or is neither excel nor csv, or is excel
    with an extension other than .xlsx, .xls and .ods),
    [process_uploaded_files] leaves the world of the pipeline as it was:
    no chunk is processed, nothing is logged by the pipeline, committed or
    published. The files are deleted all the same. *)
Theorem skipped_files_leave_the_world file_paths bank_name transaction_type
    file_formats merchant_name (s : system) :
  (forall i file_path, file_paths !! i = Some file_path ->
                       skipped file_formats i file_path) ->
  exists s',
    process_uploaded_files file_paths bank_name transaction_type file_formats
      merchant_name s = (JReturned tt, s')
    /\ sys_world s' = sys_world s
    /\ forall p, p ∈ file_paths -> sys_files s' !! p = None.
Proof.
  intros Hskip.
  destruct (process_uploaded_files_run file_paths bank_name transaction_type
              file_formats merchant_name s) as (s' & Hrun & Hfiles & _).
  exists s'. split; [done|]. split.
  - pose proof (f_equal (fun out => sys_world out.2) Hrun) as Hw. simpl in Hw.
    rewrite <- Hw. clear Hrun Hfiles Hw.
    unfold process_uploaded_files. rewrite J_bind_run, job_logger_run.
    set (s0 := {| sys_world := sys_world s; sys_files := sys_files s;
                  sys_queue := sys_queue s; views_log := views_log s;
                  job_log := _; temp_count := temp_count s |}).
    unfold job_try_except. rewrite J_bind_run, job_logger_run.
    set (s1 := {| sys_world := sys_world s0; sys_files := sys_files s0;
                  sys_queue := sys_queue s0; views_log := views_log s0;
                  job_log := _; temp_count := temp_count s0 |}).
    assert (Hloop : forall file_index paths (s2 : system),
      (forall i file_path, paths !! i = Some file_path ->
                           skipped file_formats (file_index + i) file_path) ->
      sys_world (process_files file_index paths bank_name transaction_type
                   file_formats merchant_name s2).2 = sys_world s2).
    { intros file_index paths. revert file_index.
      induction paths as [|path paths IH]; intros file_index s2 Hall; [done|].
      cbn [process_files]. rewrite J_bind_run.
      pose proof (process_file_skipped file_index path bank_name transaction_type
                    file_formats merchant_name s2) as Hfile.
      destruct (process_file_run file_index path bank_name transaction_type
                  file_formats merchant_name s2) as (s3 & Hrun & _).
      rewrite Hrun in Hfile |- *. simpl in Hfile.
      rewrite IH.
      - apply Hfile. specialize (Hall 0 path eq_refl).
        by rewrite Nat.add_0_r in Hall.
      - intros i file_path Hi. specialize (Hall (S i) file_path Hi).
        by rewrite Nat.add_succ_r in Hall. }
    specialize (Hloop 0 file_paths s1 Hskip).
    destruct (process_files_run 0 file_paths bank_name transaction_type file_formats
                merchant_name s1) as (s2 & Hrun & _).
    rewrite Hrun in Hloop. rewrite J_bind_run, Hrun, job_logger_run.
    exact Hloop.
  - intros p Hp. by rewrite Hfiles, bool_decide_eq_true_2.
Qed.

End Driver.

(** ** From the upload to the worker *)

Section Names.

Lemma list_ascii_of_string_app (a b : string) :
  list_ascii_of_string (a +:+ b) = list_ascii_of_string a ++ list_ascii_of_string b.
Proof. induction a as [|c a IH]; simpl; [done|]. by rewrite IH. Qed.

Lemma rsplit_None sep s : Path.rsplit sep s = None <-> sep ∉ s.
Proof.
  induction s as [|c s IH]; simpl.
  - split; [intros _; apply not_elem_of_nil | done].
  - rewrite not_elem_of_cons. destruct (Path.rsplit sep s) as [[before after]|].
    + split; [done|]. intros [_ Hs]. by apply IH in Hs.
    + destruct (Ascii.eqb c sep) eqn:Hc.
      * apply Ascii.eqb_eq in Hc as ->. split; [done|]. by intros [? _].
      * apply Ascii.eqb_neq in Hc. split; [|done]. intros _.
        split; [congruence|]. by apply IH.
Qed.

Lemma rsplit_app_absent sep a b :
  sep ∉ b ->
  Path.rsplit sep (a ++ b) =
    (fun ba : list ascii * list ascii => (ba.1, ba.2 ++ b)) <$> Path.rsplit sep a.
Proof.
  intros Hb. induction a as [|c a IH]; simpl.
  - by apply rsplit_None.
  - rewrite IH. destruct (Path.rsplit sep a) as [[before after]|]; simpl; [done|].
    by destruct (Ascii.eqb c sep).
Qed.

Lemma rsplit_last sep a b :
  sep ∉ b -> Path.rsplit sep (a ++ sep :: b) = Some (a, b).
Proof.
  intros Hb. induction a as [|c a IH]; simpl.
  - apply rsplit_None in Hb. by rewrite Hb, Ascii.eqb_refl.
  - by rewrite IH.
Qed.

Lemma after_last_app_absent sep a b :
  sep ∉ b -> Path.after_last sep (a ++ b) = Path.after_last sep a ++ b.
Proof.
  intros Hb. unfold Path.after_last. rewrite (rsplit_app_absent sep a b Hb).
  by destruct (Path.rsplit sep a) as [[before after]|].
Qed.

Lemma rsplit_after sep s before after :
  Path.rsplit sep s = Some (before, after) -> sep ∉ after.
Proof.
  revert before after. induction s as [|c s IH]; intros before after; simpl; [done|].
  destruct (Path.rsplit sep s) as [[before' after']|] eqn:Hs.
  - intros [= _ <-]. by eapply IH.
  - destruct (Ascii.eqb c sep); [|done]. intros [= _ <-]. by apply rsplit_None.
Qed.

Lemma after_last_absent sep s : sep ∉ Path.after_last sep s.
Proof.
  unfold Path.after_last. destruct (Path.rsplit sep s) as [[before after]|] eqn:Hs.
  - by eapply rsplit_after.
  - by apply rsplit_None.
Qed.

Lemma after_last_after_last sep s :
  Path.after_last sep (Path.after_last sep s) = Path.after_last sep s.
Proof.
  pose proof (after_last_absent sep s) as Hs. apply rsplit_None in Hs.
  unfold Path.after_last at 1. by rewrite Hs.
Qed.

(** The driver finds the extension that the view gave to the temporary
    file of a workbook. *)
Lemma temporary_workbook_extension (stem extension : string) :
  forallb Path.is_dot (Path.basename (list_ascii_of_string stem)) = false ->
  extension ∈ excel_extensions ->
  file_extension_of (file_name_of (stem +:+ "." +:+ extension)) = "." +:+ extension.
Proof.
  intros Hstem Hext. unfold file_extension_of, file_name_of.
  rewrite list_ascii_of_string_of_list_ascii, list_ascii_of_string_app.
  set (e := list_ascii_of_string extension).
  assert (He : ("/"%char ∉ e) /\ ("."%char ∉ e) /\ existsb Path.is_slash e = false
               /\ Path.lower e = e /\ string_of_list_ascii e = extension).
  { unfold e, excel_extensions in *.
    repeat (apply elem_of_cons in Hext as [-> | Hext]);
      [..|by apply elem_of_nil in Hext];
      (split; [|split; [|split; [|split]]]; try reflexivity);
      intros Hin; repeat (apply elem_of_cons in Hin as [Hin | Hin];
                          [discriminate Hin|]);
      by apply elem_of_nil in Hin. }
  destruct He as (Hslash & Hdot & Hno & Hlower & Hback).
  change (list_ascii_of_string ("." +:+ extension)) with ("."%char :: e).
  unfold Path.basename.
  rewrite after_last_app_absent.
  2: { intros [Heq|Hin]%elem_of_cons; [discriminate Heq|done]. }
  unfold Path.splitext_ext. rewrite (rsplit_last "."%char _ e Hdot), Hno.
  rewrite after_last_after_last. unfold Path.basename in Hstem. rewrite Hstem.
  change (Path.lower ("."%char :: e)) with ("."%char :: Path.lower e).
  rewrite Hlower. simpl. by rewrite Hback.
Qed.

End Names.

Section Round.

Context `{Pandas} `{Store} `{Readers} `{TempFiles}.

Lemma temp_paths_lookup count names i :
  temp_paths count names !! i = temp_path (count + i) <$> names !! i.
Proof.
  revert count i. induction names as [|name names IH]; intros count [|i]; simpl;
    [done|done| |].
  - by rewrite Nat.add_0_r.
  - rewrite IH. by rewrite Nat.add_succ_r.
Qed.

Lemma temp_paths_read count names i file_path :
  (forall k, forallb Path.is_dot
               (Path.basename (list_ascii_of_string (temp_stem k))) = false) ->
  temp_paths count names !! i = Some file_path ->
  ~ skipped (format_of_name <$> names) i file_path.
Proof.
  intros Hstems. rewrite temp_paths_lookup. unfold skipped.
  rewrite list_lookup_fmap. destruct (names !! i) as [name|]; [|done].
  simpl. intros [= <-]. unfold format_of_name. case_bool_decide as Hext.
  - intros [[_ Hout]|[Hne _]]; [|done]. apply Hout. unfold temp_path.
    rewrite (temporary_workbook_extension _ _ (Hstems _) Hext).
    unfold excel_extensions in Hext. unfold excel_file_extensions.
    repeat (apply elem_of_cons in Hext as [-> | Hext]);
      [by left | by right; left | by right; right; left
      | by apply elem_of_nil in Hext].
  - by intros [[Heq _]|[_ Hne]].
Qed.

(** X19. The task that [upload_files] dispatches holds no file that the
    driver would skip, as long as the last component of the stem of a
    temporary file is not made of dots only: each path has a format tag,
    the tag is excel or csv, and for the tag excel the driver finds one of
    the extensions .xlsx, .xls and .ods behind the name of the temporary
    file, in whatever case the upload was named. *)
Theorem dispatched_task_is_read (req : request) (s : system) :
  method req = "POST" ->
  form_is_valid req = true ->
  Forall (fun file => upload_size file <> 0) (request_files req) ->
  (forall k, forallb Path.is_dot
               (Path.basename (list_ascii_of_string (temp_stem k))) = false) ->
  exists s' t,
    upload_files req s = (JReturned (JsonResponse ProcessingStarted 202), s')
    /\ sys_queue s' = sys_queue s ++ [t]
    /\ length (task_file_paths t) = length (request_files req)
    /\ forall i file_path,
         task_file_paths t !! i = Some file_path ->
         ~ skipped (task_file_formats t) i file_path
         /\ is_Some (sys_files s' !! file_path).
Proof.
  intros Hpost Hvalid Hsizes Hstems. unfold upload_files.
  rewrite bool_decide_eq_true_2, Hvalid by done.
  destruct (upload_loop_app (request_files req) [] [] [] s Hsizes)
    as (s1 & Hrun & Hw & Hq & Hv & Hj & Hc & Hgrow & Hnew & _).
  rewrite app_nil_r in Hrun. rewrite J_bind_run, Hrun. simpl.
  eexists _, _. split; [reflexivity|]. simpl. rewrite Hq. split; [done|].
  cbn [task_file_paths task_file_formats].
  split; [by rewrite length_temp_paths, length_fmap|].
  intros i file_path Hi. split.
  - by eapply temp_paths_read.
  - apply Hnew. by eapply list_elem_of_lookup_2.
Qed.

(** X20. An upload that is answered with 202 leaves no temporary file
    behind once the worker has run the dispatched task:
    [process_uploaded_files] on the arguments of the task returns, none of
    the paths of the task names a file any more, and every other path
    names what it named before the upload. *)
Theorem upload_round_leaves_no_file (req : request) (s : system) :
  method req = "POST" ->
  form_is_valid req = true ->
  Forall (fun file => upload_size file <> 0) (request_files req) ->
  exists s' t s'',
    upload_files req s = (JReturned (JsonResponse ProcessingStarted 202), s')
    /\ sys_queue s' = sys_queue s ++ [t]
    /\ process_uploaded_files (task_file_paths t) (task_bank_name t)
         (task_transaction_type t) (task_file_formats t) (task_merchant_name t) s'
       = (JReturned tt, s'')
    /\ forall p, sys_files s'' !! p =
                   if bool_decide (p ∈ task_file_paths t) then None
                   else sys_files s !! p.
Proof.
  intros Hpost Hvalid Hsizes. unfold upload_files.
  rewrite bool_decide_eq_true_2, Hvalid by done.
  destruct (upload_loop_app (request_files req) [] [] [] s Hsizes)
    as (s1 & Hrun & Hw & Hq & Hv & Hj & Hc & Hgrow & Hnew & Hold).
  rewrite app_nil_r in Hrun. rewrite J_bind_run, Hrun.
  set (t := {| task_file_paths :=
                 temp_paths (temp_count s) (upload_name <$> request_files req);
               task_bank_name := cleaned_bank_name req;
               task_transaction_type := cleaned_transaction_type req;
               task_file_formats := format_of_name <$> (upload_name <$> request_files req);
               task_merchant_name := cleaned_merchant_name req |}).
  destruct (process_uploaded_files_run (task_file_paths t) (task_bank_name t)
              (task_transaction_type t) (task_file_formats t)
              (task_merchant_name t) (delay t s1).2) as (s'' & Hworker & Hfiles & _).
  exists (delay t s1).2, t, s''. split; [reflexivity|].
  split; [by simpl; rewrite Hq|]. split; [done|].
  intros p. rewrite Hfiles. case_bool_decide as Hp; [done|].
  simpl. by apply Hold.
Qed.

End Round.

(** *** The views and the driver on the reference instances *)

Lemma results_view_round_trip_witness :
  exists r w',
    @process_transactions Reference.pandas Reference.failing_store
      Reference.prepared_chunk "karur_vysya" "booking" "IRCTC"
      (Reference.empty_world Reference.failing_store []) = (Returned (Some r), w')
    /\ (@transaction_results_view Reference.failing_store ReferenceSite.readers
          (system_of w')).1
       = JReturned (Render "transaction_results.html" (Some r)).
Proof.
  destruct (@process_transactions Reference.pandas Reference.failing_store
              Reference.prepared_chunk "karur_vysya" "booking" "IRCTC"
              (Reference.empty_world Reference.failing_store []))
    as [[[r|]|e] w'] eqn:Hrun;
    [|vm_compute in Hrun; discriminate Hrun..].
  exists r, w'. split; [reflexivity|].
  by rewrite (@results_view_round_trip Reference.pandas Reference.failing_store
                ReferenceSite.readers Reference.prepared_chunk "karur_vysya"
                "booking" "IRCTC" _ r w' (system_of w') Hrun eq_refl).
Defined.

Lemma results_view_after_failed_chunk_witness :
  let w := Reference.empty_world Reference.list_store [] in
  let out :=
    @process_dataframe_chunk Reference.pandas Reference.list_store
      Reference.karur_chunk "hdfc" "booking" "IRCTC" w in
  (@transaction_results_view Reference.list_store ReferenceSite.readers
     (system_of out.2)).1
  = (@transaction_results_view Reference.list_store ReferenceSite.readers
       (system_of w)).1.
Proof.
  intros w out.
  exact (proj1
           (@results_view_after_failed_chunk Reference.pandas Reference.list_store
              ReferenceSite.readers Reference.karur_chunk "hdfc" "booking" "IRCTC"
              w out.1 out.2 (system_of w) (system_of out.2)
              (surjective_pairing out) (or_intror (or_introl eq_refl))
              eq_refl eq_refl)).
Defined.

Lemma upload_files_dispatches_witness :
  let s := @system_of Reference.list_store ReferenceSite.readers
             (Reference.empty_world Reference.list_store []) in
  exists s',
    @upload_files Reference.list_store ReferenceSite.readers ReferenceSite.temp_files
      (ReferenceSite.post [ReferenceSite.upload "Jan.XLSX" [Reference.karur_chunk];
                           ReferenceSite.upload "feb.csv" [Reference.karur_chunk]]) s
    = (JReturned (JsonResponse ProcessingStarted 202), s')
    /\ sys_queue s' =
         [{| task_file_paths := ["/tmp/tmp.xlsx"; "/tmp/tmpi.csv"];
             task_bank_name := "karur_vysya";
             task_transaction_type := "booking";
             task_file_formats := ["excel"; "csv"];
             task_merchant_name := "IRCTC" |}].
Proof.
  intros s.
  destruct (@upload_files_dispatches Reference.list_store ReferenceSite.readers
              ReferenceSite.temp_files
              (ReferenceSite.post
                 [ReferenceSite.upload "Jan.XLSX" [Reference.karur_chunk];
                  ReferenceSite.upload "feb.csv" [Reference.karur_chunk]]) s
              eq_refl eq_refl)
    as (s' & Hrun & Hqueue & _).
  { repeat constructor; simpl; lia. }
  exists s'. split; [exact Hrun | exact Hqueue].
Defined.

Lemma upload_files_empty_file_witness :
  let s := @system_of Reference.list_store ReferenceSite.readers
             (Reference.empty_world Reference.list_store []) in
  exists s',
    @upload_files Reference.list_store ReferenceSite.readers ReferenceSite.temp_files
      (ReferenceSite.post
         [ReferenceSite.upload "jan.xlsx" [Reference.karur_chunk];
          ReferenceSite.empty_upload "feb.csv"]) s
    = (JReturned (JsonResponse (FileIsEmptyMessage "feb.csv") 400), s')
    /\ sys_queue s' = []
    /\ is_Some (sys_files s' !! "/tmp/tmp.xlsx").
Proof.
  intros s.
  destruct (@upload_files_empty_file Reference.list_store ReferenceSite.readers
              ReferenceSite.temp_files
              (ReferenceSite.post
                 [ReferenceSite.upload "jan.xlsx" [Reference.karur_chunk];
                  ReferenceSite.empty_upload "feb.csv"]) s
              [ReferenceSite.upload "jan.xlsx" [Reference.karur_chunk]]
              (ReferenceSite.empty_upload "feb.csv")
              [] eq_refl eq_refl eq_refl)
    as (s' & Hrun & Hqueue & _ & _ & _ & Hleft).
  { repeat constructor; simpl; lia. }
  { reflexivity. }
  exists s'. split; [exact Hrun|]. split; [exact Hqueue|].
  apply Hleft. apply elem_of_cons. by left.
Defined.

Lemma skipped_files_leave_the_world_witness :
  let s := @system_of Reference.list_store ReferenceSite.readers
             (Reference.empty_world Reference.list_store []) in
  exists s',
    @process_uploaded_files Reference.pandas Reference.list_store
      ReferenceSite.readers ["/tmp/tmp.pdf"; "/tmp/tmpi.csv"; "/tmp/tmpii.csv"]
      "karur_vysya" "booking" ["excel"; "parquet"] "IRCTC" s = (JReturned tt, s')
    /\ sys_world s' = sys_world s.
Proof.
  intros s.
  destruct (@skipped_files_leave_the_world Reference.pandas Reference.list_store
              ReferenceSite.readers ["/tmp/tmp.pdf"; "/tmp/tmpi.csv"; "/tmp/tmpii.csv"]
              "karur_vysya" "booking" ["excel"; "parquet"] "IRCTC" s)
    as (s' & Hrun & Hworld & _).
  { intros [|[|[|i]]] file_path Hi; unfold skipped; simpl in Hi |- *; [| |done|done].
    - left. split; [done|]. injection Hi as <-. vm_compute.
      intros Hin. repeat (apply elem_of_cons in Hin as [Hin | Hin];
                          [discriminate Hin|]).
      by apply elem_of_nil in Hin.
    - right. by split. }
  exists s'. split; [exact Hrun | exact Hworld].
Defined.

Lemma reference_stems k :
  forallb Path.is_dot
    (Path.basename (list_ascii_of_string (@temp_stem ReferenceSite.temp_files k)))
  = false.
Proof.
  cbn [temp_stem ReferenceSite.temp_files]. rewrite list_ascii_of_string_app.
  change (list_ascii_of_string "/tmp/tmp")
    with (list_ascii_of_string "/tmp" ++ "/"%char :: list_ascii_of_string "tmp").
  rewrite <- (assoc_L (++)). unfold Path.basename, Path.after_last.
  change (("/"%char :: list_ascii_of_string "tmp") ++ ?l)
    with ("/"%char :: (list_ascii_of_string "tmp" ++ l)).
  rewrite rsplit_last; [done|]. cbn [list_ascii_of_string app].
  intros [Heq|[Heq|[Heq|Hin]%elem_of_cons]%elem_of_cons]%elem_of_cons;
    [discriminate Heq..|].
  induction k as [|k IH]; simpl in Hin; [by apply elem_of_nil in Hin|].
  apply elem_of_cons in Hin as [Heq|Hin]; [discriminate Heq|by apply IH].
Qed.

Lemma dispatched_task_is_read_witness :
  let s := @system_of Reference.list_store ReferenceSite.readers
             (Reference.empty_world Reference.list_store []) in
  exists s' t,
    @upload_files Reference.list_store ReferenceSite.readers ReferenceSite.temp_files
      (ReferenceSite.post [ReferenceSite.upload "Jan.XLSX" [Reference.karur_chunk];
                           ReferenceSite.upload "feb.csv" [Reference.karur_chunk]]) s
    = (JReturned (JsonResponse ProcessingStarted 202), s')
    /\ sys_queue s' = [t]
    /\ length (task_file_paths t) = 2
    /\ forall i file_path,
         task_file_paths t !! i = Some file_path ->
         ~ skipped (task_file_formats t) i file_path.
Proof.
  intros s.
  destruct (@dispatched_task_is_read Reference.list_store ReferenceSite.readers
              ReferenceSite.temp_files
              (ReferenceSite.post
                 [ReferenceSite.upload "Jan.XLSX" [Reference.karur_chunk];
                  ReferenceSite.upload "feb.csv" [Reference.karur_chunk]]) s
              eq_refl eq_refl)
    as (s' & t & Hrun & Hqueue & Hlen & Hread).
  { repeat constructor; simpl; lia. }
  { exact reference_stems. }
  exists s', t. split; [exact Hrun|]. split; [exact Hqueue|]. split; [exact Hlen|].
  intros i file_path Hi. exact (proj1 (Hread i file_path Hi)).
Defined.

Lemma upload_round_leaves_no_file_witness :
  let s := @system_of Reference.list_store ReferenceSite.readers
             (Reference.empty_world Reference.list_store []) in
  exists s' t s'',
    @upload_files Reference.list_store ReferenceSite.readers ReferenceSite.temp_files
      (ReferenceSite.post [ReferenceSite.upload "Jan.XLSX" [Reference.karur_chunk];
                           ReferenceSite.upload "feb.csv" [Reference.karur_chunk]]) s
    = (JReturned (JsonResponse ProcessingStarted 202), s')
    /\ sys_queue s' = [t]
    /\ @process_uploaded_files Reference.pandas Reference.list_store
         ReferenceSite.readers (task_file_paths t) (task_bank_name t)
         (task_transaction_type t) (task_file_formats t) (task_merchant_name t) s'
       = (JReturned tt, s'')
    /\ forall p, sys_files s'' !! p = None.
Proof.
  intros s.
  destruct (@upload_round_leaves_no_file Reference.pandas Reference.list_store
              ReferenceSite.readers ReferenceSite.temp_files
              (ReferenceSite.post
                 [ReferenceSite.upload "Jan.XLSX" [Reference.karur_chunk];
                  ReferenceSite.upload "feb.csv" [Reference.karur_chunk]]) s
              eq_refl eq_refl)
    as (s' & t & s'' & Hrun & Hqueue & Hworker & Hfiles).
  { repeat constructor; simpl; lia. }
  exists s', t, s''. split; [exact Hrun|]. split; [exact Hqueue|].
  split; [exact Hworker|].
  intros p. rewrite Hfiles. by case_bool_decide.
Defined.

(** ** Chunks as the readers deliver them *)

Section ReaderChunks.

Context `{Pandas} `{Store}.

Lemma columns_named_NoDup label (cols : list (string * column_data)) :
  NoDup cols.*1 -> length (columns_named label cols) <= 1.
Proof.
  induction cols as [|lc cols IH]; [simpl; lia|].
  rewrite fmap_cons, NoDup_cons. intros [Hout Hnodup].
  rewrite columns_named_cons. case_bool_decide as Hl; [|by apply IH].
  rewrite Hl in Hout. by rewrite (columns_named_nil label cols Hout).
Qed.

Lemma select_NoDup df label : NoDup (labels df) -> select df label <> Many.
Proof.
  intros Hnodup%(columns_named_NoDup label). rewrite select_columns_named.
  destruct (columns_named label (frame_columns df)) as [|? [|? ?]];
    [done|done|simpl in Hnodup; lia].
Qed.

Lemma select_all_object df label c :
  all_object df -> select df label = One c -> exists cells, c = ObjectCol cells.
Proof.
  unfold all_object. rewrite select_columns_named. intros Hall Hsel.
  destruct (columns_named label (frame_columns df)) as [|lc [|? ?]] eqn:Hcols;
    [done| |done].
  injection Hsel as <-.
  assert (Hin : lc ∈ frame_columns df).
  { apply list_elem_of_In. eapply (proj1 (List.filter_In _ _ _)).
    unfold columns_named in Hcols. rewrite Hcols. by left. }
  apply (proj1 (Forall_forall _ _) Hall) in Hin.
  destruct lc.2 as [cells| |]; [by exists cells|done|done].
Qed.

Lemma all_object_normalized df : all_object df -> all_object (normalized df).
Proof.
  unfold all_object, normalized, set_labels. simpl. intros Hall.
  apply Forall_forall. intros [l c] Hin. simpl.
  apply elem_of_zip_r in Hin. apply list_elem_of_fmap in Hin as (lc & -> & Hlc).
  by apply (proj1 (Forall_forall _ _) Hall) in Hlc.
Qed.

Lemma all_object_rename df (mapping : gmap string string) :
  all_object df -> all_object (rename df mapping).
Proof.
  unfold all_object, rename. simpl. intros Hall.
  apply Forall_fmap. by eapply Forall_impl.
Qed.

(** [key] is the one label that a mapping written out with [insert] takes
    to the target of the goal. *)
Ltac only_source key :=
  exists key; split; [vm_compute; reflexivity|];
  let l := fresh "l" in
  let Hl := fresh "Hl" in
  let Hv := fresh "Hv" in
  intros l Hl; simpl in Hl;
  repeat (apply lookup_insert_Some in Hl as [[<- Hv]|[_ Hl]];
          [first [reflexivity | discriminate Hv]|]);
  apply lookup_singleton_Some in Hl as [<- Hv];
  first [reflexivity | discriminate Hv].

(** Each of the three coerced labels has one source in each mapping of
    the registry. *)
Lemma coerced_label_source columns_mapping target :
  columns_mapping = karur_vysya_booking \/ columns_mapping = karur_vysya_refund
    \/ columns_mapping = icici_both ->
  target ∈ ["Transaction_Date"; "Settlement_Date"; "Payable_Merchant"] ->
  exists key,
    forall l, "_"%char ∉ list_ascii_of_string l ->
              renamed (schema_column_mapping columns_mapping) l = target <-> l = key.
Proof.
  intros Hcm Ht.
  assert (Hreserved : "_"%char ∈ list_ascii_of_string target).
  { repeat (apply elem_of_cons in Ht as [-> | Ht]);
      [apply list_elem_of_In; simpl; tauto..|by apply elem_of_nil in Ht]. }
  assert (Hkey : exists key,
    schema_column_mapping columns_mapping !! key = Some target
    /\ forall l, schema_column_mapping columns_mapping !! l = Some target -> l = key).
  { destruct Hcm as [-> | [-> | ->]];
      repeat (apply elem_of_cons in Ht as [-> | Ht]);
      try (by apply elem_of_nil in Ht).
    - only_source "TXNDATE".
    - only_source "CREDITEDON".
    - only_source "BOOKINGAMOUNT".
    - only_source "REFUNDDATE".
    - only_source "DEBITEDON".
    - only_source "REFUNDAMOUNT".
    - only_source "TRANSACTIONDATE".
    - only_source "POSTDATE".
    - only_source "NETAMT". }
  destruct Hkey as (key & Hkey & Honly). exists key. intros l Hl. unfold renamed.
  split.
  - destruct (schema_column_mapping columns_mapping !! l) as [v|] eqn:Hv; simpl.
    + intros ->. by apply Honly.
    + intros ->. done.
  - intros ->. by rewrite Hkey.
Qed.

(** The coercions of the chunk processor return when none of the three
    coerced labels is repeated and the amounts are of dtype [object]. *)
Lemma coerce_chunk_total df bank_name column_mapping w :
  select (rename df column_mapping) "Transaction_Date" <> Many ->
  select (rename df column_mapping) "Settlement_Date" <> Many ->
  (forall c, select (rename df column_mapping) "Payable_Merchant" = One c ->
             exists cells, c = ObjectCol cells) ->
  select (rename df column_mapping) "Payable_Merchant" <> Many ->
  exists df' w', coerce_chunk df bank_name column_mapping w = (Returned df', w').
Proof.
  intros Htd Hsd Hobj Hpm. unfold coerce_chunk.
  set (df0 := rename df column_mapping) in *.
  assert (Hstep : forall dfa label wa,
    select dfa label <> Many ->
    exists dfb wb,
      (if has_column label dfa then convert_column_to_datetime dfa label
       else mret dfa) wa = (Returned dfb, wb)).
  { intros dfa label wa Hsel. destruct (has_column label dfa) eqn:Hhas.
    - unfold convert_column_to_datetime.
      destruct (select dfa label) as [|c|] eqn:Hselect; [| |done].
      + apply select_Missing in Hselect. congruence.
      + cbv zeta. rewrite bind_run.
        destruct (isna_index _ _); by eexists _, _.
    - by eexists _, _. }
  destruct (Hstep df0 "Transaction_Date" w Htd) as (df1 & w1 & Hrun1).
  rewrite bind_run, Hrun1.
  apply datetime_step_Returned in Hrun1 as [Hl1 Hs1].
  destruct (Hstep df1 "Settlement_Date" w1) as (df2 & w2 & Hrun2).
  { by rewrite Hs1. }
  rewrite bind_run, Hrun2.
  apply datetime_step_Returned in Hrun2 as [Hl2 Hs2].
  assert (Hsel2 : select df2 "Payable_Merchant" = select df0 "Payable_Merchant").
  { by rewrite Hs2, Hs1. }
  destruct (has_column "Payable_Merchant" df2) eqn:Hhas; [|by eexists _, _].
  destruct (select df0 "Payable_Merchant") as [|c|] eqn:Hselect; [| |done].
  { apply select_Missing in Hsel2. congruence. }
  destruct (Hobj c eq_refl) as [cells ->].
  rewrite bind_run, (convert_payable_to_float_total df2 _ cells w2 Hsel2).
  case_bool_decide; [|by eexists _, _].
  unfold derive_credit_debit.
  rewrite (select_set_column_eq _ _ _ _ Hsel2). by eexists _, _.
Qed.

(** The chunk processor returns on a chunk of the readers whose cleaned
    labels differ. *)
Lemma process_dataframe_chunk_total df bank_name transaction_type merchant_name w :
  all_object df ->
  NoDup (clean_column_name <$> labels df) ->
  exists w',
    process_dataframe_chunk df bank_name transaction_type merchant_name w =
      (Returned tt, w').
Proof.
  intros Hobj Hnodup.
  destruct (resolve bank_name transaction_type) as [cm|] eqn:Hres.
  2: { rewrite (process_dataframe_chunk_not_found _ _ _ _ _ Hres). by eexists. }
  destruct (all_expected_present (expected_columns cm) (normalized df)) eqn:Hall.
  2: { rewrite (process_dataframe_chunk_missing _ _ _ _ _ _ Hres Hall). by eexists. }
  rewrite (process_dataframe_chunk_accepted _ _ _ _ _ _ Hres Hall).
  set (w0 := logged w [(INFO, ProcessingChunk bank_name transaction_type
                                merchant_name)]).
  rewrite <- labels_normalized in Hnodup.
  assert (Hsel : forall target,
    target ∈ ["Transaction_Date"; "Settlement_Date"; "Payable_Merchant"] ->
    select (rename (normalized df) (schema_column_mapping cm)) target <> Many
    /\ forall c,
         select (rename (normalized df) (schema_column_mapping cm)) target = One c ->
         exists cells, c = ObjectCol cells).
  { intros target Ht.
    destruct (coerced_label_source cm target (resolve_registry _ _ _ Hres) Ht)
      as [key Hkey].
    rewrite (select_rename (normalized df) (schema_column_mapping cm) key target).
    - split; [by apply select_NoDup|].
      intros c Hc. eapply select_all_object; [|exact Hc].
      by apply all_object_normalized.
    - intros l Hl. by apply Hkey, (normalized_label_no_underscore df). }
  destruct (coerce_chunk_total (normalized df) bank_name (schema_column_mapping cm) w0)
    as (df' & w1 & Hrun).
  { apply Hsel. by left. }
  { apply Hsel. by right; left. }
  { apply Hsel. by right; right; left. }
  { apply Hsel. by right; right; left. }
  rewrite bind_run, Hrun.
  destruct (registry_bank_code _ _ _ Hres) as [bank_id Hcode].
  rewrite bind_run, (process_transactions_registered _ _ _ _ _ _ Hcode).
  set (w2 := logged w1 _).
  destruct (materialize_total df' bank_name transaction_type merchant_name bank_id w2)
    as (st & w3 & Hmat).
  { intros c Hc. by eapply coerce_chunk_no_dedicated. }
  destruct (commit_and_publish_run st w3) as (r & w4 & Hcommit & _).
  rewrite bind_run, Hmat, bind_run, Hcommit. by eexists.
Qed.

(** X21. [process_dataframe_chunk] returns on every chunk as the readers
    deliver it with [dtype=str], all columns of dtype [object], whose
    cleaned labels are pairwise different, for every bank, transaction
    type and merchant: it rejects the chunk, or the coercions, the row loop
    and the commit go through, and no exception reaches the caller. *)
Theorem chunk_of_reader_returns df bank_name transaction_type merchant_name w :
  all_object df ->
  NoDup (clean_column_name <$> labels df) ->
  exists w',
    process_dataframe_chunk df bank_name transaction_type merchant_name w =
      (Returned tt, w').
Proof. apply process_dataframe_chunk_total. Qed.

End ReaderChunks.

Lemma chunk_of_reader_returns_witness :
  exists w',
    @process_dataframe_chunk Reference.pandas Reference.list_store
      Reference.icici_chunk "icici" "refund" "IRCTC"
      (Reference.empty_world Reference.list_store []) = (Returned tt, w').
Proof.
  apply (@chunk_of_reader_returns Reference.pandas Reference.list_store
           Reference.icici_chunk "icici" "refund" "IRCTC").
  - unfold all_object. by repeat constructor.
  - apply (bool_decide_eq_true_1
             (NoDup (clean_column_name <$> labels Reference.icici_chunk))).
    vm_compute. reflexivity.
Defined.

(** ** The chunks of a file *)

Section FileChunks.

Context `{Pandas} `{Store} `{Readers} `{TempFiles}.

(** The loop of the driver over the chunks is the loop of the pipeline,
    run by the worker. *)
Lemma process_chunks_run df_chunks bank_name transaction_type merchant_name
    (s : system) :
  process_chunks df_chunks bank_name transaction_type merchant_name s =
    run_pipeline (chunk_loop df_chunks bank_name transaction_type merchant_name) s.
Proof.
  revert s. induction df_chunks as [|df df_chunks IH]; intros s; [by destruct s|].
  cbn [process_chunks chunk_loop]. rewrite J_bind_run. unfold run_pipeline.
  rewrite bind_run.
  destruct (process_dataframe_chunk df bank_name transaction_type merchant_name
              (sys_world s)) as [[[]|e] w]; [|done].
  rewrite IH. unfold run_pipeline. simpl.
  by destruct (chunk_loop df_chunks bank_name transaction_type merchant_name w)
    as [[u|e] w'].
Qed.

Lemma sys_world_job_logger l msg (s : system) :
  sys_world (job_logger l msg s).2 = sys_world s.
Proof. reflexivity. Qed.

(** The world after the [try] block of a file whose chunks are read. *)
Lemma try_file_world file_path file_formats file_index bank_name transaction_type
    merchant_name (s : system) file_format content df_chunks :
  file_formats !! file_index = Some file_format ->
  sys_files s !! file_path = Some content ->
  chunks_read file_format file_path content df_chunks ->
  sys_world
    (try_file file_path (file_name_of file_path)
       (file_extension_of (file_name_of file_path)) file_formats file_index
       bank_name transaction_type merchant_name s).2
  = (chunk_loop df_chunks bank_name transaction_type merchant_name (sys_world s)).2.
Proof.
  intros Hformat Hfile Hread. unfold try_file. rewrite J_bind_run, Hformat.
  cbn [mret J_ret].
  destruct Hread as [[-> [complete Hcsv]]|(-> & Hext & df & Hexcel & ->)].
  - rewrite bool_decide_eq_false_2, bool_decide_eq_true_2 by done.
    rewrite J_bind_run. unfold open_file. rewrite Hfile, Hcsv.
    rewrite J_bind_run, job_logger_run, J_bind_run, process_chunks_run.
    unfold run_pipeline. simpl.
    destruct (chunk_loop df_chunks bank_name transaction_type merchant_name
                (sys_world s)) as [[u|e] w]; [|done].
    by destruct complete.
  - rewrite !bool_decide_eq_true_2 by done.
    rewrite J_bind_run. unfold open_file. rewrite Hfile.
    rewrite J_bind_run, Hexcel. cbn [mret J_ret].
    rewrite J_bind_run, process_chunks_run. unfold run_pipeline.
    by destruct (chunk_loop [df] bank_name transaction_type merchant_name
                   (sys_world s)) as [[u|e] w].
Qed.

(** The [try] block reads the world and the files only. *)
Lemma try_file_world_congr file_path file_name file_extension file_formats
    file_index bank_name transaction_type merchant_name (s s0 : system) :
  sys_world s0 = sys_world s ->
  sys_files s0 = sys_files s ->
  sys_world
    (try_file file_path file_name file_extension file_formats file_index
       bank_name transaction_type merchant_name s0).2
  = sys_world
      (try_file file_path file_name file_extension file_formats file_index
         bank_name transaction_type merchant_name s).2.
Proof.
  intros Hw Hf.
  assert (Hchunks : forall df_chunks (sa sb : system),
    sys_world sa = sys_world sb ->
    sys_world (process_chunks df_chunks bank_name transaction_type merchant_name
                 sa).2
    = sys_world (process_chunks df_chunks bank_name transaction_type merchant_name
                   sb).2
    /\ (process_chunks df_chunks bank_name transaction_type merchant_name sa).1
       = (process_chunks df_chunks bank_name transaction_type merchant_name sb).1).
  { intros df_chunks sa sb Hsame. rewrite !process_chunks_run. unfold run_pipeline.
    rewrite Hsame.
    by destruct (chunk_loop df_chunks bank_name transaction_type merchant_name
                   (sys_world sb)) as [[u|e] w]. }
  unfold try_file. rewrite !J_bind_run.
  destruct (file_formats !! file_index) as [file_format|]; [|done].
  cbn [mret J_ret]. repeat case_bool_decide; try done.
  - rewrite !J_bind_run. unfold open_file. rewrite Hf.
    destruct (sys_files s !! file_path) as [content|]; [|done].
    rewrite !J_bind_run.
    destruct (read_excel (engine_of file_extension) content) as [df|]; [|done].
    cbn [mret J_ret]. rewrite !J_bind_run.
    destruct (Hchunks [df] s0 s Hw) as [Hworld Hout].
    destruct (process_chunks [df] bank_name transaction_type merchant_name s0)
      as [[u0|e0] s0'],
      (process_chunks [df] bank_name transaction_type merchant_name s)
      as [[u|e] s']; simpl in *; congruence.
  - rewrite !J_bind_run. unfold open_file. rewrite Hf.
    destruct (sys_files s !! file_path) as [content|]; [|done].
    destruct (read_csv content) as [|df_chunks complete]; [done|].
    rewrite !J_bind_run, !job_logger_run, !J_bind_run.
    lazymatch goal with
    | |- sys_world (match process_chunks _ _ _ _ ?sa with _ => _ end).2
         = sys_world (match process_chunks _ _ _ _ ?sb with _ => _ end).2 =>
        destruct (Hchunks df_chunks sa sb Hw) as [Hworld Hout];
        destruct (process_chunks df_chunks bank_name transaction_type
                    merchant_name sa) as [[u0|e0] s0'],
          (process_chunks df_chunks bank_name transaction_type
             merchant_name sb) as [[u|e] s']
    end; simpl in *; try congruence.
    by destruct complete.
Qed.

Lemma process_file_world file_index file_path bank_name transaction_type
    file_formats merchant_name (s : system) :
  sys_world
    (process_file file_index file_path bank_name transaction_type file_formats
       merchant_name s).2
  = sys_world
      (try_file file_path (file_name_of file_path)
         (file_extension_of (file_name_of file_path)) file_formats file_index
         bank_name transaction_type merchant_name s).2.
Proof.
  unfold process_file. rewrite J_bind_run, job_logger_run.
  set (s0 := {| sys_world := sys_world s; sys_files := sys_files s;
                sys_queue := sys_queue s; views_log := views_log s;
                job_log := _; temp_count := temp_count s |}).
  rewrite <- (try_file_world_congr file_path (file_name_of file_path)
                (file_extension_of (file_name_of file_path)) file_formats file_index
                bank_name transaction_type merchant_name s s0 eq_refl eq_refl).
  set (body := try_file _ _ _ _ _ _ _ _).
  rewrite J_bind_run. unfold try_except_finally, job_try_except.
  destruct (body s0) as [[ended|e] s1].
  - destruct (remove_file_run file_path s1) as (s2 & -> & _ & Hw & _).
    destruct ended; simpl; by rewrite ?sys_world_job_logger, Hw.
  - rewrite J_bind_run, job_logger_run. cbn [mret J_ret].
    match goal with |- context [remove_file file_path ?s1'] =>
      destruct (remove_file_run file_path s1') as (s2 & -> & _ & Hw & _)
    end.
    simpl in *. by rewrite Hw.
Qed.

(** X22. For a file that the driver reads (a csv file, or a workbook with
    one of the three extensions), what the body of the loop of
    [process_uploaded_files] does to the world of the pipeline is what the
    chunk processor does to it on the chunks of the file, one after the
    other in the order of the reader: the handling of the exceptions, the
    log of the driver and the deletion of the file add nothing to it. *)
Theorem file_world_is_chunk_loop file_index file_path bank_name transaction_type
    file_formats merchant_name (s : system) file_format content df_chunks :
  file_formats !! file_index = Some file_format ->
  sys_files s !! file_path = Some content ->
  chunks_read file_format file_path content df_chunks ->
  sys_world
    (process_file file_index file_path bank_name transaction_type file_formats
       merchant_name s).2
  = (chunk_loop df_chunks bank_name transaction_type merchant_name (sys_world s)).2.
Proof.
  intros Hformat Hfile Hread. rewrite process_file_world.
  by eapply try_file_world.
Qed.

Lemma chunk_loop_app before after bank_name transaction_type merchant_name w :
  chunk_loop (before ++ after) bank_name transaction_type merchant_name w =
    match chunk_loop before bank_name transaction_type merchant_name w with
    | (Returned _, w1) =>
        chunk_loop after bank_name transaction_type merchant_name w1
    | (Raised e, w1) => (Raised e, w1)
    end.
Proof.
  revert w. induction before as [|df before IH]; intros w; [done|].
  cbn [app chunk_loop]. rewrite !bind_run.
  destruct (process_dataframe_chunk df bank_name transaction_type merchant_name w)
    as [[[]|e] w1]; [|done].
  apply IH.
Qed.

(** X23. A chunk on which the chunk processor raises ends the file: the
    chunks behind it are not processed, and what the chunks before it
    committed and published stays as it is, for the raising chunk leaves
    the database and the cache alone and nothing is rolled back over the
    chunks of a file. *)
Theorem raising_chunk_ends_the_file file_index file_path bank_name transaction_type
    file_formats merchant_name (s : system) file_format content before bad after
    w1 e w2 :
  file_formats !! file_index = Some file_format ->
  sys_files s !! file_path = Some content ->
  chunks_read file_format file_path content (before ++ bad :: after) ->
  chunk_loop before bank_name transaction_type merchant_name (sys_world s) =
    (Returned tt, w1) ->
  process_dataframe_chunk bad bank_name transaction_type merchant_name w1 =
    (Raised e, w2) ->
  sys_world
    (process_file file_index file_path bank_name transaction_type file_formats
       merchant_name s).2 = w2
  /\ database w2 = database w1
  /\ cache w2 = cache w1.
Proof.
  intros Hformat Hfile Hread Hbefore Hbad.
  rewrite process_file_world,
    (try_file_world _ _ _ _ _ _ _ _ _ _ Hformat Hfile Hread).
  rewrite chunk_loop_app, Hbefore. cbn [chunk_loop]. rewrite bind_run, Hbad.
  split; [done|].
  exact (proj2 (process_dataframe_chunk_footprint bad bank_name transaction_type
                  merchant_name w1) e w2 Hbad).
Qed.

End FileChunks.

(** *** The chunks of a file on the reference instances *)

Lemma file_world_is_chunk_loop_witness :
  let s :=
    with_files
      (@system_of Reference.list_store ReferenceSite.readers
         (Reference.empty_world Reference.list_store []))
      {[ "/tmp/tmp.csv" := [Reference.karur_chunk; Reference.karur_chunk] ]} in
  sys_world
    (@process_file Reference.pandas Reference.list_store ReferenceSite.readers
       0 "/tmp/tmp.csv" "karur_vysya" "booking" ["csv"] "IRCTC" s).2
  = (@chunk_loop Reference.pandas Reference.list_store
       [Reference.karur_chunk; Reference.karur_chunk]
       "karur_vysya" "booking" "IRCTC" (sys_world s)).2.
Proof.
  intros s.
  apply (@file_world_is_chunk_loop Reference.pandas Reference.list_store
           ReferenceSite.readers 0 "/tmp/tmp.csv" "karur_vysya" "booking" ["csv"]
           "IRCTC" s "csv" [Reference.karur_chunk; Reference.karur_chunk]).
  - reflexivity.
  - apply lookup_singleton_eq.
  - left. split; [reflexivity|]. by exists true.
Defined.

Lemma raising_chunk_ends_the_file_witness :
  let bad :=
    {| frame_columns :=
         frame_columns Reference.karur_chunk
           ++ [("TXN_DATE", ObjectCol [OStr "2024-01-15"; OStr "2024-01-16"])];
       nrows := 2; index_start := 2 |} in
  let s :=
    with_files
      (@system_of Reference.list_store ReferenceSite.readers
         (Reference.empty_world Reference.list_store []))
      {[ "/tmp/tmp.csv" := [Reference.karur_chunk; bad; Reference.karur_chunk] ]} in
  exists w1 e w2,
    @chunk_loop Reference.pandas Reference.list_store [Reference.karur_chunk]
      "karur_vysya" "booking" "IRCTC" (sys_world s) = (Returned tt, w1)
    /\ @process_dataframe_chunk Reference.pandas Reference.list_store bad
         "karur_vysya" "booking" "IRCTC" w1 = (Raised e, w2)
    /\ sys_world
         (@process_file Reference.pandas Reference.list_store ReferenceSite.readers
            0 "/tmp/tmp.csv" "karur_vysya" "booking" ["csv"] "IRCTC" s).2 = w2
    /\ @database Reference.list_store w2 = @database Reference.list_store w1.
Proof.
  intros bad s.
  destruct (@process_dataframe_chunk_total Reference.pandas Reference.list_store
              Reference.karur_chunk "karur_vysya" "booking" "IRCTC" (sys_world s))
    as [w1 Hfirst].
  { unfold all_object. by repeat constructor. }
  { apply (bool_decide_eq_true_1
             (NoDup (clean_column_name <$> labels Reference.karur_chunk))).
    vm_compute. reflexivity. }
  assert (Hbefore :
    @chunk_loop Reference.pandas Reference.list_store [Reference.karur_chunk]
      "karur_vysya" "booking" "IRCTC" (sys_world s) = (Returned tt, w1)).
  { cbn [chunk_loop]. by rewrite bind_run, Hfirst. }
  assert (Hraises : exists e w2,
    @process_dataframe_chunk Reference.pandas Reference.list_store bad
      "karur_vysya" "booking" "IRCTC" w1 = (Raised e, w2)).
  { destruct (@process_dataframe_chunk Reference.pandas Reference.list_store bad
                "karur_vysya" "booking" "IRCTC" w1) as [[u|e] w2] eqn:Hbad;
      [vm_compute in Hbad; discriminate Hbad|].
    by exists e, w2. }
  destruct Hraises as (e & w2 & Hbad).
  exists w1, e, w2. split; [exact Hbefore|]. split; [exact Hbad|].
  destruct (@raising_chunk_ends_the_file Reference.pandas Reference.list_store
              ReferenceSite.readers 0 "/tmp/tmp.csv" "karur_vysya" "booking"
              ["csv"] "IRCTC" s "csv"
              [Reference.karur_chunk; bad; Reference.karur_chunk]
              [Reference.karur_chunk] bad [Reference.karur_chunk] w1 e w2)
    as (Hworld & Hdb & _).
  - reflexivity.
  - apply lookup_singleton_eq.
  - left. split; [reflexivity|]. by exists true.
  - exact Hbefore.
  - exact Hbad.
  - split; [exact Hworld | exact Hdb].
Defined.
